(** * Digital-transformation index query system: a model of [src/text/2.py]

    The program reads one spreadsheet of keyword frequencies, derives a
    weighted index per company, guesses an industry from the company
    name, and shows a filtered table together with a top-10 ranking.

    The development follows the source from top to bottom:
    - text values (Python [str]) and binary64 numbers (Python [float]);
    - cells, rows and data frames, and the outcome of a fallible step;
    - the regular-expression fragment that [Series.str.contains] is used with;
    - [load_and_calculate_index] (index calculation, industry matching);
    - the filters and the top-10 view of [main];
    - the vocabulary of the properties, and a sample sheet;
    - the properties: the index, the labels, the failures of the loader,
      the three filters, the top-10 table. *)

From Stdlib Require Import ZArith NArith List Bool Ascii String Lia.
From Stdlib Require Import Floats.SpecFloat.
From stdpp Require Import gmap strings list.

Set Default Proof Using "Type".

(* ===================================================================== *)
(** ** Text *)
(* ===================================================================== *)

(** A Python [str] is a sequence of Unicode code points.  Column names
    are only ever compared for equality and are kept as byte strings;
    cell contents are matched character by character and are kept as
    code points. *)
Definition char := N.
Definition str := list char.

(** Decoding of the UTF-8 bytes of a literal into code points. *)
Fixpoint utf8_decode (bs : list N) : str :=
  match bs with
  | [] => []
  | b :: t =>
      if (b <? 128)%N then b :: utf8_decode t
      else if (b <? 224)%N then
        match t with
        | b1 :: t' => ((b - 192) * 64 + (b1 - 128))%N :: utf8_decode t'
        | _ => []
        end
      else if (b <? 240)%N then
        match t with
        | b1 :: b2 :: t' =>
            ((b - 224) * 4096 + (b1 - 128) * 64 + (b2 - 128))%N :: utf8_decode t'
        | _ => []
        end
      else
        match t with
        | b1 :: b2 :: b3 :: t' =>
            ((b - 240) * 262144 + (b1 - 128) * 4096 + (b2 - 128) * 64 + (b3 - 128))%N
              :: utf8_decode t'
        | _ => []
        end
  end.

(** [u "..."] is the Python string written with that literal. *)
Definition u (s : string) : str :=
  utf8_decode (map N_of_ascii (list_ascii_of_string s)).

(** [sep.join(parts)] *)
Fixpoint join (sep : str) (parts : list str) : str :=
  match parts with
  | [] => []
  | [p] => p
  | p :: rest => p ++ sep ++ join sep rest
  end.

(* ===================================================================== *)
(** ** Numbers *)
(* ===================================================================== *)

(** A Python [float] is an IEEE-754 binary64 value; the operations are
    the correctly rounded ones of the standard library's specification
    of floating-point arithmetic. *)
Module F64.

Definition prec : Z := 53.
Definition emax : Z := 1024.

Definition t := spec_float.

Definition nan : t := S754_nan.
Definition of_Z (z : Z) : t := binary_normalize prec emax z 0 false.
Definition add : t -> t -> t := SFadd prec emax.
Definition sub : t -> t -> t := SFsub prec emax.
Definition abs : t -> t := SFabs.
Definition mul : t -> t -> t := SFmul prec emax.
Definition div : t -> t -> t := SFdiv prec emax.
Definition eqb : t -> t -> bool := SFeqb.
Definition leb : t -> t -> bool := SFleb.

Definition is_nan (x : t) : bool :=
  match x with S754_nan => true | _ => false end.

(** The value of the decimal literal [n / 10^k] written in the source,
    that is the binary64 number nearest to that fraction. *)
Definition decimal (n : Z) (k : nat) : t :=
  div (of_Z n) (of_Z (10 ^ Z.of_nat k)).

End F64.

Abbreviation float64 := F64.t.

(* ===================================================================== *)
(** ** Cells, rows and frames *)
(* ===================================================================== *)

(** What a spreadsheet cell holds once read: an integer, a float (an
    empty cell is the float NaN) or text. *)
Inductive cell :=
| VInt (z : Z)
| VFloat (f : float64)
| VStr (s : str).

(** A row maps column names to cells; a frame is its column index and
    its rows in order.  [pd.DataFrame()] has neither columns nor rows. *)
Record DataFrame := mkFrame {
  columns : list string;
  rows : list (gmap string cell)
}.

Definition empty_frame : DataFrame := mkFrame [] [].

(** [df.empty] *)
Definition df_empty (df : DataFrame) : bool :=
  match columns df, rows df with
  | [], _ | _, [] => true
  | _, _ => false
  end.

(** [len(df)] *)
Definition df_len (df : DataFrame) : nat := length (rows df).

(* ===================================================================== *)
(** ** Outcomes of fallible steps *)
(* ===================================================================== *)

(** The exceptions the modelled operations raise. *)
Inductive exn :=
| KeyError (col : string)          (* a column label that is not there *)
| TypeError                        (* text multiplied by a float, text compared with a float *)
| AttributeError (col : string)    (* [.str] on a column without text *)
| ValueError                       (* a mask that contains missing values *)
| ReadError (msg : string).        (* whatever [pd.read_excel] raised *)

(** A step returns a value, raises, or leaves the part of the libraries
    that is modelled here ([Beyond]): a search pattern that uses regular
    expression syntax outside the fragment below, or a logical operation
    on a mask with missing values. *)
Inductive outcome (A : Type) :=
| Ok (a : A)
| Raise (e : exn)
| Beyond.
Arguments Ok {A} a.
Arguments Raise {A} e.
Arguments Beyond {A}.

Definition obind {A B} (m : outcome A) (f : A -> outcome B) : outcome B :=
  match m with
  | Ok a => f a
  | Raise e => Raise e
  | Beyond => Beyond
  end.

Declare Scope outcome_scope.
Delimit Scope outcome_scope with outcome.
Notation "x <- m ;; k" := (obind m (fun x => k))
  (at level 100, m at next level, right associativity) : outcome_scope.
Open Scope outcome_scope.

(** Running a step over a list from left to right, stopping at the first
    one that does not return. *)
Fixpoint map_ok {A B} (f : A -> outcome B) (l : list A) : outcome (list B) :=
  match l with
  | [] => Ok []
  | a :: l' => b <- f a ;; bs <- map_ok f l' ;; Ok (b :: bs)
  end.

Fixpoint fold_ok {A B} (f : A -> B -> outcome A) (l : list B) (a : A) : outcome A :=
  match l with
  | [] => Ok a
  | b :: l' => a' <- f a b ;; fold_ok f l' a'
  end.

(** [row[col]] *)
Definition row_get (r : gmap string cell) (col : string) : outcome cell :=
  match r !! col with
  | Some c => Ok c
  | None => Raise (KeyError col)
  end.

(** [df[col]]: the column as a list of cells, top to bottom. *)
Definition df_get (df : DataFrame) (col : string) : outcome (list cell) :=
  if bool_decide (col ∈ columns df)
  then map_ok (fun r => row_get r col) (rows df)
  else Raise (KeyError col).

(** [df[col] = values]: the column is replaced, or appended when new. *)
Definition df_set (df : DataFrame) (col : string) (values : list cell) : DataFrame :=
  mkFrame
    (if bool_decide (col ∈ columns df) then columns df else columns df ++ [col])
    (zip_with (fun r v => <[col := v]> r) (rows df) values).

(** [df[mask]]: the rows whose mask entry is true, in order. *)
Definition df_mask (df : DataFrame) (mask : list bool) : DataFrame :=
  mkFrame (columns df)
    (map fst (List.filter snd (combine (rows df) mask))).

(** [df.loc[mask, col] = v]: the cell is overwritten in the rows whose
    mask entry is true. *)
Definition df_loc_set (df : DataFrame) (mask : list bool) (col : string) (v : cell)
    : DataFrame :=
  mkFrame
    (if bool_decide (col ∈ columns df) then columns df else columns df ++ [col])
    (zip_with (fun r (b : bool) => if b then <[col := v]> r else r) (rows df) mask).

(** A mask is usable for selection only when it has no missing entry. *)
Definition check_bool_indexer (mask : list (option bool)) : outcome (list bool) :=
  map_ok (fun b => match b with Some b => Ok b | None => Raise ValueError end) mask.

(* ===================================================================== *)
(** ** The regular expressions of [Series.str.contains] *)
(* ===================================================================== *)

(** [str.contains(pat, case=False)] compiles [pat] as a regular
    expression and searches every cell for it, ignoring case.  The
    fragment modelled here is the one the program's own patterns live
    in: alternatives separated by [|], each a sequence of ordinary
    characters and [.]; any other special character leaves the fragment. *)
Inductive atom :=
| Lit (c : char)
| Dot.

Definition regex := list (list atom).

Definition BAR : char := 124%N.
Definition DOT : char := 46%N.
Definition NEWLINE : char := 10%N.

(** The characters with a special meaning in a pattern:
    [. ^ $ * + ? { } [ ] \ | ( )] *)
Definition special_chars : list char :=
  [46; 94; 36; 42; 43; 63; 123; 125; 91; 93; 92; 124; 40; 41]%N.

Definition is_special (c : char) : bool := bool_decide (c ∈ special_chars).

Definition parse_atom (c : char) : option atom :=
  if (c =? DOT)%N then Some Dot
  else if is_special c then None
  else Some (Lit c).

(** The alternatives of a pattern: the text between the bars. *)
Fixpoint split_bar (p : str) : list str :=
  match p with
  | [] => [[]]
  | c :: p' =>
      if (c =? BAR)%N then [] :: split_bar p'
      else match split_bar p' with
           | b :: bs => (c :: b) :: bs
           | [] => [[c]]
           end
  end.

Definition re_compile (p : str) : option regex :=
  mapM (mapM parse_atom) (split_bar p).

Section Matching.

(** Case folding of a code point, as the Unicode tables of the running
    interpreter define it.  Two characters match without regard to
    case when their foldings agree. *)
Variable lower : char -> char.

Definition atom_match (a : atom) (c : char) : bool :=
  match a with
  | Lit k => (lower k =? lower c)%N
  | Dot => negb (c =? NEWLINE)%N
  end.

(** Does the sequence match at the very start of the text? *)
Fixpoint match_here (branch : list atom) (s : str) : bool :=
  match branch, s with
  | [], _ => true
  | _ :: _, [] => false
  | a :: branch', c :: s' => atom_match a c && match_here branch' s'
  end.

(** Does it match at some position of the text? *)
Fixpoint match_anywhere (branch : list atom) (s : str) : bool :=
  match_here branch s ||
  match s with
  | [] => false
  | _ :: s' => match_anywhere branch s'
  end.

(** [re.search]: some alternative matches somewhere. *)
Definition re_search (r : regex) (s : str) : bool :=
  existsb (fun branch => match_anywhere branch s) r.

(** The [.str] accessor exists on a column that holds text; a column
    of numbers only does not have it.  [dtype_of] is the column as it
    was loaded, which fixes the column type of every view of it. *)
Definition is_text (c : cell) : bool :=
  match c with VStr _ => true | _ => false end.

Definition str_accessor (col : string) (dtype_of : list cell) : outcome unit :=
  match dtype_of with
  | [] => Ok tt
  | _ => if existsb is_text dtype_of then Ok tt else Raise (AttributeError col)
  end.

(** [series.str.contains(pat, case=False)]: one answer per cell, and
    no answer ([None], the missing value) for a cell that is not text. *)
Definition str_contains (col : string) (dtype_of : list cell)
    (series : list cell) (pat : str) : outcome (list (option bool)) :=
  _ <- str_accessor col dtype_of ;;
  match re_compile pat with
  | None => Beyond
  | Some r =>
      Ok (map (fun c => match c with
                        | VStr s => Some (re_search r s)
                        | _ => None
                        end) series)
  end.

End Matching.

(* ===================================================================== *)
(** ** Configuration *)
(* ===================================================================== *)

Definition DEFAULT_FILE_PATH : string :=
  "C:\Users\Lenovo\Desktop\text\数字化转型词频统计结果（总）.xlsx".

(** The industry table, in the order the dictionary literal lists it
    (a dictionary iterates in insertion order). *)
Definition INDUSTRY_MAPPING : list (str * list str) :=
  [ (u "金融", [u "银行"; u "保险"; u "证券"; u "金融"; u "基金"; u "投资"; u "信托"]);
    (u "房地产", [u "地产"; u "置业"; u "房产"; u "物业"; u "房地产"]);
    (u "制造业", [u "制造"; u "工业"; u "科技"; u "电子"; u "机械"; u "设备"; u "汽车"]);
    (u "交通运输", [u "航空"; u "铁路"; u "物流"; u "港口"; u "运输"; u "交通"; u "航运"]);
    (u "能源", [u "电力"; u "石油"; u "煤炭"; u "能源"; u "燃气"; u "新能源"]);
    (u "信息技术", [u "信息"; u "技术"; u "软件"; u "互联网"; u "计算机"; u "通信"]);
    (u "医疗健康", [u "医疗"; u "医药"; u "健康"; u "生物"; u "制药"]);
    (u "消费", [u "零售"; u "食品"; u "饮料"; u "消费"; u "家电"; u "服装"]);
    (u "教育", [u "教育"; u "培训"; u "学校"]);
    (u "传媒", [u "传媒"; u "广告"; u "娱乐"; u "影视"; u "出版"]) ].

(** The label a row carries before any industry has matched. *)
Definition OTHER : str := u "其他".

(** The weights of the index, in the order of the dictionary literal. *)
Definition TECH_WEIGHTS : list (string * float64) :=
  [ ("人工智能技术"%string, F64.decimal 3 1);
    ("区块链技术"%string, F64.decimal 1 1);
    ("大数据技术"%string, F64.decimal 25 2);
    ("云计算技术"%string, F64.decimal 15 2);
    ("数字技术应用"%string, F64.decimal 2 1) ].

(* ===================================================================== *)
(** ** The index *)
(* ===================================================================== *)

(** [row[tech] * weight]: an integer cell is converted to a float first,
    text cannot be multiplied by a float. *)
Definition py_mul (c : cell) (w : float64) : outcome float64 :=
  match c with
  | VInt z => Ok (F64.mul (F64.of_Z z) w)
  | VFloat f => Ok (F64.mul f w)
  | VStr _ => Raise TypeError
  end.

(** [sum(row[tech] * weight for tech, weight in items)]: the products
    are added one after the other, from the left, to the running total,
    each addition rounded to the nearest float. *)
Fixpoint py_sum (r : gmap string cell) (items : list (string * float64))
    (total : float64) : outcome float64 :=
  match items with
  | [] => Ok total
  | (tech, weight) :: items' =>
      c <- row_get r tech ;;
      p <- py_mul c weight ;;
      py_sum r items' (F64.add total p)
  end.

(** Interpreters from CPython 3.12 on add items that are exactly of
    type [float] with Neumaier's compensation instead: beside the running
    total they keep the rounding errors made so far and add them at the
    end.  [first] is the total after the first item, which is added to
    the integer 0 without compensation. *)
Definition neumaier_step (state : float64 * float64) (x : float64)
    : float64 * float64 :=
  let '(total, c) := state in
  let t := F64.add total x in
  (t, if F64.leb (F64.abs x) (F64.abs total)
      then F64.add c (F64.add (F64.sub total t) x)
      else F64.add c (F64.add (F64.sub x t) total)).

Definition neumaier_sum (first : float64) (rest : list float64) : float64 :=
  let '(total, c) := fold_left neumaier_step rest (first, F64.of_Z 0) in
  match c with
  | S754_finite _ _ _ => F64.add total c
  | _ => total
  end.

(** The lambda applied to each row; [sum] starts from 0. *)
Definition row_index (r : gmap string cell) : outcome float64 :=
  py_sum r TECH_WEIGHTS (F64.of_Z 0).

(** [df['数字化转型指数'] = df.apply(lambda row: ..., axis=1)] *)
Definition calculate_index (df : DataFrame) : outcome DataFrame :=
  values <- map_ok row_index (rows df) ;;
  Ok (df_set df "数字化转型指数" (map VFloat values)).

(* ===================================================================== *)
(** ** What the page shows *)
(* ===================================================================== *)

(** The texts of the four messages, by the data they are built from. *)
Inductive message :=
| FileMissing (path : string)      (* the file does not exist: path *)
| ProcessingFailed (cause : exn)   (* processing failed: text of the exception *)
| Loaded (companies : nat)         (* loaded, with the number of companies *)
| CheckPathOrFormat.               (* loading failed, check the path or the format *)

Inductive heading :=
| QueryResults (companies : nat)
| Distribution
| Top10.

(** The calls made on the page, in order. *)
Inductive event :=
| st_title
| st_markdown
| st_error (m : message)
| st_success (m : message)
| st_warning (m : message)
| st_subheader (h : heading)
| st_dataframe (table : DataFrame)
| st_pyplot (histogram_of : list cell).

(** A step of the page may show things before it returns or raises;
    what has been shown stays shown. *)
Definition ui (A : Type) : Type := list event -> outcome A * list event.

Definition ui_ret {A} (a : A) : ui A := fun shown => (Ok a, shown).

Definition ui_bind {A B} (m : ui A) (f : A -> ui B) : ui B :=
  fun shown =>
    match m shown with
    | (Ok a, shown') => f a shown'
    | (Raise e, shown') => (Raise e, shown')
    | (Beyond, shown') => (Beyond, shown')
    end.

Definition show (ev : event) : ui unit := fun shown => (Ok tt, shown ++ [ev]).

Definition lift {A} (o : outcome A) : ui A := fun shown => (o, shown).

(** [try: body except Exception as e: handler(e)] *)
Definition try_except {A} (body : ui A) (handler : exn -> ui A) : ui A :=
  fun shown =>
    match body shown with
    | (Raise e, shown') => handler e shown'
    | result => result
    end.

Definition run {A} (m : ui A) : outcome A * list event := m [].

Declare Scope ui_scope.
Delimit Scope ui_scope with ui.
Bind Scope ui_scope with ui.
Notation "x <- m ;; k" := (ui_bind m (fun x => k))
  (at level 100, m at next level, right associativity) : ui_scope.
Notation "m ;; k" := (ui_bind m (fun _ => k))
  (at level 100, right associativity) : ui_scope.

(** The two things the loader asks of the machine it runs on. *)
Record world := mkWorld {
  path_exists : string -> bool;                 (* [os.path.exists] *)
  read_excel : string -> exn + DataFrame         (* [pd.read_excel] *)
}.

(** A library call that returns or raises. *)
Definition call {A} (result : exn + A) : outcome A :=
  match result with
  | inl e => Raise e
  | inr a => Ok a
  end.

(* ===================================================================== *)
(** ** The loader *)
(* ===================================================================== *)

Section Program.

Variable lower : char -> char.

(** One turn of the loop over the industry table:
    [pattern = '|'.join(keywords)] and
    [df.loc[df['企业名称'].str.contains(pattern, case=False), '行业'] = industry]. *)
Definition match_industry (df : DataFrame) (entry : str * list str)
    : outcome DataFrame :=
  let '(industry, keywords) := entry in
  let pattern := join [BAR] keywords in
  names <- df_get df "企业名称" ;;
  found <- str_contains lower "企业名称" names names pattern ;;
  mask <- check_bool_indexer found ;;
  Ok (df_loc_set df mask "行业" (VStr industry)).

(** [df['行业'] = '其他'] followed by the loop. *)
Definition match_industries (df : DataFrame) : outcome DataFrame :=
  fold_ok match_industry INDUSTRY_MAPPING
    (df_set df "行业" (replicate (df_len df) (VStr OTHER))).

(** The body of the [try]. *)
Definition load_body (w : world) : ui DataFrame :=
  (df <- lift (call (read_excel w DEFAULT_FILE_PATH)) ;;
   df <- lift (calculate_index df) ;;
   df <- lift (match_industries df) ;;
   show (st_success (Loaded (df_len df))) ;;
   ui_ret df)%ui.

(** The loader.  It is cached by the page, so one run of the model is
    the one execution of a session. *)
Definition load_and_calculate_index (w : world) : ui DataFrame :=
  if negb (path_exists w DEFAULT_FILE_PATH) then
    (show (st_error (FileMissing DEFAULT_FILE_PATH)) ;;
     ui_ret empty_frame)%ui
  else
    try_except (load_body w)
      (fun e => (show (st_error (ProcessingFailed e)) ;;
                 ui_ret empty_frame)%ui).

(* ===================================================================== *)
(** ** The page *)
(* ===================================================================== *)

(** What the three widgets of the side bar return on this run. *)
Record inputs := mkInputs {
  selected_industries : list str;        (* [st.sidebar.multiselect] *)
  index_range : float64 * float64;       (* [st.sidebar.slider], a pair *)
  search_term : str                      (* [st.sidebar.text_input] *)
}.

(** [series.isin(values)] on one cell. *)
Definition cell_isin (values : list str) (c : cell) : bool :=
  match c with
  | VStr s => bool_decide (s ∈ values)
  | _ => false
  end.

(** A cell compared with a float: integers are converted, text
    cannot be compared. *)
Definition cell_float (c : cell) : outcome float64 :=
  match c with
  | VFloat f => Ok f
  | VInt z => Ok (F64.of_Z z)
  | VStr _ => Raise TypeError
  end.

(** [(series >= lo) & (series <= hi)] on one value. *)
Definition in_range (range : float64 * float64) (f : float64) : bool :=
  F64.leb (fst range) f && F64.leb f (snd range).

(** [a | b] on two answers of [str.contains]; a missing answer on
    either side leaves the model. *)
Definition logical_or (a b : list (option bool)) : outcome (list bool) :=
  map_ok (fun ab => match ab with
                    | (Some x, Some y) => Ok (x || y)
                    | _ => Beyond
                    end) (combine a b).

(** The industry filter: skipped when nothing is selected. *)
Definition filter_industry (selected : list str) (view : DataFrame)
    : outcome DataFrame :=
  match selected with
  | [] => Ok view
  | _ =>
      labels <- df_get view "行业" ;;
      Ok (df_mask view (map (cell_isin selected) labels))
  end.

(** The range filter: always applied. *)
Definition filter_range (range : float64 * float64) (view : DataFrame)
    : outcome DataFrame :=
  cells <- df_get view "数字化转型指数" ;;
  values <- map_ok cell_float cells ;;
  Ok (df_mask view (map (in_range range) values)).

(** The search filter: skipped when the term is empty.  [df] is the
    loaded frame, which fixes the types of the columns of [view]. *)
Definition filter_search (df : DataFrame) (term : str) (view : DataFrame)
    : outcome DataFrame :=
  match term with
  | [] => Ok view
  | _ =>
      codes <- df_get view "股票代码" ;;
      all_codes <- df_get df "股票代码" ;;
      in_code <- str_contains lower "股票代码" all_codes codes term ;;
      names <- df_get view "企业名称" ;;
      all_names <- df_get df "企业名称" ;;
      in_name <- str_contains lower "企业名称" all_names names term ;;
      mask <- logical_or in_code in_name ;;
      Ok (df_mask view mask)
  end.

(** The three filters, in the order [main] applies them to a copy of
    the loaded frame. *)
Definition apply_filters (df : DataFrame) (inp : inputs) : outcome DataFrame :=
  view <- filter_industry (selected_industries inp) df ;;
  view <- filter_range (index_range inp) view ;;
  filter_search df (search_term inp) view.

(** [view[cols]] *)
Definition df_select (view : DataFrame) (cols : list string) : outcome DataFrame :=
  match List.find (fun c => negb (bool_decide (c ∈ columns view))) cols with
  | Some c => Raise (KeyError c)
  | None =>
      Ok (mkFrame cols
            (map (fun r : gmap string cell =>
                    filter (fun kv => fst kv ∈ cols) r) (rows view)))
  end.

(** The order in which [sort_values(by=..., ascending=False)] takes
    the rows, given the column to sort by: positions into the column,
    from the first row of the result to the last, missing values last.
    No [kind] is passed, so the sort is the library's default one,
    whose algorithm depends on the library version and on the machine;
    it is a parameter here. *)
Variable argsort_desc : list float64 -> list nat.

(** The row at a position, if there is one. *)
Definition row_at (rs : list (gmap string cell)) (i : nat)
    : list (gmap string cell) :=
  match rs !! i with
  | Some r => [r]
  | None => []
  end.

(** [view.sort_values(by='数字化转型指数', ascending=False)] *)
Definition sort_values_desc (view : DataFrame) : outcome DataFrame :=
  cells <- df_get view "数字化转型指数" ;;
  keys <- map_ok cell_float cells ;;
  Ok (mkFrame (columns view)
        (List.flat_map (row_at (rows view)) (argsort_desc keys))).

(** [.head(10)] *)
Definition head (n : nat) (view : DataFrame) : DataFrame :=
  mkFrame (columns view) (take n (rows view)).

Definition top10 (view : DataFrame) : outcome DataFrame :=
  sorted <- sort_values_desc view ;;
  Ok (head 10 sorted).

(** The page.  The calls on the side bar put nothing on the page
    itself; what its three widgets return is [inp]. *)
Definition main (w : world) (inp : inputs) : ui unit :=
  (show st_title ;;
   show st_markdown ;;
   df <- load_and_calculate_index w ;;
   if df_empty df then
     show (st_warning CheckPathOrFormat) ;;
     ui_ret tt
   else
     filtered_df <- lift (apply_filters df inp) ;;
     show (st_subheader (QueryResults (df_len filtered_df))) ;;
     table <- lift (df_select filtered_df
                      ["股票代码"; "企业名称"; "行业"; "数字化转型指数"; "总词频数"]%string) ;;
     show (st_dataframe table) ;;
     show (st_subheader Distribution) ;;
     values <- lift (df_get filtered_df "数字化转型指数") ;;
     show (st_pyplot values) ;;
     show (st_subheader Top10) ;;
     top10_df <- lift (top10 filtered_df) ;;
     table <- lift (df_select top10_df
                      ["股票代码"; "企业名称"; "行业"; "数字化转型指数"]%string) ;;
     show (st_dataframe table))%ui.

End Program.

(* ===================================================================== *)
(** ** The vocabulary of the properties *)
(* ===================================================================== *)

(** The processing inside the [try], without what it shows. *)
Definition processing (lower : char -> char) (w : world) : outcome DataFrame :=
  df <- call (read_excel w DEFAULT_FILE_PATH) ;;
  df <- calculate_index df ;;
  match_industries lower df.

(** The number a frequency cell stands for in the index. *)
Definition frequency (r : gmap string cell) (col : string) : option float64 :=
  match r !! col with
  | Some (VInt z) => Some (F64.of_Z z)
  | Some (VFloat f) => Some f
  | _ => None
  end.

(** The weighted sum as the specification writes it, with the five
    weights 0.30, 0.10, 0.25, 0.15 and 0.20, added in this order. *)
Definition weighted_index (ai blockchain bigdata cloud application : float64) : float64 :=
  F64.add (F64.add (F64.add (F64.add (F64.add (F64.of_Z 0)
    (F64.mul ai (F64.decimal 30 2)))
    (F64.mul blockchain (F64.decimal 10 2)))
    (F64.mul bigdata (F64.decimal 25 2)))
    (F64.mul cloud (F64.decimal 15 2)))
    (F64.mul application (F64.decimal 20 2)).

(** [k] occurs in [s] as a substring, ignoring case. *)
Definition occurs_in (lower : char -> char) (k s : str) : Prop :=
  exists pre mid post, s = pre ++ mid ++ post /\ map lower mid = map lower k.

(** Some keyword of the list occurs in the name. *)
Definition has_keyword (lower : char -> char) (keywords : list str) (name : str) : Prop :=
  exists k, k ∈ keywords /\ occurs_in lower k name.

(** The test the loop makes for one industry, on one name. *)
Definition keywords_match (lower : char -> char) (keywords : list str) (name : str) : bool :=
  match re_compile (join [BAR] keywords) with
  | Some r => re_search lower r name
  | None => false
  end.

(** The classifier as a function of the name alone: go through the
    table in order and keep the label of the last industry that matched. *)
Definition label_step (lower : char -> char) (name : str)
    (label : str) (entry : str * list str) : str :=
  if keywords_match lower (snd entry) name then fst entry else label.

Definition label_of (lower : char -> char) (name : str) : str :=
  fold_left (label_step lower name) INDUSTRY_MAPPING OTHER.

(** The eleven labels. *)
Definition LABELS : list str := OTHER :: map fst INDUSTRY_MAPPING.

(** The three tests of the filters, on one row. *)
Definition passes_industry (selected : list str) (r : gmap string cell) : bool :=
  match selected with
  | [] => true
  | _ => match r !! "行业" with
         | Some c => cell_isin selected c
         | None => false
         end
  end.

Definition passes_range (range : float64 * float64) (r : gmap string cell) : bool :=
  match r !! "数字化转型指数" with
  | Some c => match cell_float c with
              | Ok f => in_range range f
              | _ => false
              end
  | None => false
  end.

Definition cell_search (lower : char -> char) (re : regex) (c : option cell) : bool :=
  match c with
  | Some (VStr s) => re_search lower re s
  | _ => false
  end.

Definition passes_search (lower : char -> char) (term : str)
    (r : gmap string cell) : bool :=
  match term with
  | [] => true
  | _ => match re_compile term with
         | Some re => cell_search lower re (r !! "股票代码")
                      || cell_search lower re (r !! "企业名称")
         | None => false
         end
  end.


(** The column is there and holds text in every row. *)
Definition text_column (col : string) (frame : DataFrame) : Prop :=
  col ∈ columns frame /\
  Forall (fun r => exists s, r !! col = Some (VStr s)) (rows frame).

(** The column is there and holds a float in every row. *)
Definition float_column (col : string) (frame : DataFrame) : Prop :=
  col ∈ columns frame /\
  Forall (fun r => exists f, r !! col = Some (VFloat f)) (rows frame).



(** The sort key of a row. *)
Definition key_of (r : gmap string cell) : float64 :=
  match r !! "数字化转型指数" with
  | Some (VFloat f) => f
  | Some (VInt z) => F64.of_Z z
  | _ => F64.nan
  end.

(** [a] may stand directly before [b] in a descending column whose
    missing values come last. *)
Definition desc_ok (a b : float64) : bool :=
  F64.is_nan b || (negb (F64.is_nan a) && F64.leb b a).

Fixpoint descending (l : list float64) : bool :=
  match l with
  | a :: (b :: _) as l' => desc_ok a b && descending l'
  | _ => true
  end.

(** What the default sort promises for a descending sort with missing
    values last: every position once, and the keys in descending order.
    The default kind is not a stable one, so nothing is promised about
    the order of equal keys. *)
Definition sorts_descending (argsort : list float64 -> list nat) : Prop :=
  forall keys,
    argsort keys ≡ₚ seq 0 (length keys) /\
    descending (map (fun i => nth i keys F64.nan) (argsort keys)) = true.

(** Two sorts that keep this promise, both by insertion from the right.
    The first puts a key before the equal keys already placed, which
    keeps equal keys in their original order; the second puts it after
    them, which reverses them. *)
Fixpoint insert_by (before : float64 -> float64 -> bool)
    (x : nat * float64) (l : list (nat * float64)) : list (nat * float64) :=
  match l with
  | [] => [x]
  | h :: t => if before (snd x) (snd h) then x :: h :: t
              else h :: insert_by before x t
  end.

Definition insertion_argsort (before : float64 -> float64 -> bool)
    (keys : list float64) : list nat :=
  map fst (foldr (insert_by before) [] (combine (seq 0 (length keys)) keys)).

Definition stable_argsort : list float64 -> list nat :=
  insertion_argsort desc_ok.



(** Case folding restricted to the letters A to Z. *)
Definition ascii_lower (c : char) : char :=
  if ((65 <=? c) && (c <=? 90))%N then (c + 32)%N else c.

(** A small sheet and the machine that holds it. *)
Definition sheet_columns : list string :=
  ["股票代码"; "企业名称"; "人工智能技术"; "区块链技术"; "大数据技术";
   "云计算技术"; "数字技术应用"; "总词频数"]%string.

Definition sheet_row (code name : string) (ai bc bd cc da total : Z)
    : gmap string cell :=
  <["股票代码" := VStr (u code)]> (
  <["企业名称" := VStr (u name)]> (
  <["人工智能技术" := VInt ai]> (
  <["区块链技术" := VInt bc]> (
  <["大数据技术" := VInt bd]> (
  <["云计算技术" := VInt cc]> (
  <["数字技术应用" := VInt da]> (
  <["总词频数" := VInt total]> ∅))))))).

Definition sample_sheet : DataFrame :=
  mkFrame sheet_columns
    [ sheet_row "000001" "平安银行软件" 10 5 8 4 6 33;
      sheet_row "000002" "万科企业" 1 0 0 0 0 1;
      sheet_row "600519" "贵州茅台食品" 10 5 8 4 6 40;
      sheet_row "300001" "平安银行软件" 0 0 0 0 1 9 ].

Definition world_with (sheet : DataFrame) : world :=
  mkWorld (fun _ => true) (fun _ => inr sheet).

Definition sample_world : world := world_with sample_sheet.

(** The sample sheet once loaded. *)
Definition loaded_row (r : gmap string cell) (index : float64) (industry : string)
    : gmap string cell :=
  <["行业" := VStr (u industry)]> (<["数字化转型指数" := VFloat index]> r).

Definition sample_loaded : DataFrame :=
  mkFrame (sheet_columns ++ ["数字化转型指数"; "行业"]%string)
    [ loaded_row (sheet_row "000001" "平安银行软件" 10 5 8 4 6 33)
        (F64.decimal 73 1) "信息技术";
      loaded_row (sheet_row "000002" "万科企业" 1 0 0 0 0 1)
        (F64.decimal 3 1) "其他";
      loaded_row (sheet_row "600519" "贵州茅台食品" 10 5 8 4 6 40)
        (F64.decimal 73 1) "消费";
      loaded_row (sheet_row "300001" "平安银行软件" 0 0 0 0 1 9)
        (F64.decimal 2 1) "信息技术" ].

Definition sample_first_row : gmap string cell :=
  loaded_row (sheet_row "000001" "平安银行软件" 10 5 8 4 6 33)
    (F64.decimal 73 1) "信息技术".

Definition sample_second_row : gmap string cell :=
  loaded_row (sheet_row "000002" "万科企业" 1 0 0 0 0 1)
    (F64.decimal 3 1) "其他".

Definition sample_last_row : gmap string cell :=
  loaded_row (sheet_row "300001" "平安银行软件" 0 0 0 0 1 9)
    (F64.decimal 2 1) "信息技术".

(** The reading of the keyword table that the first industry listed
    among the matches of a name gives the label. *)
Definition first_match_wins (lower : char -> char) : Prop :=
  forall (w : world) (df : DataFrame) (shown : list event)
         (r : gmap string cell) (name : str)
         (i j : nat) (industry_i industry_j : str) (keywords_i keywords_j : list str),
    run (load_and_calculate_index lower w) = (Ok df, shown) ->
    r ∈ rows df ->
    r !! "企业名称" = Some (VStr name) ->
    INDUSTRY_MAPPING !! i = Some (industry_i, keywords_i) ->
    INDUSTRY_MAPPING !! j = Some (industry_j, keywords_j) ->
    i < j ->
    has_keyword lower keywords_i name ->
    has_keyword lower keywords_j name ->
    (forall m industry keywords,
        m < i -> INDUSTRY_MAPPING !! m = Some (industry, keywords) ->
        ~ has_keyword lower keywords name) ->
    r !! "行业" = Some (VStr industry_i).

Definition sample_third_row : gmap string cell :=
  loaded_row (sheet_row "600519" "贵州茅台食品" 10 5 8 4 6 40)
    (F64.decimal 73 1) "消费".

(** Two rows of the sample with the same index. *)
Definition tied_view : DataFrame :=
  mkFrame (columns sample_loaded) [sample_first_row; sample_third_row].

(** A sheet without the cloud column, and a machine without the file. *)
Definition broken_sheet : DataFrame :=
  mkFrame ["股票代码"; "企业名称"]%string
    [ <["股票代码" := VStr (u "000001")]> (<["企业名称" := VStr (u "平安银行")]> ∅) ].

Definition missing_world : world :=
  mkWorld (fun _ => false) (fun _ => inl (ReadError "unreachable")).

Definition all_selected : inputs :=
  mkInputs LABELS (F64.decimal 2 1, F64.decimal 73 1) [].



(* ===================================================================== *)
(** ** The defaults of the side bar *)
(* ===================================================================== *)

Global Instance float64_eq_dec : EqDecision spec_float.
Proof. solve_decision. Defined.

Global Instance cell_eq_dec : EqDecision cell.
Proof. solve_decision. Defined.

(** [series.unique()]: the values in the order of their first
    appearance. *)
Fixpoint unique (seen cells : list cell) : list cell :=
  match cells with
  | [] => []
  | c :: cells' =>
      if bool_decide (c ∈ seen) then unique seen cells'
      else c :: unique (c :: seen) cells'
  end.

Definition cell_text (c : cell) : option str :=
  match c with
  | VStr s => Some s
  | _ => None
  end.

(** [series.min()] and [series.max()]: missing values are skipped, and
    the result is NaN when nothing is left. *)
Definition float_min (a b : float64) : float64 := if F64.leb b a then b else a.
Definition float_max (a b : float64) : float64 := if F64.leb a b then b else a.

Definition skipna (values : list float64) : list float64 :=
  List.filter (fun v => negb (F64.is_nan v)) values.

Definition series_min (values : list float64) : float64 :=
  match skipna values with
  | [] => F64.nan
  | v :: vs => fold_left float_min vs v
  end.

Definition series_max (values : list float64) : float64 :=
  match skipna values with
  | [] => F64.nan
  | v :: vs => fold_left float_max vs v
  end.

(** What the widgets return as long as the user has not touched them:
    [industries = df['行业'].unique().tolist()] as the selection, the
    pair [(min_index, max_index)] as the range, and the empty term. *)
Definition default_inputs (df : DataFrame) : outcome inputs :=
  labels <- df_get df "行业" ;;
  cells <- df_get df "数字化转型指数" ;;
  values <- map_ok cell_float cells ;;
  Ok (mkInputs (omap cell_text (unique [] labels))
        (series_min values, series_max values) []).

(* ===================================================================== *)
(** ** More vocabulary *)
(* ===================================================================== *)

(** The five frequency columns, in the order of the weights. *)
Definition TECH_COLUMNS : list string := map fst TECH_WEIGHTS.

(** A sheet the loader accepts: the name column holds text and the five
    frequency columns hold numbers, in every row. *)
Definition well_formed_sheet (raw : DataFrame) : Prop :=
  text_column "企业名称" raw /\
  Forall (fun r => forall tech, tech ∈ TECH_COLUMNS ->
                                is_Some (frequency r tech)) (rows raw).

(** The place of a float in the order of the floats: first its class
    (negative infinity, negative, zero, positive, positive infinity),
    then exponent and mantissa.  NaN has no place; it is put apart. *)
Definition float_key (x : float64) : Z * Z * Z :=
  match x with
  | S754_nan => (3, 0, 0)%Z
  | S754_infinity true => (-2, 0, 0)%Z
  | S754_infinity false => (2, 0, 0)%Z
  | S754_zero _ => (0, 0, 0)%Z
  | S754_finite true m e => (-1, - e, - Z.pos m)%Z
  | S754_finite false m e => (1, e, Z.pos m)%Z
  end.

Definition key_le (a b : Z * Z * Z) : Prop :=
  let '(a1, a2, a3) := a in
  let '(b1, b2, b3) := b in
  (a1 < b1 \/ (a1 = b1 /\ (a2 < b2 \/ (a2 = b2 /\ a3 <= b3))))%Z.

(** A sheet whose stock codes are numbers, one without the word count
    column, and a row with an empty frequency cell. *)
Definition numeric_code_row (code : Z) (name : string) (ai bc bd cc da total : Z)
    : gmap string cell :=
  <["股票代码" := VInt code]> (sheet_row "" name ai bc bd cc da total).

Definition numeric_code_sheet : DataFrame :=
  mkFrame sheet_columns
    [ numeric_code_row 1 "平安银行" 10 5 8 4 6 33;
      numeric_code_row 2 "万科企业" 1 0 0 0 0 1 ].

Definition no_total_columns : list string :=
  ["股票代码"; "企业名称"; "人工智能技术"; "区块链技术"; "大数据技术";
   "云计算技术"; "数字技术应用"]%string.

Definition no_total_sheet : DataFrame :=
  mkFrame no_total_columns
    [ delete "总词频数" (sheet_row "000001" "平安银行" 10 5 8 4 6 33) ].

Definition gap_row : gmap string cell :=
  <["区块链技术" := VFloat F64.nan]> (sheet_row "000003" "国农科技" 3 0 1 1 2 7).

Definition gap_sheet : DataFrame :=
  mkFrame sheet_columns
    [ sheet_row "000001" "平安银行软件" 10 5 8 4 6 33; gap_row;
      sheet_row "000002" "万科企业" 1 0 0 0 0 1 ].

Definition gap_loaded : DataFrame :=
  mkFrame (sheet_columns ++ ["数字化转型指数"; "行业"]%string)
    [ sample_first_row; loaded_row gap_row F64.nan "制造业";
      sample_second_row ].

(** A sheet in which one company has no name. *)
Definition nameless_sheet : DataFrame :=
  mkFrame sheet_columns
    [ sheet_row "000001" "平安银行" 10 5 8 4 6 33;
      <["企业名称" := VFloat F64.nan]> (sheet_row "000002" "" 1 0 0 0 0 1) ].

(** The loaded sample with every label overwritten by the first industry. *)
Definition mislabelled_sample : DataFrame :=
  df_set sample_loaded "行业" (replicate 4 (VStr (u "金融"))).

(** A frame with a name in Latin letters. *)
Definition latin_view : DataFrame :=
  mkFrame (sheet_columns ++ ["数字化转型指数"; "行业"]%string)
    [ loaded_row (sheet_row "000100" "TCL科技" 1 0 0 0 0 5)
        (F64.decimal 3 1) "制造业";
      sample_second_row ].

(** The two sheets above once loaded. *)
Definition no_total_loaded : DataFrame :=
  mkFrame (no_total_columns ++ ["数字化转型指数"; "行业"]%string)
    [ loaded_row (delete "总词频数" (sheet_row "000001" "平安银行" 10 5 8 4 6 33))
        (F64.decimal 73 1) "金融" ].

Definition numeric_code_loaded : DataFrame :=
  mkFrame (sheet_columns ++ ["数字化转型指数"; "行业"]%string)
    [ loaded_row (numeric_code_row 1 "平安银行" 10 5 8 4 6 33)
        (F64.decimal 73 1) "金融";
      loaded_row (numeric_code_row 2 "万科企业" 1 0 0 0 0 1)
        (F64.decimal 3 1) "其他" ].

(* ===================================================================== *)
(** ** Sanity checks of the model on the sample *)
(* ===================================================================== *)

(** The example row of the index under compensated summation: the same
    float 7.3. *)
Example index_example_compensated :
  neumaier_sum
    (F64.add (F64.of_Z 0) (F64.mul (F64.of_Z 10) (F64.decimal 3 1)))
    [ F64.mul (F64.of_Z 5) (F64.decimal 1 1);
      F64.mul (F64.of_Z 8) (F64.decimal 25 2);
      F64.mul (F64.of_Z 4) (F64.decimal 15 2);
      F64.mul (F64.of_Z 6) (F64.decimal 2 1) ]
  = F64.decimal 73 1.
Proof. vm_compute. reflexivity. Qed.

(** The floats of two familiar literals, and a sum that is not the
    literal one would expect. *)
Example decimal_three_tenths :
  F64.decimal 3 1 = S754_finite false 5404319552844595 (-54).
Proof. vm_compute. reflexivity. Qed.

Example one_tenth_plus_two_tenths :
  F64.add (F64.decimal 1 1) (F64.decimal 2 1) <> F64.decimal 3 1.
Proof. vm_compute. discriminate. Qed.

(** The two sorts on two rows with the same index. *)
Example stable_keeps_ties :
  top10 stable_argsort tied_view
  = Ok (mkFrame (columns tied_view) [sample_first_row; sample_third_row]).
Proof. vm_compute. reflexivity. Qed.


(** A sheet with missing columns, and a term with a special character. *)
Example broken_sheet_fails :
  processing ascii_lower (world_with broken_sheet)
  = Raise (KeyError "人工智能技术").
Proof. vm_compute. reflexivity. Qed.

Example dot_keeps_every_row :
  filter_search ascii_lower sample_loaded (u ".") sample_loaded = Ok sample_loaded.
Proof. vm_compute. reflexivity. Qed.

Example open_parenthesis_is_beyond :
  filter_search ascii_lower sample_loaded (u "(") sample_loaded = Beyond.
Proof. vm_compute. reflexivity. Qed.

Example sample_loads :
  run (load_and_calculate_index ascii_lower sample_world)
  = (Ok sample_loaded, [st_success (Loaded 4)]).
Proof. vm_compute. reflexivity. Qed.

(* ===================================================================== *)
(** ** Steps that return *)
(* ===================================================================== *)

Lemma obind_Ok {A B} (m : outcome A) (f : A -> outcome B) (b : B) :
  obind m f = Ok b -> exists a, m = Ok a /\ f a = Ok b.
Proof. destruct m as [a| |]; simpl; intros H; try discriminate. eauto. Qed.

Lemma map_ok_Ok {A B} (f : A -> outcome B) (l : list A) (bs : list B) :
  map_ok f l = Ok bs -> Forall2 (fun a b => f a = Ok b) l bs.
Proof.
  revert bs. induction l as [|a l IH]; simpl; intros bs H.
  - injection H as <-. constructor.
  - apply obind_Ok in H as (b & Hb & H).
    apply obind_Ok in H as (bs' & Hbs & H).
    injection H as <-. constructor; auto.
Qed.

Lemma map_ok_total {A B} (f : A -> outcome B) (g : A -> B) (l : list A) :
  Forall (fun a => f a = Ok (g a)) l -> map_ok f l = Ok (map g l).
Proof.
  induction 1 as [|a l Ha _ IH]; simpl; [reflexivity|].
  rewrite Ha. simpl. rewrite IH. reflexivity.
Qed.

Lemma df_get_Ok (df : DataFrame) (col : string) (cells : list cell) :
  df_get df col = Ok cells ->
  col ∈ columns df /\ Forall2 (fun r c => r !! col = Some c) (rows df) cells.
Proof.
  unfold df_get. case_bool_decide as Hcol; [|discriminate].
  intros H. split; [exact Hcol|].
  apply map_ok_Ok in H. eapply Forall2_impl; [exact H|].
  intros r c. unfold row_get. destruct (r !! col); congruence.
Qed.

Lemma df_get_total (df : DataFrame) (col : string) (g : gmap string cell -> cell) :
  col ∈ columns df ->
  Forall (fun r => r !! col = Some (g r)) (rows df) ->
  df_get df col = Ok (map g (rows df)).
Proof.
  intros Hcol Hrows. unfold df_get. rewrite bool_decide_true by exact Hcol.
  apply map_ok_total. eapply Forall_impl; [exact Hrows|].
  intros r Hr. unfold row_get. rewrite Hr. reflexivity.
Qed.

(** Selecting with a mask that was computed row by row is filtering. *)
Lemma df_mask_rows (df : DataFrame) (mask : list bool)
    (keep : gmap string cell -> bool) :
  Forall2 (fun r b => keep r = b) (rows df) mask ->
  rows (df_mask df mask) = List.filter keep (rows df).
Proof.
  unfold df_mask. simpl. generalize (rows df). intros l H.
  induction H as [|r b l mask Hrb _ IH]; simpl; [reflexivity|].
  subst b. destruct (keep r); simpl; rewrite IH; reflexivity.
Qed.

Lemma zip_with_replicate_rows {A B} (f : A -> B -> A) (l : list A) (b : B) :
  zip_with f l (replicate (length l) b) = map (fun a => f a b) l.
Proof. induction l as [|a l IH]; simpl; [reflexivity|]. rewrite IH. reflexivity. Qed.

Lemma Forall2_fmap_l_rows {A B C} (f : A -> B) (P : B -> C -> Prop)
    (l : list A) (k : list C) :
  Forall2 P (map f l) k -> Forall2 (fun a c => P (f a) c) l k.
Proof.
  revert k. induction l as [|a l IH]; simpl; intros k H; inversion H; subst;
    constructor; auto.
Qed.

Lemma Forall2_zip_with_rows {A B} (f : A -> B -> A) (P : A -> B -> Prop)
    (l : list A) (k : list B) :
  Forall2 P l k -> Forall2 (fun a a' => exists b, P a b /\ a' = f a b) l (zip_with f l k).
Proof. induction 1; simpl; constructor; eauto. Qed.

(* ===================================================================== *)
(** ** Patterns made of ordinary characters *)
(* ===================================================================== *)

Section Literal_patterns.

Variable lower : char -> char.

Lemma match_here_literal (k s : str) :
  match_here lower (map Lit k) s = true <->
  exists mid post, s = mid ++ post /\ map lower mid = map lower k.
Proof.
  revert s. induction k as [|c k IH]; intros s; simpl.
  - split; [|reflexivity]. intros _. exists [], s. split; reflexivity.
  - destruct s as [|d s]; simpl.
    + split; [discriminate|]. intros (mid & post & Hs & Hmid).
      destruct mid; simpl in *; discriminate.
    + rewrite andb_true_iff, N.eqb_eq, IH. split.
      * intros (Hcd & mid & post & -> & Hmid).
        exists (d :: mid), post. simpl. split; [reflexivity|]. congruence.
      * intros (mid & post & Hs & Hmid).
        destruct mid as [|d' mid]; simpl in *; [discriminate|].
        injection Hs as <- ->. injection Hmid as Hd Hmid.
        split; [congruence|]. eauto.
Qed.

Lemma match_anywhere_literal (k s : str) :
  match_anywhere lower (map Lit k) s = true <-> occurs_in lower k s.
Proof.
  unfold occurs_in. induction s as [|d s IH]; simpl.
  - rewrite orb_false_r, match_here_literal. split.
    + intros (mid & post & Hs & Hmid). exists [], mid, post. auto.
    + intros (pre & mid & post & Hs & Hmid).
      destruct pre; simpl in *; [eauto|discriminate].
  - rewrite orb_true_iff, IH, match_here_literal. split.
    + intros [(mid & post & Hs & Hmid) | (pre & mid & post & -> & Hmid)].
      * exists [], mid, post. auto.
      * exists (d :: pre), mid, post. auto.
    + intros (pre & mid & post & Hs & Hmid).
      destruct pre as [|d' pre]; simpl in *; [left; eauto|].
      injection Hs as <- ->. right. eauto.
Qed.

Lemma re_search_literals (keywords : list str) (s : str) :
  re_search lower (map (map Lit) keywords) s = true <->
  has_keyword lower keywords s.
Proof.
  unfold re_search, has_keyword. rewrite existsb_exists. split.
  - intros (branch & Hin & Hm). apply in_map_iff in Hin as (k & <- & Hk).
    exists k. split; [apply list_elem_of_In, Hk|].
    apply match_anywhere_literal, Hm.
  - intros (k & Hk & Hocc). exists (map Lit k). split.
    + apply in_map, list_elem_of_In, Hk.
    + apply match_anywhere_literal, Hocc.
Qed.

(** A term without special characters compiles to itself. *)
Lemma parse_literal (t : str) :
  Forall (fun c => is_special c = false) t ->
  mapM parse_atom t = Some (map Lit t).
Proof.
  induction 1 as [|c t Hc _ IH]; [reflexivity|].
  cbn [mapM]. rewrite IH. unfold parse_atom at 1. rewrite Hc.
  destruct (c =? DOT)%N eqn:Hdot; [|reflexivity].
  apply N.eqb_eq in Hdot. subst c. discriminate Hc.
Qed.

Lemma split_bar_literal (t : str) :
  Forall (fun c => is_special c = false) t -> split_bar t = [t].
Proof.
  induction 1 as [|c t Hc _ IH]; [reflexivity|].
  simpl. rewrite IH. destruct (c =? BAR)%N eqn:Hbar; [|reflexivity].
  apply N.eqb_eq in Hbar. subst c. discriminate Hc.
Qed.

Lemma re_compile_literal (t : str) :
  Forall (fun c => is_special c = false) t ->
  re_compile t = Some [map Lit t].
Proof.
  intros Ht. unfold re_compile. rewrite split_bar_literal by exact Ht.
  cbn [mapM]. rewrite parse_literal by exact Ht. reflexivity.
Qed.

(** The patterns of the industry table are alternatives of keywords. *)
Lemma table_patterns :
  Forall (fun entry => re_compile (join [BAR] (snd entry))
                       = Some (map (map Lit) (snd entry))) INDUSTRY_MAPPING.
Proof. repeat constructor. Qed.

Lemma keywords_match_table (entry : str * list str) (name : str) :
  entry ∈ INDUSTRY_MAPPING ->
  keywords_match lower (snd entry) name = true <->
  has_keyword lower (snd entry) name.
Proof.
  intros Hin. unfold keywords_match.
  pose proof table_patterns as Hall. rewrite Forall_forall in Hall.
  rewrite (Hall entry) by exact Hin.
  apply re_search_literals.
Qed.

End Literal_patterns.

(* ===================================================================== *)
(** ** The loader, row by row *)
(* ===================================================================== *)

Section Loader_facts.

Variable lower : char -> char.

Lemma mask_of_names (re : regex) (rs : list (gmap string cell))
    (names : list cell) (mask : list bool) :
  Forall2 (fun r c => r !! "企业名称" = Some c) rs names ->
  check_bool_indexer
    (map (fun c => match c with
                   | VStr s => Some (re_search lower re s)
                   | _ => None
                   end) names) = Ok mask ->
  Forall2 (fun r b => exists s, r !! "企业名称" = Some (VStr s) /\
                                b = re_search lower re s) rs mask.
Proof.
  intros Hnames. revert mask.
  induction Hnames as [|r c rs names Hrc _ IH]; intros mask; simpl.
  - intros H. injection H as <-. constructor.
  - unfold check_bool_indexer. simpl. intros H.
    apply obind_Ok in H as (b & Hb & H).
    apply obind_Ok in H as (mask' & Hmask' & H). injection H as <-.
    destruct c as [z|f|s]; try discriminate. injection Hb as <-.
    constructor; [eauto|]. apply IH, Hmask'.
Qed.

Lemma match_industry_rows (df df' : DataFrame) (industry : str) (keywords : list str) :
  match_industry lower df (industry, keywords) = Ok df' ->
  Forall2 (fun r r' => exists s, r !! "企业名称" = Some (VStr s) /\
             r' = if keywords_match lower keywords s
                  then <["行业" := VStr industry]> r else r)
    (rows df) (rows df').
Proof.
  unfold match_industry. intros H.
  apply obind_Ok in H as (names & Hnames & H).
  apply obind_Ok in H as (found & Hfound & H).
  apply obind_Ok in H as (mask & Hmask & H). injection H as <-.
  apply df_get_Ok in Hnames as [_ Hnames].
  unfold str_contains in Hfound.
  apply obind_Ok in Hfound as (_ & _ & Hfound).
  destruct (re_compile (join [BAR] keywords)) as [re|] eqn:Hre; [|discriminate].
  injection Hfound as <-.
  pose proof (mask_of_names re _ _ _ Hnames Hmask) as Hrows.
  simpl. eapply Forall2_impl.
  - apply (Forall2_zip_with_rows
             (fun r (b : bool) => if b then <["行业" := VStr industry]> r else r)
             _ _ _ Hrows).
  - intros r r' (b & (s & Hs & ->) & ->). exists s. split; [exact Hs|].
    unfold keywords_match. rewrite Hre. reflexivity.
Qed.

Lemma match_industry_columns (df df' : DataFrame) (entry : str * list str) :
  match_industry lower df entry = Ok df' ->
  "行业" ∈ columns df -> columns df' = columns df.
Proof.
  destruct entry as [industry keywords]. unfold match_industry. intros H Hcol.
  apply obind_Ok in H as (names & _ & H).
  apply obind_Ok in H as (found & _ & H).
  apply obind_Ok in H as (mask & _ & H). injection H as <-.
  simpl. rewrite bool_decide_true by exact Hcol. reflexivity.
Qed.

Lemma fold_match_rows (table : list (str * list str)) (dfa dfb : DataFrame) :
  fold_ok (match_industry lower) table dfa = Ok dfb ->
  Forall2 (fun ra rb =>
             (table <> [] -> exists s, ra !! "企业名称" = Some (VStr s)) /\
             forall base l0 s,
               ra = <["行业" := VStr l0]> base ->
               ra !! "企业名称" = Some (VStr s) ->
               rb = <["行业" := VStr (fold_left (label_step lower s) table l0)]> base)
    (rows dfa) (rows dfb).
Proof.
  revert dfa. induction table as [|[industry keywords] table IH]; intros dfa; simpl.
  - intros H. injection H as <-. apply Forall_Forall2_diag, Forall_forall.
    intros r _. split; [congruence|]. intros base l0 s -> _. reflexivity.
  - intros H. apply obind_Ok in H as (dfm & Hstep & Hrest).
    apply match_industry_rows in Hstep. apply IH in Hrest.
    eapply Forall2_trans; [|exact Hstep|exact Hrest].
    intros ra rm rb (s & Hs & ->) [_ Hrb]. split; [eauto|].
    intros base l0 s' -> Hs'. rewrite Hs in Hs'. injection Hs' as <-.
    unfold label_step at 2. simpl.
    destruct (keywords_match lower keywords s).
    + apply (Hrb base industry s).
      * apply insert_insert_eq.
      * rewrite lookup_insert_ne by discriminate. exact Hs.
    + apply (Hrb base l0 s); [reflexivity|exact Hs].
Qed.

Lemma fold_match_columns (table : list (str * list str)) (dfa dfb : DataFrame) :
  fold_ok (match_industry lower) table dfa = Ok dfb ->
  "行业" ∈ columns dfa -> columns dfb = columns dfa.
Proof.
  revert dfa. induction table as [|entry table IH]; intros dfa; simpl.
  - intros H _. injection H as <-. reflexivity.
  - intros H Hcol. apply obind_Ok in H as (dfm & Hstep & Hrest).
    pose proof (match_industry_columns _ _ _ Hstep Hcol) as Hm.
    rewrite <- Hm. apply IH; [exact Hrest|]. rewrite Hm. exact Hcol.
Qed.

Lemma table_not_empty : INDUSTRY_MAPPING <> [].
Proof. discriminate. Qed.

(** After the loop every row carries the label of its name, and nothing
    else about it has changed. *)
Lemma match_industries_rows (df1 df : DataFrame) :
  match_industries lower df1 = Ok df ->
  Forall2 (fun r1 r => exists s, r1 !! "企业名称" = Some (VStr s) /\
                       r = <["行业" := VStr (label_of lower s)]> r1)
    (rows df1) (rows df).
Proof.
  unfold match_industries. intros H. apply fold_match_rows in H.
  simpl in H. unfold df_len in H. rewrite zip_with_replicate_rows in H.
  apply Forall2_fmap_l_rows in H. eapply Forall2_impl; [exact H|].
  intros r1 r [Hname Hr]. destruct (Hname table_not_empty) as (s & Hs).
  rewrite lookup_insert_ne in Hs by discriminate.
  exists s. split; [exact Hs|].
  apply (Hr r1 OTHER s); [reflexivity|].
  rewrite lookup_insert_ne by discriminate. exact Hs.
Qed.

End Loader_facts.

Section Loader_outcomes.

Variable lower : char -> char.

Lemma calculate_index_rows (raw df1 : DataFrame) :
  calculate_index raw = Ok df1 ->
  Forall2 (fun r0 r1 => exists v, row_index r0 = Ok v /\
                        r1 = <["数字化转型指数" := VFloat v]> r0)
    (rows raw) (rows df1).
Proof.
  unfold calculate_index. intros H.
  apply obind_Ok in H as (values & Hvalues & H). injection H as <-.
  apply map_ok_Ok in Hvalues. simpl.
  induction Hvalues as [|r0 v rs vs Hv _ IH]; simpl; constructor; eauto.
Qed.

(** What a row of a processed sheet looks like. *)
Lemma processing_rows (w : world) (df : DataFrame) :
  processing lower w = Ok df ->
  exists raw, read_excel w DEFAULT_FILE_PATH = inr raw /\
    Forall2 (fun r0 r => exists v s,
               row_index r0 = Ok v /\
               r0 !! "企业名称" = Some (VStr s) /\
               r = <["行业" := VStr (label_of lower s)]>
                     (<["数字化转型指数" := VFloat v]> r0))
      (rows raw) (rows df).
Proof.
  unfold processing. intros H.
  apply obind_Ok in H as (raw & Hraw & H).
  apply obind_Ok in H as (df1 & Hcalc & Hmatch).
  destruct (read_excel w DEFAULT_FILE_PATH) as [e|raw'] eqn:Hread;
    [discriminate|]. injection Hraw as ->.
  exists raw. split; [reflexivity|].
  apply calculate_index_rows in Hcalc. apply match_industries_rows in Hmatch.
  eapply Forall2_trans; [|exact Hcalc|exact Hmatch].
  intros r0 r1 r (v & Hv & ->) (s & Hs & ->).
  rewrite lookup_insert_ne in Hs by discriminate. eauto.
Qed.

Lemma map_ok_modelled {A B} (f : A -> outcome B) (l : list A) :
  (forall a, f a <> Beyond) -> map_ok f l <> Beyond.
Proof.
  intros Hf. induction l as [|a l IH]; simpl; [discriminate|].
  specialize (Hf a). destruct (f a); simpl; try congruence.
  destruct (map_ok f l); simpl; congruence.
Qed.

Lemma df_get_modelled (df : DataFrame) (col : string) : df_get df col <> Beyond.
Proof.
  unfold df_get. case_bool_decide; [|discriminate].
  apply map_ok_modelled. intros r. unfold row_get.
  destruct (r !! col); discriminate.
Qed.

Lemma check_bool_indexer_modelled (found : list (option bool)) :
  check_bool_indexer found <> Beyond.
Proof.
  apply map_ok_modelled. intros [b|]; discriminate.
Qed.

(** The loop over the table never meets a pattern outside the fragment. *)
Lemma match_industry_modelled (df : DataFrame) (entry : str * list str) :
  entry ∈ INDUSTRY_MAPPING -> match_industry lower df entry <> Beyond.
Proof.
  intros Hin. pose proof table_patterns as Hall. rewrite Forall_forall in Hall.
  specialize (Hall entry Hin). destruct entry as [industry keywords].
  unfold match_industry, str_contains. simpl in Hall. rewrite Hall.
  pose proof (df_get_modelled df "企业名称") as Hget.
  destruct (df_get df "企业名称") as [names| |]; simpl; [|discriminate|congruence].
  destruct (str_accessor "企业名称" names) as [[]|e|] eqn:Hacc; simpl;
    [|discriminate|].
  - match goal with |- context [check_bool_indexer ?l] =>
      pose proof (check_bool_indexer_modelled l) as Hmask;
      destruct (check_bool_indexer l) end; simpl; [discriminate|discriminate|congruence].
  - unfold str_accessor in Hacc. destruct names; [discriminate|].
    destruct (existsb is_text _); discriminate.
Qed.

Lemma fold_match_modelled (table : list (str * list str)) (df : DataFrame) :
  (forall entry, entry ∈ table -> entry ∈ INDUSTRY_MAPPING) ->
  fold_ok (match_industry lower) table df <> Beyond.
Proof.
  revert df. induction table as [|entry table IH]; intros df Hsub; simpl.
  - discriminate.
  - pose proof (match_industry_modelled df entry) as Hstep.
    destruct (match_industry lower df entry) as [df'| |]; simpl.
    + apply IH. intros e He. apply Hsub. right. exact He.
    + discriminate.
    + intros _. apply Hstep; [|reflexivity]. apply Hsub. left.
Qed.

Lemma row_index_modelled (r : gmap string cell) : row_index r <> Beyond.
Proof.
  unfold row_index. generalize (F64.of_Z 0). generalize TECH_WEIGHTS.
  intros items. induction items as [|[tech weight] items IH]; intros total; simpl.
  - discriminate.
  - unfold row_get. destruct (r !! tech) as [c|]; simpl; [|discriminate].
    destruct c; simpl; try discriminate; apply IH.
Qed.

Lemma processing_modelled (w : world) : processing lower w <> Beyond.
Proof.
  unfold processing.
  destruct (read_excel w DEFAULT_FILE_PATH) as [e|raw]; simpl; [discriminate|].
  unfold calculate_index.
  pose proof (map_ok_modelled row_index (rows raw) row_index_modelled) as Hidx.
  destruct (map_ok row_index (rows raw)); simpl; try congruence.
  apply fold_match_modelled. auto.
Qed.

(** The loader, one case after the other: it adds to what is shown
    already. *)
Lemma load_from (w : world) (shown : list event) :
  load_and_calculate_index lower w shown =
  if negb (path_exists w DEFAULT_FILE_PATH)
  then (Ok empty_frame, shown ++ [st_error (FileMissing DEFAULT_FILE_PATH)])
  else match processing lower w with
       | Ok df => (Ok df, shown ++ [st_success (Loaded (df_len df))])
       | Raise e => (Ok empty_frame, shown ++ [st_error (ProcessingFailed e)])
       | Beyond => (Beyond, shown)
       end.
Proof.
  unfold load_and_calculate_index, processing.
  destruct (negb (path_exists w DEFAULT_FILE_PATH)); [reflexivity|].
  unfold try_except, load_body, ui_bind, lift, show, ui_ret.
  destruct (read_excel w DEFAULT_FILE_PATH) as [e|raw]; simpl; [reflexivity|].
  destruct (calculate_index raw) as [df1| |]; simpl; try reflexivity.
  destruct (match_industries lower df1) as [df| |]; reflexivity.
Qed.

Lemma load_run (w : world) :
  run (load_and_calculate_index lower w) =
  if negb (path_exists w DEFAULT_FILE_PATH)
  then (Ok empty_frame, [st_error (FileMissing DEFAULT_FILE_PATH)])
  else match processing lower w with
       | Ok df => (Ok df, [st_success (Loaded (df_len df))])
       | Raise e => (Ok empty_frame, [st_error (ProcessingFailed e)])
       | Beyond => (Beyond, [])
       end.
Proof. apply (load_from w []). Qed.

Lemma load_appends (w : world) (shown : list event) :
  load_and_calculate_index lower w shown =
  (fst (run (load_and_calculate_index lower w)),
   shown ++ snd (run (load_and_calculate_index lower w))).
Proof.
  rewrite load_run, load_from.
  destruct (negb (path_exists w DEFAULT_FILE_PATH)); [reflexivity|].
  pose proof (processing_modelled w) as Hmodelled.
  destruct (processing lower w); simpl; try reflexivity. congruence.
Qed.

Lemma loaded_rows (w : world) (df : DataFrame) (shown : list event)
    (r : gmap string cell) :
  run (load_and_calculate_index lower w) = (Ok df, shown) ->
  r ∈ rows df ->
  exists r0 v s,
    row_index r0 = Ok v /\
    r0 !! "企业名称" = Some (VStr s) /\
    r = <["行业" := VStr (label_of lower s)]> (<["数字化转型指数" := VFloat v]> r0).
Proof.
  rewrite load_run. intros H Hr.
  destruct (negb (path_exists w DEFAULT_FILE_PATH)).
  { injection H as <- _. inversion Hr. }
  destruct (processing lower w) as [df'|e|] eqn:Hproc; [| |discriminate].
  - injection H as -> _. apply processing_rows in Hproc as (raw & _ & Hrows).
    apply list_elem_of_lookup in Hr as [i Hi].
    destruct (Forall2_lookup_r _ _ _ _ _ Hrows Hi) as (r0 & _ & v & s & H).
    exists r0, v, s. exact H.
  - injection H as <- _. inversion Hr.
Qed.

End Loader_outcomes.

(* ===================================================================== *)
(** ** The index of a loaded row *)
(* ===================================================================== *)

Lemma tech_weights_as_specified :
  TECH_WEIGHTS =
  [ ("人工智能技术"%string, F64.decimal 30 2);
    ("区块链技术"%string, F64.decimal 10 2);
    ("大数据技术"%string, F64.decimal 25 2);
    ("云计算技术"%string, F64.decimal 15 2);
    ("数字技术应用"%string, F64.decimal 20 2) ].
Proof. vm_compute. reflexivity. Qed.

Lemma py_sum_step (r : gmap string cell) (tech : string) (weight : float64)
    (items : list (string * float64)) (total v : float64) :
  py_sum r ((tech, weight) :: items) total = Ok v ->
  exists a, frequency r tech = Some a /\
            py_sum r items (F64.add total (F64.mul a weight)) = Ok v.
Proof.
  cbn [py_sum]. unfold row_get, frequency.
  destruct (r !! tech) as [[z|f|s]|]; cbn [obind py_mul]; try discriminate; eauto.
Qed.

Lemma row_index_weighted (r : gmap string cell) (v : float64) :
  row_index r = Ok v ->
  exists ai bc bd cc da,
    frequency r "人工智能技术" = Some ai /\
    frequency r "区块链技术" = Some bc /\
    frequency r "大数据技术" = Some bd /\
    frequency r "云计算技术" = Some cc /\
    frequency r "数字技术应用" = Some da /\
    v = weighted_index ai bc bd cc da.
Proof.
  unfold row_index. rewrite tech_weights_as_specified. intros H.
  apply py_sum_step in H as (ai & Hai & H).
  apply py_sum_step in H as (bc & Hbc & H).
  apply py_sum_step in H as (bd & Hbd & H).
  apply py_sum_step in H as (cc & Hcc & H).
  apply py_sum_step in H as (da & Hda & H).
  cbn [py_sum] in H. injection H as <-.
  exists ai, bc, bd, cc, da. repeat split; assumption.
Qed.




(* ===================================================================== *)
(** ** The label of a name *)
(* ===================================================================== *)

Section Labels.

Variable lower : char -> char.

Lemma label_fold_app (name : str) (pre post : list (str * list str)) (l0 : str) :
  fold_left (label_step lower name) (pre ++ post) l0
  = fold_left (label_step lower name) post
      (fold_left (label_step lower name) pre l0).
Proof. apply fold_left_app. Qed.

(** Without a match the label stays. *)
Lemma label_fold_no_match (name : str) (table : list (str * list str)) (l0 : str) :
  Forall (fun entry => keywords_match lower (snd entry) name = false) table ->
  fold_left (label_step lower name) table l0 = l0.
Proof.
  intros H. revert l0. induction H as [|entry table He _ IH]; intros l0; simpl.
  - reflexivity.
  - unfold label_step at 2. rewrite He. apply IH.
Qed.

(** The label is the start label or the industry of an entry that matched. *)
Lemma label_fold_cases (name : str) (table : list (str * list str)) (l0 : str) :
  fold_left (label_step lower name) table l0 = l0 \/
  exists m industry keywords,
    table !! m = Some (industry, keywords) /\
    keywords_match lower keywords name = true /\
    fold_left (label_step lower name) table l0 = industry.
Proof.
  revert l0. induction table as [|[industry keywords] table IH]; intros l0; simpl.
  - left. reflexivity.
  - change (label_step lower name l0 (industry, keywords))
      with (if keywords_match lower keywords name then industry else l0).
    destruct (keywords_match lower keywords name) eqn:Hm.
    + destruct (IH industry) as [Heq | (m & i' & k' & Hlook & Hmatch & Heq)].
      * right. exists 0, industry, keywords.
        repeat split; first [assumption | reflexivity].
      * right. exists (S m), i', k'. repeat split; assumption.
    + destruct (IH l0) as [Heq | (m & i' & k' & Hlook & Hmatch & Heq)].
      * left. exact Heq.
      * right. exists (S m), i', k'. repeat split; assumption.
Qed.

(** The last entry that matches gives the label. *)
Lemma label_fold_last (name : str) (table : list (str * list str)) (l0 : str)
    (j : nat) (industry : str) (keywords : list str) :
  table !! j = Some (industry, keywords) ->
  keywords_match lower keywords name = true ->
  (forall m entry, j < m -> table !! m = Some entry ->
                   keywords_match lower (snd entry) name = false) ->
  fold_left (label_step lower name) table l0 = industry.
Proof.
  intros Hj Hmatch Hlater.
  rewrite <- (take_drop_middle _ _ _ Hj), label_fold_app. simpl.
  match goal with |- context [label_step lower name ?l (industry, keywords)] =>
    change (label_step lower name l (industry, keywords))
      with (if keywords_match lower keywords name then industry else l) end.
  rewrite Hmatch.
  apply label_fold_no_match, Forall_forall. intros entry Hentry.
  apply list_elem_of_lookup in Hentry as [m Hm].
  rewrite lookup_drop in Hm. apply (Hlater (S j + m)); [lia|exact Hm].
Qed.

(** From the position of a match on, the label is the industry of a
    match at that position or later. *)
Lemma label_fold_from (name : str) (table : list (str * list str)) (l0 : str)
    (j : nat) (industry : str) (keywords : list str) :
  table !! j = Some (industry, keywords) ->
  keywords_match lower keywords name = true ->
  exists m industry' keywords',
    j <= m /\ table !! m = Some (industry', keywords') /\
    keywords_match lower keywords' name = true /\
    fold_left (label_step lower name) table l0 = industry'.
Proof.
  intros Hj Hmatch.
  assert (Hfold : fold_left (label_step lower name) table l0
                  = fold_left (label_step lower name) (drop (S j) table) industry).
  { rewrite <- (take_drop_middle _ _ _ Hj) at 1. rewrite label_fold_app. simpl.
    match goal with |- context [label_step lower name ?l (industry, keywords)] =>
      change (label_step lower name l (industry, keywords))
        with (if keywords_match lower keywords name then industry else l) end.
    rewrite Hmatch. reflexivity. }
  destruct (label_fold_cases name (drop (S j) table) industry)
    as [Heq | (m & i' & k' & Hlook & Hm & Heq)].
  - exists j, industry, keywords. rewrite Hfold, Heq.
    repeat split; try assumption. lia.
  - rewrite lookup_drop in Hlook.
    exists (S j + m), i', k'. rewrite Hfold, Heq.
    repeat split; try assumption. lia.
Qed.

Lemma label_of_in_labels (name : str) : label_of lower name ∈ LABELS.
Proof.
  unfold label_of, LABELS.
  destruct (label_fold_cases name INDUSTRY_MAPPING OTHER)
    as [-> | (m & industry & keywords & Hlook & _ & ->)].
  - left.
  - right. apply list_elem_of_In.
    change industry with (fst (industry, keywords)).
    apply in_map, list_elem_of_In, list_elem_of_lookup. eauto.
Qed.

Lemma table_keywords_match (m : nat) (industry : str) (keywords : list str)
    (name : str) :
  INDUSTRY_MAPPING !! m = Some (industry, keywords) ->
  keywords_match lower keywords name = true <-> has_keyword lower keywords name.
Proof.
  intros Hm. apply (keywords_match_table lower (industry, keywords)).
  apply list_elem_of_lookup. eauto.
Qed.

End Labels.

(* ===================================================================== *)
(** ** The industry of a loaded row *)
(* ===================================================================== *)

Lemma loaded_label (lower : char -> char) (w : world) (df : DataFrame)
    (shown : list event) (r : gmap string cell) :
  run (load_and_calculate_index lower w) = (Ok df, shown) ->
  r ∈ rows df ->
  exists name,
    r !! "企业名称" = Some (VStr name) /\
    r !! "行业" = Some (VStr (label_of lower name)).
Proof.
  intros Hload Hr.
  destruct (loaded_rows lower w df shown r Hload Hr) as (r0 & v & s & _ & Hs & ->).
  exists s. split.
  - rewrite !lookup_insert_ne by discriminate. exact Hs.
  - apply lookup_insert_eq.
Qed.

Lemma table_industries_distinct (i j : nat) (e1 e2 : str * list str) :
  INDUSTRY_MAPPING !! i = Some e1 ->
  INDUSTRY_MAPPING !! j = Some e2 ->
  fst e1 = fst e2 -> i = j.
Proof.
  intros Hi Hj Heq.
  assert (Hnodup : NoDup (fst <$> INDUSTRY_MAPPING)).
  { apply (bool_decide_unpack _). vm_compute. exact I. }
  apply (NoDup_lookup _ i j (fst e1) Hnodup).
  - rewrite list_lookup_fmap, Hi. reflexivity.
  - rewrite list_lookup_fmap, Hj, Heq. reflexivity.
Qed.

(** C3. A row whose name matches the keywords of two different
    industries of the table carries the label of the one of its matching
    industries that comes last in the order of the table. *)
Theorem last_match_wins (lower : char -> char) (w : world) (df : DataFrame)
    (shown : list event) (r : gmap string cell) (name : str)
    (i j : nat) (industry_i industry_j : str) (keywords_i keywords_j : list str) :
  run (load_and_calculate_index lower w) = (Ok df, shown) ->
  r ∈ rows df ->
  r !! "企业名称" = Some (VStr name) ->
  INDUSTRY_MAPPING !! i = Some (industry_i, keywords_i) ->
  INDUSTRY_MAPPING !! j = Some (industry_j, keywords_j) ->
  i < j ->
  has_keyword lower keywords_i name ->
  has_keyword lower keywords_j name ->
  (forall m industry keywords,
      j < m -> INDUSTRY_MAPPING !! m = Some (industry, keywords) ->
      ~ has_keyword lower keywords name) ->
  r !! "行业" = Some (VStr industry_j).
Proof.
  intros Hload Hr Hname Hi Hj Hij Hmi Hmj Hlast.
  destruct (loaded_label lower w df shown r Hload Hr) as (name' & Hname' & ->).
  rewrite Hname in Hname'. injection Hname' as <-.
  do 2 f_equal. unfold label_of.
  apply (label_fold_last lower name INDUSTRY_MAPPING OTHER j industry_j keywords_j Hj).
  - apply (table_keywords_match lower j industry_j keywords_j name Hj), Hmj.
  - intros m [industry keywords] Hm Hlook. simpl.
    apply not_true_is_false. intros Hmatch.
    apply (Hlast m industry keywords Hm Hlook).
    apply (table_keywords_match lower m industry keywords name Hlook), Hmatch.
Qed.

(** C4, as amended. The first industry listed among the matches does
    not give the label: when a name matches the keywords of two
    different industries, the label is that of a matching industry at
    the position of the later one or after it, and so differs from the
    label of the earlier one. *)
Theorem earlier_match_is_overwritten (lower : char -> char) (w : world)
    (df : DataFrame) (shown : list event) (r : gmap string cell) (name : str)
    (i j : nat) (industry_i industry_j : str) (keywords_i keywords_j : list str) :
  run (load_and_calculate_index lower w) = (Ok df, shown) ->
  r ∈ rows df ->
  r !! "企业名称" = Some (VStr name) ->
  INDUSTRY_MAPPING !! i = Some (industry_i, keywords_i) ->
  INDUSTRY_MAPPING !! j = Some (industry_j, keywords_j) ->
  i < j ->
  has_keyword lower keywords_i name ->
  has_keyword lower keywords_j name ->
  exists m industry keywords,
    j <= m /\
    INDUSTRY_MAPPING !! m = Some (industry, keywords) /\
    has_keyword lower keywords name /\
    r !! "行业" = Some (VStr industry) /\
    industry <> industry_i.
Proof.
  intros Hload Hr Hname Hi Hj Hij Hmi Hmj.
  destruct (loaded_label lower w df shown r Hload Hr) as (name' & Hname' & Hlabel).
  rewrite Hname in Hname'. injection Hname' as <-.
  apply (table_keywords_match lower j industry_j keywords_j name Hj) in Hmj.
  destruct (label_fold_from lower name INDUSTRY_MAPPING OTHER j industry_j
              keywords_j Hj Hmj)
    as (m & industry & keywords & Hjm & Hm & Hmatch & Hfold).
  exists m, industry, keywords.
  split; [exact Hjm|]. split; [exact Hm|].
  split; [apply (table_keywords_match lower m industry keywords name Hm), Hmatch|].
  split; [rewrite Hlabel; unfold label_of; rewrite Hfold; reflexivity|].
  intros ->.
  assert (m = i) by (apply (table_industries_distinct m i _ _ Hm Hi); reflexivity).
  lia.
Qed.

(** C9. After classification every row carries exactly one label, one
    of the eleven fixed ones (the ten industries and "other"), and a row
    whose name contains none of the keywords carries "other". *)
Theorem classification_is_total (lower : char -> char) (w : world)
    (df : DataFrame) (shown : list event) (r : gmap string cell) :
  run (load_and_calculate_index lower w) = (Ok df, shown) ->
  r ∈ rows df ->
  length LABELS = 11 /\ NoDup LABELS /\
  exists label,
    r !! "行业" = Some (VStr label) /\
    label ∈ LABELS /\
    forall name,
      r !! "企业名称" = Some (VStr name) ->
      (forall industry keywords,
          (industry, keywords) ∈ INDUSTRY_MAPPING ->
          ~ has_keyword lower keywords name) ->
      label = OTHER.
Proof.
  intros Hload Hr.
  split; [reflexivity|].
  split; [apply (bool_decide_unpack _); vm_compute; exact I|].
  destruct (loaded_label lower w df shown r Hload Hr) as (name & Hname & Hlabel).
  exists (label_of lower name).
  split; [exact Hlabel|]. split; [apply label_of_in_labels|].
  intros name' Hname' Hnone. rewrite Hname in Hname'. injection Hname' as <-.
  unfold label_of. apply label_fold_no_match, Forall_forall.
  intros [industry keywords] Hentry. simpl.
  apply not_true_is_false. intros Hmatch.
  apply (Hnone industry keywords Hentry).
  apply (keywords_match_table lower (industry, keywords) name Hentry), Hmatch.
Qed.

(** C10. The label of a row depends on its company name only: two
    loaded rows with the same name carry the same label, whatever their
    stock codes, frequencies and word counts, and whatever sheets they
    come from. *)
Theorem label_depends_on_name_only (lower : char -> char) (w1 w2 : world)
    (df1 df2 : DataFrame) (shown1 shown2 : list event)
    (r1 r2 : gmap string cell) :
  run (load_and_calculate_index lower w1) = (Ok df1, shown1) ->
  run (load_and_calculate_index lower w2) = (Ok df2, shown2) ->
  r1 ∈ rows df1 ->
  r2 ∈ rows df2 ->
  r1 !! "企业名称" = r2 !! "企业名称" ->
  r1 !! "行业" = r2 !! "行业".
Proof.
  intros Hload1 Hload2 Hr1 Hr2 Hsame.
  destruct (loaded_label lower w1 df1 shown1 r1 Hload1 Hr1) as (n1 & Hn1 & ->).
  destruct (loaded_label lower w2 df2 shown2 r2 Hload2 Hr2) as (n2 & Hn2 & ->).
  rewrite Hn1, Hn2 in Hsame. injection Hsame as ->. reflexivity.
Qed.

(** Deciding on a concrete name whether the keywords of entry [m] of the
    table occur in it, by running the search. *)
Ltac by_search m :=
  apply (table_keywords_match ascii_lower m _ _ _ eq_refl);
  vm_compute; reflexivity.

Ltac no_match_from Hlook Hhas m :=
  apply (table_keywords_match ascii_lower m _ _ _ Hlook) in Hhas;
  do 10 (destruct m as [|m];
         [first [lia | injection Hlook as <- <-; vm_compute in Hhas; discriminate]|]);
  discriminate Hlook.

Lemma last_match_wins_witness :
  sample_first_row !! "行业" = Some (VStr (u "信息技术")).
Proof.
  eapply (last_match_wins ascii_lower sample_world sample_loaded _
            sample_first_row (u "平安银行软件") 0 5);
    [ exact sample_loads | left | reflexivity | reflexivity | reflexivity
    | lia | by_search 0 | by_search 5 | ].
  intros m industry keywords Hm Hlook Hhas. no_match_from Hlook Hhas m.
Defined.

(** C4 as stated fails: the first row of the sample matches the first
    industry of the table and the sixth, and carries the label of the
    sixth. *)
Lemma first_match_does_not_win : ~ first_match_wins ascii_lower.
Proof.
  intros H.
  assert (Hbad : sample_first_row !! "行业" = Some (VStr (u "金融"))).
  { eapply (H sample_world sample_loaded _ sample_first_row
              (u "平安银行软件") 0 5);
      [ exact sample_loads | left | reflexivity | reflexivity | reflexivity
      | lia | by_search 0 | by_search 5 | intros; lia ]. }
  vm_compute in Hbad. discriminate Hbad.
Qed.

Lemma earlier_match_is_overwritten_witness :
  exists m industry keywords,
    5 <= m /\
    INDUSTRY_MAPPING !! m = Some (industry, keywords) /\
    has_keyword ascii_lower keywords (u "平安银行软件") /\
    sample_first_row !! "行业" = Some (VStr industry) /\
    industry <> u "金融".
Proof.
  eapply (earlier_match_is_overwritten ascii_lower sample_world sample_loaded _
            sample_first_row (u "平安银行软件") 0 5);
    [ exact sample_loads | left | reflexivity | reflexivity | reflexivity
    | lia | by_search 0 | by_search 5 ].
Defined.

Lemma classification_is_total_witness :
  sample_second_row !! "行业" = Some (VStr OTHER).
Proof.
  destruct (classification_is_total ascii_lower sample_world sample_loaded _
              sample_second_row sample_loads)
    as (_ & _ & label & Hlabel & _ & Hother).
  { right. left. }
  rewrite Hlabel. do 2 f_equal.
  apply (Hother (u "万科企业") eq_refl).
  intros industry keywords Hentry Hhas.
  apply list_elem_of_lookup in Hentry as [m Hlook].
  no_match_from Hlook Hhas m.
Defined.

Lemma label_depends_on_name_only_witness :
  sample_first_row !! "股票代码" <> sample_last_row !! "股票代码" /\
  sample_first_row !! "行业" = sample_last_row !! "行业".
Proof.
  split; [vm_compute; discriminate|].
  apply (label_depends_on_name_only ascii_lower sample_world sample_world
           sample_loaded sample_loaded _ _ sample_first_row sample_last_row
           sample_loads sample_loads).
  - left.
  - right. right. right. left.
  - reflexivity.
Defined.

(* ===================================================================== *)
(** ** Failures of the loader *)
(* ===================================================================== *)

(** C5. The loader never raises.  When the file does not exist it
    returns the empty dataset and shows an error that names the path;
    when the file exists and reading or processing it raises, it returns
    the empty dataset and shows an error that carries the cause.  On an
    empty dataset the page shows a warning and nothing after it: no
    filter is applied and no table or chart is drawn. *)
Theorem loader_recovers_from_failures (lower : char -> char)
    (argsort_desc : list float64 -> list nat) (w : world) (inp : inputs) :
  exists df shown,
    run (load_and_calculate_index lower w) = (Ok df, shown) /\
    (path_exists w DEFAULT_FILE_PATH = false ->
     df = empty_frame /\ shown = [st_error (FileMissing DEFAULT_FILE_PATH)]) /\
    (forall e,
        path_exists w DEFAULT_FILE_PATH = true ->
        processing lower w = Raise e ->
        df = empty_frame /\ shown = [st_error (ProcessingFailed e)]) /\
    (df_empty df = true ->
     run (main lower argsort_desc w inp)
     = (Ok tt, [st_title; st_markdown] ++ shown ++ [st_warning CheckPathOrFormat])).
Proof.
  assert (Hmain : forall df shown,
             run (load_and_calculate_index lower w) = (Ok df, shown) ->
             df_empty df = true ->
             run (main lower argsort_desc w inp)
             = (Ok tt, [st_title; st_markdown] ++ shown
                         ++ [st_warning CheckPathOrFormat])).
  { intros df shown Hrun Hempty. unfold run, main, ui_bind, show at 1 2.
    rewrite load_appends, Hrun. simpl. rewrite Hempty. reflexivity. }
  pose proof (Hrun := load_run lower w).
  pose proof (processing_modelled lower w) as Hmodelled.
  destruct (path_exists w DEFAULT_FILE_PATH) eqn:Hexists; simpl in Hrun.
  - destruct (processing lower w) as [df|e|] eqn:Hproc; [| |congruence].
    + exists df, [st_success (Loaded (df_len df))].
      split; [exact Hrun|]. split; [discriminate|].
      split; [discriminate|]. apply Hmain, Hrun.
    + exists empty_frame, [st_error (ProcessingFailed e)].
      split; [exact Hrun|]. split; [discriminate|].
      split; [|apply Hmain, Hrun].
      intros e' _ He'. injection He' as <-. split; reflexivity.
  - exists empty_frame, [st_error (FileMissing DEFAULT_FILE_PATH)].
    split; [exact Hrun|]. split; [intros _; split; reflexivity|].
    split; [discriminate|]. apply Hmain, Hrun.
Qed.

Lemma loader_recovers_from_failures_witness :
  run (main ascii_lower stable_argsort missing_world all_selected)
  = (Ok tt, [st_title; st_markdown;
             st_error (FileMissing DEFAULT_FILE_PATH);
             st_warning CheckPathOrFormat]) /\
  run (main ascii_lower stable_argsort (world_with broken_sheet) all_selected)
  = (Ok tt, [st_title; st_markdown;
             st_error (ProcessingFailed (KeyError "人工智能技术"));
             st_warning CheckPathOrFormat]).
Proof.
  split.
  - destruct (loader_recovers_from_failures ascii_lower stable_argsort
                missing_world all_selected)
      as (df & shown & _ & Hmissing & _ & Hmain).
    destruct (Hmissing eq_refl) as [-> ->]. exact (Hmain eq_refl).
  - destruct (loader_recovers_from_failures ascii_lower stable_argsort
                (world_with broken_sheet) all_selected)
      as (df & shown & _ & _ & Hfailed & Hmain).
    destruct (Hfailed (KeyError "人工智能技术") eq_refl) as [-> ->].
    + vm_compute. reflexivity.
    + exact (Hmain eq_refl).
Defined.

(* ===================================================================== *)
(** ** Comparisons of floats *)
(* ===================================================================== *)

Lemma SFcompare_antisym (a b : float64) :
  SFcompare b a = option_map CompOpp (SFcompare a b).
Proof.
  destruct a as [sa|sa| |sa ma ea], b as [sb|sb| |sb mb eb]; simpl;
    try reflexivity; try (destruct sa; reflexivity);
    try (destruct sb; reflexivity);
    try (destruct sa, sb; reflexivity).
  destruct sa, sb; try reflexivity;
    rewrite (Z.compare_antisym ea eb);
    destruct (ea ?= eb)%Z; simpl; try reflexivity;
    change (Pos.compare_cont Eq mb ma) with (mb ?= ma)%positive;
    change (Pos.compare_cont Eq ma mb) with (ma ?= mb)%positive;
    rewrite (Pos.compare_antisym ma mb);
    destruct (ma ?= mb)%positive; reflexivity.
Qed.

(** Equal floats are the same float, or two zeros. *)
Lemma SFcompare_Eq_inv (a b : float64) :
  SFcompare a b = Some Eq ->
  a = b \/ exists sa sb, a = S754_zero sa /\ b = S754_zero sb.
Proof.
  destruct a as [sa|sa| |sa ma ea], b as [sb|sb| |sb mb eb]; simpl;
    try discriminate; try (destruct sa; discriminate);
    try (destruct sb; discriminate).
  - intros _. right. eauto.
  - destruct sa, sb; try discriminate; auto.
  - destruct sa, sb; try discriminate;
      destruct (ea ?= eb)%Z eqn:He; try discriminate;
      apply Z.compare_eq in He; subst eb;
      change (Pos.compare_cont Eq ma mb) with (ma ?= mb)%positive;
      destruct (ma ?= mb)%positive eqn:Hm; try discriminate;
      apply Pos.compare_eq in Hm; subst mb; auto.
Qed.

Lemma SFcompare_Eq_l (a b c : float64) :
  SFcompare a b = Some Eq -> SFcompare a c = SFcompare b c.
Proof.
  intros H. apply SFcompare_Eq_inv in H as [-> | (sa & sb & -> & ->)];
    [reflexivity|]. destruct c; reflexivity.
Qed.

Lemma SFcompare_Eq_r (a b c : float64) :
  SFcompare a b = Some Eq -> SFcompare c a = SFcompare c b.
Proof.
  intros H. apply SFcompare_Eq_inv in H as [-> | (sa & sb & -> & ->)];
    [reflexivity|]. destruct c; reflexivity.
Qed.

(** A value equal to one of the bounds of a range is in the range. *)
Lemma in_range_at_bound (lo hi f : float64) :
  F64.leb lo hi = true ->
  F64.eqb f lo = true \/ F64.eqb f hi = true ->
  in_range (lo, hi) f = true.
Proof.
  unfold in_range, F64.leb, F64.eqb, SFleb, SFeqb. simpl. intros Hrange Hbound.
  destruct Hbound as [Heq | Heq].
  - destruct (SFcompare f lo) as [[]|] eqn:Hc; try discriminate.
    rewrite (SFcompare_Eq_l f lo hi Hc), Hrange.
    rewrite (SFcompare_antisym f lo), Hc. reflexivity.
  - destruct (SFcompare f hi) as [[]|] eqn:Hc; try discriminate.
    rewrite (SFcompare_Eq_r f hi lo Hc), Hrange. reflexivity.
Qed.

(** Of two floats that are numbers one is at most the other. *)
Lemma desc_ok_total (a b : float64) : desc_ok a b = false -> desc_ok b a = true.
Proof.
  unfold desc_ok, F64.leb, SFleb. rewrite (SFcompare_antisym a b).
  destruct a as [sa|sa| |sa ma ea], b as [sb|sb| |sb mb eb];
    cbn [F64.is_nan orb andb negb]; try reflexivity; try discriminate;
    match goal with |- context [SFcompare ?x ?y] =>
      destruct (SFcompare x y) as [[]|] eqn:Hc end;
    simpl; try reflexivity; try discriminate;
    simpl in Hc; discriminate Hc.
Qed.

(* ===================================================================== *)
(** ** The filters, row by row *)
(* ===================================================================== *)

Section Filter_facts.

Variable lower : char -> char.

Lemma filter_industry_rows (selected : list str) (view out : DataFrame) :
  filter_industry selected view = Ok out ->
  columns out = columns view /\
  rows out = List.filter (passes_industry selected) (rows view).
Proof.
  unfold filter_industry, passes_industry. destruct selected as [|s0 selected].
  - intros H. injection H as <-. split; [reflexivity|].
    symmetry. apply forallb_filter_id. apply forallb_forall. reflexivity.
  - intros H. apply obind_Ok in H as (labels & Hlabels & H). injection H as <-.
    split; [reflexivity|]. apply df_mask_rows.
    apply df_get_Ok in Hlabels as [_ Hlabels].
    induction Hlabels as [|r c rs cs Hrc _ IH]; simpl; constructor; auto.
    rewrite Hrc. reflexivity.
Qed.

Lemma filter_range_rows (range : float64 * float64) (view out : DataFrame) :
  filter_range range view = Ok out ->
  columns out = columns view /\
  rows out = List.filter (passes_range range) (rows view).
Proof.
  unfold filter_range, passes_range. intros H.
  apply obind_Ok in H as (cells & Hcells & H).
  apply obind_Ok in H as (values & Hvalues & H). injection H as <-.
  split; [reflexivity|]. apply df_mask_rows.
  apply df_get_Ok in Hcells as [_ Hcells]. apply map_ok_Ok in Hvalues.
  revert values Hvalues.
  induction Hcells as [|r c rs cs Hrc _ IH]; intros values Hvalues;
    inversion Hvalues as [|? v ? vs Hv Hvs]; subst; simpl; constructor; auto.
  rewrite Hrc, Hv. reflexivity.
Qed.

Lemma filter_range_total (range : float64 * float64) (view : DataFrame) :
  float_column "数字化转型指数" view ->
  exists out, filter_range range view = Ok out.
Proof.
  intros [Hcol Hrows]. unfold filter_range.
  rewrite (df_get_total view _ (fun r => VFloat (key_of r)) Hcol).
  - simpl. rewrite (map_ok_total cell_float
                      (fun c => match c with VFloat f => f | _ => F64.nan end)).
    + simpl. eauto.
    + apply Forall_forall. intros c Hc. apply list_elem_of_In in Hc.
      apply in_map_iff in Hc as (r & <- & _). reflexivity.
  - eapply Forall_impl; [exact Hrows|]. intros r [f Hf]. unfold key_of.
    rewrite Hf. reflexivity.
Qed.

Lemma logical_or_rows (re : regex) (rs : list (gmap string cell))
    (codes names : list cell) (mask : list bool) :
  Forall2 (fun r c => r !! "股票代码" = Some c) rs codes ->
  Forall2 (fun r c => r !! "企业名称" = Some c) rs names ->
  logical_or
    (map (fun c => match c with
                   | VStr s => Some (re_search lower re s)
                   | _ => None
                   end) codes)
    (map (fun c => match c with
                   | VStr s => Some (re_search lower re s)
                   | _ => None
                   end) names) = Ok mask ->
  Forall2 (fun r b => cell_search lower re (r !! "股票代码")
                      || cell_search lower re (r !! "企业名称") = b) rs mask.
Proof.
  intros Hcodes. revert names mask.
  induction Hcodes as [|r c rs codes Hrc _ IH]; intros names mask Hnames;
    inversion Hnames as [|? n ? names' Hrn Hnames']; subst; simpl.
  - intros H. injection H as <-. constructor.
  - unfold logical_or. simpl. intros H.
    apply obind_Ok in H as (b & Hb & H).
    apply obind_Ok in H as (mask' & Hmask' & H). injection H as <-.
    constructor; [|apply (IH names' mask' Hnames' Hmask')].
    rewrite Hrc, Hrn. destruct c, n; try discriminate.
    injection Hb as <-. reflexivity.
Qed.

Lemma filter_search_rows (df view out : DataFrame) (term : str) :
  filter_search lower df term view = Ok out ->
  columns out = columns view /\
  rows out = List.filter (passes_search lower term) (rows view).
Proof.
  unfold filter_search, passes_search. destruct term as [|c0 term].
  - intros H. injection H as <-. split; [reflexivity|].
    symmetry. apply forallb_filter_id. apply forallb_forall. reflexivity.
  - intros H.
    apply obind_Ok in H as (codes & Hcodes & H).
    apply obind_Ok in H as (all_codes & _ & H).
    apply obind_Ok in H as (in_code & Hin_code & H).
    apply obind_Ok in H as (names & Hnames & H).
    apply obind_Ok in H as (all_names & _ & H).
    apply obind_Ok in H as (in_name & Hin_name & H).
    apply obind_Ok in H as (mask & Hmask & H). injection H as <-.
    split; [reflexivity|]. apply df_mask_rows.
    unfold str_contains in Hin_code, Hin_name.
    apply obind_Ok in Hin_code as (_ & _ & Hin_code).
    apply obind_Ok in Hin_name as (_ & _ & Hin_name).
    destruct (re_compile (c0 :: term)) as [re|]; [|discriminate].
    injection Hin_code as <-. injection Hin_name as <-.
    apply df_get_Ok in Hcodes as [_ Hcodes].
    apply df_get_Ok in Hnames as [_ Hnames].
    apply (logical_or_rows re _ _ _ _ Hcodes Hnames Hmask).
Qed.

(** The filtered view is the loaded frame without the rows that fail
    one of the three tests; the order of the rows is kept. *)
Lemma apply_filters_rows (df view : DataFrame) (inp : inputs) :
  apply_filters lower df inp = Ok view ->
  columns view = columns df /\
  rows view =
  List.filter (passes_search lower (search_term inp))
    (List.filter (passes_range (index_range inp))
       (List.filter (passes_industry (selected_industries inp)) (rows df))).
Proof.
  unfold apply_filters. intros H.
  apply obind_Ok in H as (v1 & H1 & H).
  apply obind_Ok in H as (v2 & H2 & H3).
  apply filter_industry_rows in H1 as [Hc1 Hr1].
  apply filter_range_rows in H2 as [Hc2 Hr2].
  apply filter_search_rows in H3 as [Hc3 Hr3].
  split; [congruence|]. rewrite Hr3, Hr2, Hr1. reflexivity.
Qed.

Lemma elem_of_apply_filters (df view : DataFrame) (inp : inputs)
    (r : gmap string cell) :
  apply_filters lower df inp = Ok view ->
  r ∈ rows view <->
  r ∈ rows df /\
  passes_industry (selected_industries inp) r = true /\
  passes_range (index_range inp) r = true /\
  passes_search lower (search_term inp) r = true.
Proof.
  intros H. apply apply_filters_rows in H as [_ ->].
  rewrite !list_elem_of_In, !filter_In. tauto.
Qed.

End Filter_facts.

(* ===================================================================== *)
(** ** The columns of a loaded frame *)
(* ===================================================================== *)

Section Loaded_frames.

Variable lower : char -> char.

Lemma df_set_columns (df : DataFrame) (col : string) (values : list cell) :
  col ∈ columns (df_set df col values) /\
  forall c, c ∈ columns df -> c ∈ columns (df_set df col values).
Proof.
  unfold df_set. simpl. case_bool_decide as Hcol.
  - auto.
  - split; [|intros c Hc]; apply elem_of_app; [right; left | left; exact Hc].
Qed.

Lemma processing_columns (w : world) (df : DataFrame) :
  processing lower w = Ok df ->
  "数字化转型指数" ∈ columns df /\ "行业" ∈ columns df.
Proof.
  unfold processing. intros H.
  apply obind_Ok in H as (raw & _ & H).
  apply obind_Ok in H as (df1 & Hcalc & Hmatch).
  unfold calculate_index in Hcalc.
  apply obind_Ok in Hcalc as (values & _ & Hcalc). injection Hcalc as <-.
  unfold match_industries in Hmatch.
  match type of Hmatch with fold_ok _ _ (df_set ?d ?c ?v) = _ =>
    destruct (df_set_columns d c v) as [Hlabel Hkept] end.
  rewrite (fold_match_columns lower _ _ _ Hmatch Hlabel).
  split; [|exact Hlabel]. apply Hkept. apply (proj1 (df_set_columns _ _ _)).
Qed.

Lemma loaded_with_rows (w : world) (df : DataFrame) (shown : list event)
    (r : gmap string cell) :
  run (load_and_calculate_index lower w) = (Ok df, shown) ->
  r ∈ rows df ->
  processing lower w = Ok df.
Proof.
  rewrite load_run. intros H Hr.
  destruct (negb (path_exists w DEFAULT_FILE_PATH)).
  { injection H as <- _. inversion Hr. }
  destruct (processing lower w) as [df'|e|]; [| |discriminate].
  - injection H as -> _. reflexivity.
  - injection H as <- _. inversion Hr.
Qed.

(** Every row of a loaded frame has a float as its index. *)
Lemma loaded_index_column (w : world) (df : DataFrame) (shown : list event)
    (r : gmap string cell) :
  run (load_and_calculate_index lower w) = (Ok df, shown) ->
  r ∈ rows df ->
  float_column "数字化转型指数" df.
Proof.
  intros Hload Hr. split.
  - apply (processing_columns w), (loaded_with_rows w df shown r Hload Hr).
  - apply Forall_forall. intros r' Hr'.
    destruct (loaded_rows lower w df shown r' Hload Hr') as (r0 & v & s & _ & _ & ->).
    exists v. rewrite lookup_insert_ne by discriminate. apply lookup_insert_eq.
Qed.

End Loaded_frames.

(* ===================================================================== *)
(** ** The filtered view *)
(* ===================================================================== *)




(** C6. The range filter keeps a row whose index equals the selected
    minimum or the selected maximum: applied to the loaded dataset it
    returns a view that contains the row, and the row is in the filtered
    view of the page whenever it also passes the other two filters. *)
Theorem range_filter_is_inclusive (lower : char -> char) (w : world)
    (df : DataFrame) (shown : list event) (inp : inputs)
    (r : gmap string cell) (f lo hi : float64) :
  run (load_and_calculate_index lower w) = (Ok df, shown) ->
  r ∈ rows df ->
  r !! "数字化转型指数" = Some (VFloat f) ->
  index_range inp = (lo, hi) ->
  F64.leb lo hi = true ->
  F64.eqb f lo = true \/ F64.eqb f hi = true ->
  (exists ranged, filter_range (lo, hi) df = Ok ranged /\ r ∈ rows ranged) /\
  (forall view,
      apply_filters lower df inp = Ok view ->
      passes_industry (selected_industries inp) r = true ->
      passes_search lower (search_term inp) r = true ->
      r ∈ rows view).
Proof.
  intros Hload Hr Hf Hrange Hlohi Hbound.
  assert (Hpass : passes_range (lo, hi) r = true).
  { unfold passes_range. rewrite Hf. simpl.
    apply in_range_at_bound; assumption. }
  split.
  - destruct (filter_range_total (lo, hi) df
                (loaded_index_column lower w df shown r Hload Hr)) as [ranged Hranged].
    exists ranged. split; [exact Hranged|].
    apply filter_range_rows in Hranged as [_ ->].
    apply list_elem_of_In, filter_In. split; [apply list_elem_of_In, Hr|exact Hpass].
  - intros view Hview Hind Hsearch.
    apply (elem_of_apply_filters lower df view inp r Hview).
    rewrite Hrange. auto.
Qed.

Lemma range_filter_is_inclusive_witness :
  exists view,
    apply_filters ascii_lower sample_loaded all_selected = Ok view /\
    sample_first_row ∈ rows view /\ sample_last_row ∈ rows view.
Proof.
  exists sample_loaded.
  assert (Hview : apply_filters ascii_lower sample_loaded all_selected
                  = Ok sample_loaded) by (vm_compute; reflexivity).
  assert (Hfirst : sample_first_row ∈ rows sample_loaded) by left.
  assert (Hlast : sample_last_row ∈ rows sample_loaded) by (do 3 right; left).
  split; [exact Hview|]. split.
  - exact (proj2 (range_filter_is_inclusive ascii_lower sample_world
             sample_loaded _ all_selected sample_first_row (F64.decimal 73 1)
             (F64.decimal 2 1) (F64.decimal 73 1) sample_loads Hfirst
             eq_refl eq_refl eq_refl (or_intror eq_refl))
             sample_loaded Hview eq_refl eq_refl).
  - exact (proj2 (range_filter_is_inclusive ascii_lower sample_world
             sample_loaded _ all_selected sample_last_row (F64.decimal 2 1)
             (F64.decimal 2 1) (F64.decimal 73 1) sample_loads Hlast
             eq_refl eq_refl eq_refl (or_introl eq_refl))
             sample_loaded Hview eq_refl eq_refl).
Defined.

(* ===================================================================== *)
(** ** The search *)
(* ===================================================================== *)

Section Search_facts.

Variable lower : char -> char.



Lemma text_cells (col : string) (frame : DataFrame) :
  text_column col frame ->
  exists texts, df_get frame col = Ok (map VStr texts).
Proof.
  intros [Hcol Hrows]. unfold df_get. rewrite bool_decide_true by exact Hcol.
  induction Hrows as [|r rs [s Hs] _ [texts IH]]; simpl.
  - exists []. reflexivity.
  - exists (s :: texts). unfold row_get at 1. rewrite Hs. simpl. rewrite IH.
    reflexivity.
Qed.

Lemma str_accessor_text (col : string) (texts : list str) :
  str_accessor col (map VStr texts) = Ok tt.
Proof. destruct texts; reflexivity. Qed.

Lemma logical_or_text (re : regex) (codes names : list str) :
  exists mask,
    logical_or
      (map (fun c => match c with
                     | VStr s => Some (re_search lower re s)
                     | _ => None
                     end) (map VStr codes))
      (map (fun c => match c with
                     | VStr s => Some (re_search lower re s)
                     | _ => None
                     end) (map VStr names)) = Ok mask.
Proof.
  unfold logical_or. revert names.
  induction codes as [|c codes IH]; intros names; simpl.
  - exists []. reflexivity.
  - destruct names as [|n names]; simpl.
    + exists []. reflexivity.
    + destruct (IH names) as [mask Hmask]. rewrite Hmask. simpl. eauto.
Qed.

(** On text columns a plain term is always searched for. *)
Lemma filter_search_total (df view : DataFrame) (term : str) :
  Forall (fun c => is_special c = false) term ->
  text_column "股票代码" df -> text_column "企业名称" df ->
  text_column "股票代码" view -> text_column "企业名称" view ->
  exists out, filter_search lower df term view = Ok out.
Proof.
  intros Hplain Hcode_df Hname_df Hcode Hname. unfold filter_search.
  destruct term as [|c0 term]; [eauto|].
  destruct (text_cells _ _ Hcode) as [codes ->].
  destruct (text_cells _ _ Hcode_df) as [all_codes ->].
  destruct (text_cells _ _ Hname) as [names ->].
  destruct (text_cells _ _ Hname_df) as [all_names ->].
  unfold str_contains. simpl.
  rewrite !str_accessor_text, (re_compile_literal _ Hplain). simpl.
  destruct (logical_or_text [map Lit (c0 :: term)] codes names) as [mask Hmask].
  simpl in Hmask. rewrite Hmask. simpl. eauto.
Qed.

End Search_facts.



Lemma sample_text_columns :
  text_column "股票代码" sample_loaded /\ text_column "企业名称" sample_loaded.
Proof.
  split; (split; [apply list_elem_of_In; vm_compute; tauto|]);
    repeat (constructor; [eexists; reflexivity|]); constructor.
Qed.


(* ===================================================================== *)
(** ** Sorting by insertion *)
(* ===================================================================== *)

Section Insertion.

Variable before : float64 -> float64 -> bool.

Hypothesis before_ok : forall a b, before a b = true -> desc_ok a b = true.
Hypothesis after_ok : forall a b, before a b = false -> desc_ok b a = true.

Lemma insert_by_permutation (x : nat * float64) (l : list (nat * float64)) :
  insert_by before x l ≡ₚ x :: l.
Proof.
  induction l as [|h t IH]; simpl; [reflexivity|].
  destruct (before (snd x) (snd h)); [reflexivity|].
  rewrite IH. apply perm_swap.
Qed.

Lemma insertion_permutation (l : list (nat * float64)) :
  foldr (insert_by before) [] l ≡ₚ l.
Proof.
  induction l as [|x l IH]; simpl; [reflexivity|].
  rewrite insert_by_permutation, IH. reflexivity.
Qed.

Lemma insert_by_descending (x : nat * float64) (l : list (nat * float64)) :
  descending (map snd l) = true ->
  descending (map snd (insert_by before x l)) = true.
Proof using before_ok after_ok.
  induction l as [|h t IH]; simpl; [reflexivity|].
  intros Hsorted. destruct (before (snd x) (snd h)) eqn:Hxh.
  - simpl. rewrite (before_ok _ _ Hxh). exact Hsorted.
  - assert (Htail : descending (map snd t) = true).
    { destruct t; [reflexivity|]. simpl in Hsorted.
      apply andb_true_iff in Hsorted as [_ Ht]. exact Ht. }
    specialize (IH Htail). destruct t as [|h' t]; simpl in *.
    + rewrite (after_ok _ _ Hxh). reflexivity.
    + apply andb_true_iff in Hsorted as [Hhh' _].
      destruct (before (snd x) (snd h')); simpl in *.
      * rewrite (after_ok _ _ Hxh). exact IH.
      * rewrite Hhh'. exact IH.
Qed.

Lemma insertion_descending (l : list (nat * float64)) :
  descending (map snd (foldr (insert_by before) [] l)) = true.
Proof using before_ok after_ok.
  induction l as [|x l IH]; simpl; [reflexivity|].
  apply insert_by_descending, IH.
Qed.

End Insertion.

Lemma fst_combine_seq {A} (positions : list nat) (l : list A) :
  length positions = length l -> map fst (combine positions l) = positions.
Proof.
  revert l. induction positions as [|i positions IH]; intros [|a l] Hlen;
    simpl in *; try reflexivity; try discriminate.
  rewrite IH by lia. reflexivity.
Qed.

Lemma combine_seq_nth (pre keys : list float64) :
  Forall (fun p => nth (fst p) (pre ++ keys) F64.nan = snd p)
    (combine (seq (length pre) (length keys)) keys).
Proof.
  revert pre. induction keys as [|k keys IH]; intros pre; simpl; constructor.
  - simpl. rewrite app_nth2 by lia. rewrite Nat.sub_diag. reflexivity.
  - specialize (IH (pre ++ [k])). rewrite length_app in IH. simpl in IH.
    rewrite Nat.add_1_r, <- app_assoc in IH. exact IH.
Qed.

(** Insertion with a test that agrees with the order sorts. *)
Lemma insertion_argsort_sorts (before : float64 -> float64 -> bool) :
  (forall a b, before a b = true -> desc_ok a b = true) ->
  (forall a b, before a b = false -> desc_ok b a = true) ->
  sorts_descending (insertion_argsort before).
Proof.
  intros Hbefore Hafter keys. unfold insertion_argsort.
  pose proof (insertion_permutation before
                (combine (seq 0 (length keys)) keys)) as Hperm.
  split.
  - rewrite Hperm. rewrite fst_combine_seq by (rewrite length_seq; reflexivity).
    reflexivity.
  - rewrite map_map.
    rewrite (map_ext_in _ snd).
    + apply insertion_descending; assumption.
    + intros p Hp. apply (Permutation_in _ Hperm) in Hp.
      pose proof (combine_seq_nth [] keys) as Hall.
      rewrite List.Forall_forall in Hall. apply (Hall p Hp).
Qed.

Lemma stable_argsort_sorts : sorts_descending stable_argsort.
Proof.
  apply insertion_argsort_sorts; [auto|]. apply desc_ok_total.
Qed.


(* ===================================================================== *)
(** ** The top-10 table *)
(* ===================================================================== *)

Lemma rows_at_seq (pre rs : list (gmap string cell)) :
  flat_map (row_at (pre ++ rs)) (seq (length pre) (length rs)) = rs.
Proof.
  revert pre. induction rs as [|r rs IH]; intros pre; simpl; [reflexivity|].
  unfold row_at at 1. rewrite list_lookup_middle by reflexivity. simpl.
  specialize (IH (pre ++ [r])). rewrite length_app in IH. simpl in IH.
  rewrite Nat.add_1_r, <- app_assoc in IH.
  change ([r] ++ rs) with (r :: rs) in IH. rewrite IH. reflexivity.
Qed.

Lemma keys_at (rs : list (gmap string cell)) (positions : list nat) :
  Forall (fun i => i < length rs) positions ->
  map key_of (flat_map (row_at rs) positions)
  = map (fun i => nth i (map key_of rs) F64.nan) positions.
Proof.
  induction 1 as [|i positions Hi _ IH]; simpl; [reflexivity|].
  rewrite map_app, IH. unfold row_at.
  destruct (lookup_lt_is_Some_2 rs i Hi) as [r Hr]. rewrite Hr. simpl.
  f_equal. symmetry. apply nth_lookup_Some with (d := F64.nan).
  change (map key_of rs) with (key_of <$> rs).
  rewrite list_lookup_fmap, Hr. reflexivity.
Qed.


Lemma float_keys (view : DataFrame) :
  float_column "数字化转型指数" view ->
  df_get view "数字化转型指数" = Ok (map (fun r => VFloat (key_of r)) (rows view)) /\
  map_ok cell_float (map (fun r => VFloat (key_of r)) (rows view))
  = Ok (map key_of (rows view)).
Proof.
  intros [Hcol Hrows]. split.
  - apply df_get_total; [exact Hcol|].
    eapply Forall_impl; [exact Hrows|]. intros r [f Hf]. unfold key_of.
    rewrite Hf. reflexivity.
  - generalize (rows view). intros rs.
    induction rs as [|r rs IH]; simpl; [reflexivity|]. rewrite IH. reflexivity.
Qed.

(** What [sort_values] returns on a view with a float index. *)
Lemma sort_values_desc_rows (argsort : list float64 -> list nat) (view : DataFrame) :
  float_column "数字化转型指数" view ->
  sort_values_desc argsort view
  = Ok (mkFrame (columns view)
          (flat_map (row_at (rows view)) (argsort (map key_of (rows view))))).
Proof.
  intros Hfloat. destruct (float_keys view Hfloat) as [Hcells Hkeys].
  unfold sort_values_desc. rewrite Hcells. simpl. rewrite Hkeys. reflexivity.
Qed.




(* ===================================================================== *)
(** ** Further properties of the loader *)
(* ===================================================================== *)

Lemma load_succeeded (lower : char -> char) (w : world) (df : DataFrame)
    (shown : list event) :
  run (load_and_calculate_index lower w) = (Ok df, shown) ->
  rows df <> [] ->
  processing lower w = Ok df /\ shown = [st_success (Loaded (df_len df))].
Proof.
  rewrite load_run. intros H Hrows.
  destruct (negb (path_exists w DEFAULT_FILE_PATH)).
  { injection H as <- _. contradiction. }
  destruct (processing lower w) as [df'|e|]; [| |discriminate].
  - injection H as -> <-. split; reflexivity.
  - injection H as <- _. contradiction.
Qed.

(** X1. A successful load keeps the sheet: the loaded frame has the rows
    of the sheet, as many and in the same order, every cell of a row
    outside the two derived columns is the cell of the sheet, and the
    message shown counts the rows of the sheet. *)
Theorem loader_keeps_the_sheet (lower : char -> char) (w : world)
    (df : DataFrame) (shown : list event) :
  run (load_and_calculate_index lower w) = (Ok df, shown) ->
  rows df <> [] ->
  exists raw,
    read_excel w DEFAULT_FILE_PATH = inr raw /\
    shown = [st_success (Loaded (length (rows raw)))] /\
    length (rows df) = length (rows raw) /\
    Forall2 (fun r0 r => forall col,
               col <> "数字化转型指数"%string -> col <> "行业"%string ->
               r !! col = r0 !! col)
      (rows raw) (rows df).
Proof.
  intros Hload Hrows.
  destruct (load_succeeded lower w df shown Hload Hrows) as [Hproc ->].
  apply processing_rows in Hproc as (raw & Hraw & Hall).
  exists raw. split; [exact Hraw|].
  pose proof (Forall2_length _ _ _ Hall) as Hlen.
  split; [unfold df_len; rewrite Hlen; reflexivity|].
  split; [symmetry; exact Hlen|].
  eapply Forall2_impl; [exact Hall|].
  intros r0 r (v & s & _ & _ & ->) col Hidx Hlabel.
  rewrite !lookup_insert_ne by congruence. reflexivity.
Qed.

Lemma loader_keeps_the_sheet_witness :
  exists raw,
    read_excel sample_world DEFAULT_FILE_PATH = inr raw /\
    [st_success (Loaded 4)] = [st_success (Loaded (length (rows raw)))] /\
    length (rows sample_loaded) = length (rows raw) /\
    Forall2 (fun r0 r => forall col,
               col <> "数字化转型指数"%string -> col <> "行业"%string ->
               r !! col = r0 !! col)
      (rows raw) (rows sample_loaded).
Proof.
  apply (loader_keeps_the_sheet ascii_lower sample_world sample_loaded
           [st_success (Loaded 4)] sample_loads).
  discriminate.
Defined.

(** The index of a row is a function of its five frequency cells. *)
Lemma py_sum_ext (r r' : gmap string cell) (items : list (string * float64))
    (total : float64) :
  (forall tech, tech ∈ map fst items -> r !! tech = r' !! tech) ->
  py_sum r items total = py_sum r' items total.
Proof.
  revert total. induction items as [|[tech weight] items IH]; intros total Hsame;
    [reflexivity|].
  cbn [py_sum]. unfold row_get. rewrite (Hsame tech) by (simpl; left).
  destruct (r' !! tech) as [c|]; [|reflexivity]. cbn [obind].
  destruct (py_mul c weight); cbn [obind]; try reflexivity.
  apply IH. intros tech' Hin. apply Hsame. simpl. right. exact Hin.
Qed.

(** X2. The index of a loaded row depends on its five frequency cells
    only: two loaded rows with the same frequencies have the same
    index, whatever their codes, names and word counts, and whatever
    sheets they come from. *)
Theorem index_depends_on_frequencies_only (lower : char -> char)
    (w1 w2 : world) (df1 df2 : DataFrame) (shown1 shown2 : list event)
    (r1 r2 : gmap string cell) :
  run (load_and_calculate_index lower w1) = (Ok df1, shown1) ->
  run (load_and_calculate_index lower w2) = (Ok df2, shown2) ->
  r1 ∈ rows df1 ->
  r2 ∈ rows df2 ->
  (forall tech, tech ∈ TECH_COLUMNS -> r1 !! tech = r2 !! tech) ->
  r1 !! "数字化转型指数" = r2 !! "数字化转型指数".
Proof.
  intros Hload1 Hload2 Hr1 Hr2 Hsame.
  destruct (loaded_rows lower w1 df1 shown1 r1 Hload1 Hr1)
    as (a1 & v1 & s1 & Hv1 & _ & ->).
  destruct (loaded_rows lower w2 df2 shown2 r2 Hload2 Hr2)
    as (a2 & v2 & s2 & Hv2 & _ & ->).
  rewrite !(lookup_insert_ne _ "行业") by discriminate.
  rewrite !lookup_insert_eq. do 2 f_equal.
  assert (Heq : row_index a1 = row_index a2).
  { apply py_sum_ext. intros tech Htech. specialize (Hsame tech Htech).
    assert (Hne1 : "行业"%string <> tech /\ "数字化转型指数"%string <> tech).
    { revert Htech. unfold TECH_COLUMNS. rewrite tech_weights_as_specified.
      simpl. rewrite !elem_of_cons, elem_of_nil.
      intros [->|[->|[->|[->|[->|[]]]]]]; split; discriminate. }
    destruct Hne1 as [Hl Hi].
    rewrite !(lookup_insert_ne _ "行业") in Hsame by exact Hl.
    rewrite !(lookup_insert_ne _ "数字化转型指数") in Hsame by exact Hi.
    exact Hsame. }
  rewrite Hv1, Hv2 in Heq. injection Heq as ->. reflexivity.
Qed.

Lemma index_depends_on_frequencies_only_witness :
  sample_first_row !! "企业名称" <> sample_third_row !! "企业名称" /\
  sample_first_row !! "数字化转型指数" = sample_third_row !! "数字化转型指数".
Proof.
  split; [vm_compute; discriminate|].
  apply (index_depends_on_frequencies_only ascii_lower sample_world sample_world
           sample_loaded sample_loaded _ _ sample_first_row sample_third_row
           sample_loads sample_loads).
  - left.
  - do 2 right. left.
  - intros tech Htech. revert Htech. unfold TECH_COLUMNS.
    rewrite tech_weights_as_specified. simpl.
    rewrite !elem_of_cons, elem_of_nil.
    intros [->|[->|[->|[->|[->|[]]]]]]; reflexivity.
Defined.

(* ===================================================================== *)
(** ** Rows with an empty frequency cell *)
(* ===================================================================== *)

Lemma index_is_weighted_sum_cells (lower : char -> char) (w : world)
    (df : DataFrame) (shown : list event) (r : gmap string cell) :
  run (load_and_calculate_index lower w) = (Ok df, shown) ->
  r ∈ rows df ->
  exists ai bc bd cc da,
    frequency r "人工智能技术" = Some ai /\
    frequency r "区块链技术" = Some bc /\
    frequency r "大数据技术" = Some bd /\
    frequency r "云计算技术" = Some cc /\
    frequency r "数字技术应用" = Some da /\
    r !! "数字化转型指数" = Some (VFloat (weighted_index ai bc bd cc da)).
Proof.
  intros Hload Hr.
  destruct (loaded_rows lower w df shown r Hload Hr) as (r0 & v & s & Hv & _ & ->).
  apply row_index_weighted in Hv
    as (ai & bc & bd & cc & da & Hai & Hbc & Hbd & Hcc & Hda & ->).
  exists ai, bc, bd, cc, da.
  unfold frequency in *.
  rewrite !(lookup_insert_ne _ "行业") by discriminate.
  rewrite !(lookup_insert_ne _ "数字化转型指数") by discriminate.
  rewrite lookup_insert_eq.
  repeat (split; [assumption|]). reflexivity.
Qed.

Lemma add_nan_r (x : float64) : F64.add x F64.nan = F64.nan.
Proof. destruct x; reflexivity. Qed.

Lemma add_nan_l (x : float64) : F64.add F64.nan x = F64.nan.
Proof. reflexivity. Qed.

Lemma mul_nan_l (x : float64) : F64.mul F64.nan x = F64.nan.
Proof. reflexivity. Qed.

Lemma leb_nan_r (x : float64) : F64.leb x F64.nan = false.
Proof. destruct x; reflexivity. Qed.

Lemma weighted_index_nan (ai bc bd cc da : float64) :
  ai = F64.nan \/ bc = F64.nan \/ bd = F64.nan \/ cc = F64.nan \/ da = F64.nan ->
  weighted_index ai bc bd cc da = F64.nan.
Proof.
  unfold weighted_index.
  intros [->|[->|[->|[->| ->]]]];
    rewrite mul_nan_l, add_nan_r, ?add_nan_l; reflexivity.
Qed.

Example gap_sheet_loads :
  run (load_and_calculate_index ascii_lower (world_with gap_sheet))
  = (Ok gap_loaded, [st_success (Loaded 3)]).
Proof. vm_compute. reflexivity. Qed.

(** X3. An empty frequency cell removes the company from every result:
    a loaded row with a missing value in one of the five frequency
    columns has a missing index, and no choice of industries, range and
    search term brings it into the filtered view. *)
Theorem missing_frequency_hides_row (lower : char -> char) (w : world)
    (df : DataFrame) (shown : list event) (r : gmap string cell)
    (tech : string) :
  run (load_and_calculate_index lower w) = (Ok df, shown) ->
  r ∈ rows df ->
  tech ∈ TECH_COLUMNS ->
  r !! tech = Some (VFloat F64.nan) ->
  r !! "数字化转型指数" = Some (VFloat F64.nan) /\
  forall inp view, apply_filters lower df inp = Ok view -> r ∉ rows view.
Proof.
  intros Hload Hr Htech Hgap.
  destruct (index_is_weighted_sum_cells lower w df shown r Hload Hr)
    as (ai & bc & bd & cc & da & Hai & Hbc & Hbd & Hcc & Hda & Hidx).
  assert (Hnan : weighted_index ai bc bd cc da = F64.nan).
  { apply weighted_index_nan. revert Htech. unfold TECH_COLUMNS.
    rewrite tech_weights_as_specified. simpl.
    rewrite !elem_of_cons, elem_of_nil. unfold frequency in *.
    intros [->|[->|[->|[->|[->|[]]]]]]; rewrite Hgap in *; auto 6;
      [ injection Hai | injection Hbc | injection Hbd | injection Hcc
      | injection Hda ]; auto 6. }
  rewrite Hnan in Hidx. split; [exact Hidx|].
  intros inp view Hview Hin.
  apply (elem_of_apply_filters lower df view inp r Hview) in Hin
    as (_ & _ & Hrange & _).
  unfold passes_range in Hrange. rewrite Hidx in Hrange. simpl in Hrange.
  unfold in_range in Hrange. rewrite leb_nan_r in Hrange. discriminate Hrange.
Qed.

Lemma missing_frequency_hides_row_witness :
  loaded_row gap_row F64.nan "制造业" !! "数字化转型指数"
    = Some (VFloat F64.nan) /\
  forall inp view,
    apply_filters ascii_lower gap_loaded inp = Ok view ->
    loaded_row gap_row F64.nan "制造业" ∉ rows view.
Proof.
  apply (missing_frequency_hides_row ascii_lower (world_with gap_sheet)
           gap_loaded _ _ "区块链技术" gap_sheet_loads).
  - right. left.
  - right. left.
  - reflexivity.
Defined.

(* ===================================================================== *)
(** ** What a label says about the name *)
(* ===================================================================== *)

Section Label_facts.

Variable lower : char -> char.

(** Either nothing matched and the label stayed, or the label is the
    industry of the last entry that matched. *)
Lemma label_fold_inv (name : str) (table : list (str * list str)) (l0 : str) :
  (Forall (fun entry => keywords_match lower (snd entry) name = false) table /\
   fold_left (label_step lower name) table l0 = l0) \/
  (exists m industry keywords,
      table !! m = Some (industry, keywords) /\
      keywords_match lower keywords name = true /\
      (forall m' entry, m < m' -> table !! m' = Some entry ->
                        keywords_match lower (snd entry) name = false) /\
      fold_left (label_step lower name) table l0 = industry).
Proof.
  revert l0. induction table as [|[industry keywords] table IH]; intros l0.
  - left. split; [constructor|reflexivity].
  - cbn [fold_left].
    change (label_step lower name l0 (industry, keywords))
      with (if keywords_match lower keywords name then industry else l0).
    destruct (IH (if keywords_match lower keywords name then industry else l0))
      as [[Hnone Hfold] | (m & i' & k' & Hm & Hmatch & Hlater & Hfold)].
    + destruct (keywords_match lower keywords name) eqn:Hhere.
      * right. exists 0, industry, keywords.
        split; [reflexivity|]. split; [exact Hhere|]. split; [|exact Hfold].
        intros m' entry Hm' Hlook. destruct m' as [|m']; [lia|].
        rewrite Forall_forall in Hnone. apply Hnone.
        apply list_elem_of_lookup. exists m'. exact Hlook.
      * left. split; [|exact Hfold]. constructor; [exact Hhere|exact Hnone].
    + right. exists (S m), i', k'.
      split; [exact Hm|]. split; [exact Hmatch|]. split; [|exact Hfold].
      intros m' entry Hm' Hlook. destruct m' as [|m']; [lia|].
      apply (Hlater m' entry); [lia|exact Hlook].
Qed.

Lemma other_is_no_industry (m : nat) (entry : str * list str) :
  INDUSTRY_MAPPING !! m = Some entry -> fst entry <> OTHER.
Proof.
  intros Hm Heq.
  assert (Hnodup : NoDup (OTHER :: (fst <$> INDUSTRY_MAPPING))).
  { apply (bool_decide_unpack _). vm_compute. exact I. }
  apply NoDup_cons in Hnodup as [Hnotin _]. apply Hnotin.
  rewrite <- Heq. apply list_elem_of_fmap_2, list_elem_of_lookup. eauto.
Qed.

End Label_facts.

(** X4. The label of a loaded row tells what its name contains: the
    label is "other" exactly when no keyword of any industry occurs in
    the name, and a row labelled with an industry has a keyword of that
    industry in its name and no keyword of an industry listed after it. *)
Theorem label_is_justified (lower : char -> char) (w : world)
    (df : DataFrame) (shown : list event) (r : gmap string cell)
    (name label : str) :
  run (load_and_calculate_index lower w) = (Ok df, shown) ->
  r ∈ rows df ->
  r !! "企业名称" = Some (VStr name) ->
  r !! "行业" = Some (VStr label) ->
  (label = OTHER <->
   forall industry keywords,
     (industry, keywords) ∈ INDUSTRY_MAPPING ->
     ~ has_keyword lower keywords name) /\
  (forall m industry keywords,
      INDUSTRY_MAPPING !! m = Some (industry, keywords) ->
      label = industry ->
      has_keyword lower keywords name /\
      forall m' industry' keywords',
        m < m' -> INDUSTRY_MAPPING !! m' = Some (industry', keywords') ->
        ~ has_keyword lower keywords' name).
Proof.
  intros Hload Hr Hname Hlabel.
  destruct (loaded_label lower w df shown r Hload Hr) as (name' & Hname' & Hl).
  rewrite Hname in Hname'. injection Hname' as <-.
  rewrite Hlabel in Hl. injection Hl as ->.
  unfold label_of.
  destruct (label_fold_inv lower name INDUSTRY_MAPPING OTHER)
    as [[Hnone ->] | (m0 & i0 & k0 & Hm0 & Hmatch0 & Hlater0 & ->)].
  - rewrite Forall_forall in Hnone. split.
    + split; [|reflexivity]. intros _ industry keywords Hentry Hhas.
      apply (keywords_match_table lower (industry, keywords) name Hentry) in Hhas.
      pose proof (Hnone _ Hentry) as Hno. simpl in Hno, Hhas.
      rewrite Hno in Hhas. discriminate Hhas.
    + intros m industry keywords Hm Heq. exfalso.
      apply (other_is_no_industry m (industry, keywords) Hm). auto.
  - split.
    + split.
      * intros Heq. exfalso. apply (other_is_no_industry m0 (i0, k0) Hm0 Heq).
      * intros Hnone. exfalso. apply (Hnone i0 k0).
        -- apply list_elem_of_lookup. eauto.
        -- apply (table_keywords_match lower m0 i0 k0 name Hm0), Hmatch0.
    + intros m industry keywords Hm Heq.
      assert (m0 = m) as <-
        by (apply (table_industries_distinct m0 m _ _ Hm0 Hm); exact Heq).
      rewrite Hm0 in Hm. injection Hm as <- <-. split.
      * apply (table_keywords_match lower m0 i0 k0 name Hm0), Hmatch0.
      * intros m' industry' keywords' Hlt Hm' Hhas.
        apply (table_keywords_match lower m' industry' keywords' name Hm') in Hhas.
        pose proof (Hlater0 m' (industry', keywords') Hlt Hm') as Hno.
        simpl in Hno. rewrite Hno in Hhas. discriminate Hhas.
Qed.

Lemma label_is_justified_witness :
  (u "信息技术" = OTHER <->
   forall industry keywords,
     (industry, keywords) ∈ INDUSTRY_MAPPING ->
     ~ has_keyword ascii_lower keywords (u "平安银行软件")) /\
  (forall m industry keywords,
      INDUSTRY_MAPPING !! m = Some (industry, keywords) ->
      u "信息技术" = industry ->
      has_keyword ascii_lower keywords (u "平安银行软件") /\
      forall m' industry' keywords',
        m < m' -> INDUSTRY_MAPPING !! m' = Some (industry', keywords') ->
        ~ has_keyword ascii_lower keywords' (u "平安银行软件")).
Proof.
  apply (label_is_justified ascii_lower sample_world sample_loaded _
           sample_first_row (u "平安银行软件") (u "信息技术") sample_loads).
  - left.
  - reflexivity.
  - reflexivity.
Defined.

(* ===================================================================== *)
(** ** Sheets the loader accepts, and sheets it rejects *)
(* ===================================================================== *)

Section Loader_totality.

Variable lower : char -> char.

Lemma check_bool_indexer_text (re : regex) (texts : list str) :
  check_bool_indexer
    (map (fun c => match c with
                   | VStr s => Some (re_search lower re s)
                   | _ => None
                   end) (map VStr texts))
  = Ok (map (re_search lower re) texts).
Proof.
  unfold check_bool_indexer. induction texts as [|s texts IH]; simpl;
    [reflexivity|]. rewrite IH. reflexivity.
Qed.

Lemma match_industry_total (df : DataFrame) (entry : str * list str) :
  text_column "企业名称" df ->
  entry ∈ INDUSTRY_MAPPING ->
  exists df', match_industry lower df entry = Ok df'.
Proof.
  intros Htext Hentry.
  pose proof table_patterns as Hall. rewrite Forall_forall in Hall.
  specialize (Hall entry Hentry). destruct entry as [industry keywords].
  simpl in Hall. unfold match_industry, str_contains.
  destruct (text_cells _ _ Htext) as [texts ->]. simpl.
  rewrite str_accessor_text, Hall. simpl.
  rewrite check_bool_indexer_text. simpl. eauto.
Qed.

Lemma rows_keep_text (col : string) (rs rs' : list (gmap string cell)) :
  Forall2 (fun r r' => r' !! col = r !! col) rs rs' ->
  Forall (fun r => exists s, r !! col = Some (VStr s)) rs ->
  Forall (fun r => exists s, r !! col = Some (VStr s)) rs'.
Proof.
  induction 1 as [|r r' rs rs' Hrr' _ IH]; intros Hall; [constructor|].
  inversion Hall as [|? ? Hr Hrs]; subst. constructor; [|auto].
  rewrite Hrr'. exact Hr.
Qed.

Lemma match_industry_keeps_names (df df' : DataFrame) (entry : str * list str) :
  match_industry lower df entry = Ok df' ->
  text_column "企业名称" df -> text_column "企业名称" df'.
Proof.
  intros Hstep [Hcol Hrows]. split.
  - destruct entry as [industry keywords]. unfold match_industry in Hstep.
    apply obind_Ok in Hstep as (names & _ & H).
    apply obind_Ok in H as (found & _ & H).
    apply obind_Ok in H as (mask & _ & H). injection H as <-. simpl.
    case_bool_decide; [exact Hcol|]. apply elem_of_app. left. exact Hcol.
  - destruct entry as [industry keywords].
    apply match_industry_rows in Hstep.
    apply (rows_keep_text _ (rows df)); [|exact Hrows].
    eapply Forall2_impl; [exact Hstep|].
    intros r r' (s & _ & ->).
    destruct (keywords_match lower keywords s); [|reflexivity].
    apply lookup_insert_ne. discriminate.
Qed.

Lemma fold_match_total (table : list (str * list str)) (df : DataFrame) :
  (forall entry, entry ∈ table -> entry ∈ INDUSTRY_MAPPING) ->
  text_column "企业名称" df ->
  exists df', fold_ok (match_industry lower) table df = Ok df'.
Proof.
  revert df. induction table as [|entry table IH]; intros df Hsub Htext; simpl.
  - eauto.
  - destruct (match_industry_total df entry Htext) as [df1 Hdf1].
    { apply Hsub. left. }
    rewrite Hdf1. simpl. apply IH.
    + intros e He. apply Hsub. right. exact He.
    + apply (match_industry_keeps_names df df1 entry Hdf1 Htext).
Qed.

Lemma df_set_keeps_names (df : DataFrame) (col : string) (values : list cell) :
  col <> "企业名称"%string ->
  length values = length (rows df) ->
  text_column "企业名称" df ->
  text_column "企业名称" (df_set df col values).
Proof.
  intros Hcol Hlen [Hin Hrows]. split.
  - apply df_set_columns, Hin.
  - unfold df_set. simpl. revert values Hlen.
    induction Hrows as [|r rs Hr _ IH]; intros [|v values] Hlen;
      simpl in *; try constructor; try discriminate.
    + rewrite lookup_insert_ne by exact Hcol. exact Hr.
    + apply IH. lia.
Qed.

Lemma match_industries_total (df : DataFrame) :
  text_column "企业名称" df ->
  exists df', match_industries lower df = Ok df'.
Proof.
  intros Htext. unfold match_industries. apply fold_match_total; [auto|].
  apply df_set_keeps_names; [discriminate| |exact Htext].
  unfold df_len. apply length_replicate.
Qed.

Lemma py_sum_total (r : gmap string cell) (items : list (string * float64))
    (total : float64) :
  (forall tech, tech ∈ map fst items -> is_Some (frequency r tech)) ->
  exists v, py_sum r items total = Ok v.
Proof.
  revert total. induction items as [|[tech weight] items IH]; intros total Hall;
    cbn [py_sum]; [eauto|].
  destruct (Hall tech) as [a Ha]; [simpl; left|].
  unfold frequency in Ha. unfold row_get.
  destruct (r !! tech) as [[z|f|s]|]; try discriminate; cbn [obind py_mul];
    apply IH; intros tech' Hin; apply Hall; simpl; right; exact Hin.
Qed.

Lemma map_ok_exists {A B} (f : A -> outcome B) (l : list A) :
  Forall (fun a => exists b, f a = Ok b) l -> exists bs, map_ok f l = Ok bs.
Proof.
  induction 1 as [|a l [b Hb] _ [bs IH]]; simpl; [eauto|].
  rewrite Hb. simpl. rewrite IH. simpl. eauto.
Qed.

Lemma calculate_index_total (raw : DataFrame) :
  well_formed_sheet raw ->
  exists df1, calculate_index raw = Ok df1 /\ text_column "企业名称" df1.
Proof.
  intros [Htext Hcells]. unfold calculate_index.
  destruct (map_ok_exists row_index (rows raw)) as [values Hvalues].
  { eapply Forall_impl; [exact Hcells|]. intros r Hr.
    apply py_sum_total. exact Hr. }
  rewrite Hvalues. simpl. eexists. split; [reflexivity|].
  apply df_set_keeps_names; [discriminate| |exact Htext].
  rewrite length_map. apply map_ok_Ok in Hvalues.
  symmetry. apply (Forall2_length _ _ _ Hvalues).
Qed.

Lemma processing_total (w : world) (raw : DataFrame) :
  read_excel w DEFAULT_FILE_PATH = inr raw ->
  well_formed_sheet raw ->
  exists df, processing lower w = Ok df.
Proof.
  intros Hread Hwf. unfold processing. rewrite Hread. simpl.
  destruct (calculate_index_total raw Hwf) as (df1 & -> & Htext). simpl.
  apply match_industries_total, Htext.
Qed.

Lemma fold_match_name_column (table : list (str * list str)) (dfa dfb : DataFrame) :
  table <> [] ->
  fold_ok (match_industry lower) table dfa = Ok dfb ->
  "企业名称" ∈ columns dfa.
Proof.
  destruct table as [|[industry keywords] table]; [congruence|].
  intros _ H. simpl in H. apply obind_Ok in H as (dfm & Hstep & _).
  unfold match_industry in Hstep.
  apply obind_Ok in Hstep as (names & Hnames & _).
  apply df_get_Ok in Hnames as [Hcol _]. exact Hcol.
Qed.

End Loader_totality.

(** X5. A well-formed sheet is always loaded: when the file exists and
    is read, has at least one row, the name column holds text and the
    five frequency columns hold numbers, the loader shows the success
    message with the number of rows of the sheet and returns a frame
    with as many rows. *)
Theorem well_formed_sheet_loads (lower : char -> char) (w : world)
    (raw : DataFrame) :
  path_exists w DEFAULT_FILE_PATH = true ->
  read_excel w DEFAULT_FILE_PATH = inr raw ->
  rows raw <> [] ->
  well_formed_sheet raw ->
  exists df,
    run (load_and_calculate_index lower w)
    = (Ok df, [st_success (Loaded (length (rows raw)))]) /\
    length (rows df) = length (rows raw).
Proof.
  intros Hexists Hread _ Hwf.
  destruct (processing_total lower w raw Hread Hwf) as [df Hproc].
  assert (Hlen : length (rows df) = length (rows raw)).
  { apply processing_rows in Hproc as (raw' & Hraw' & Hall).
    rewrite Hread in Hraw'. injection Hraw' as <-.
    symmetry. apply (Forall2_length _ _ _ Hall). }
  exists df. split; [|exact Hlen].
  rewrite load_run, Hexists, Hproc. simpl. unfold df_len. rewrite Hlen.
  reflexivity.
Qed.

Lemma sample_sheet_well_formed : well_formed_sheet sample_sheet.
Proof.
  split.
  - split; [apply list_elem_of_In; vm_compute; tauto|].
    repeat (constructor; [eexists; reflexivity|]); constructor.
  - repeat (constructor;
            [intros tech Htech; revert Htech; unfold TECH_COLUMNS;
             rewrite tech_weights_as_specified; simpl;
             rewrite !elem_of_cons, elem_of_nil;
             intros [->|[->|[->|[->|[->|[]]]]]]; eexists; reflexivity|]);
      constructor.
Qed.

Lemma well_formed_sheet_loads_witness :
  exists df,
    run (load_and_calculate_index ascii_lower sample_world)
    = (Ok df, [st_success (Loaded (length (rows sample_sheet)))]) /\
    length (rows df) = length (rows sample_sheet).
Proof.
  apply (well_formed_sheet_loads ascii_lower sample_world sample_sheet
           eq_refl eq_refl); [discriminate|exact sample_sheet_well_formed].
Defined.

Lemma py_sum_offending (r : gmap string cell) (pre post : list (string * float64))
    (tech : string) (weight total : float64) (e : exn) :
  (forall t, t ∈ map fst pre -> is_Some (frequency r t)) ->
  (r !! tech = None /\ e = KeyError tech) \/
  (exists s, r !! tech = Some (VStr s) /\ e = TypeError) ->
  py_sum r (pre ++ (tech, weight) :: post) total = Raise e.
Proof.
  revert total. induction pre as [|[t w] pre IH]; intros total Hpre Hbad.
  - cbn [app py_sum]. unfold row_get.
    destruct Hbad as [[-> ->] | (s & -> & ->)]; reflexivity.
  - cbn [app py_sum]. destruct (Hpre t) as [a Ha]; [simpl; left|].
    unfold frequency in Ha. unfold row_get.
    destruct (r !! t) as [[z|f|s]|]; try discriminate; cbn [obind py_mul];
      (apply IH; [intros t' Hin; apply Hpre; simpl; right; exact Hin|exact Hbad]).
Qed.

(** X6. A sheet whose first row lacks one of the five frequency columns,
    or holds text in it, is rejected with the cause: when the frequency
    columns before it in the order of the weights hold numbers, the
    loader returns the empty dataset and shows the error with the
    [KeyError] that names the missing column, or with the [TypeError]. *)
Theorem offending_frequency_is_reported (lower : char -> char) (w : world)
    (raw : DataFrame) (r0 : gmap string cell) (rest : list (gmap string cell))
    (i : nat) (tech : string) (e : exn) :
  path_exists w DEFAULT_FILE_PATH = true ->
  read_excel w DEFAULT_FILE_PATH = inr raw ->
  rows raw = r0 :: rest ->
  TECH_COLUMNS !! i = Some tech ->
  (forall j t, j < i -> TECH_COLUMNS !! j = Some t -> is_Some (frequency r0 t)) ->
  (r0 !! tech = None /\ e = KeyError tech) \/
  (exists s, r0 !! tech = Some (VStr s) /\ e = TypeError) ->
  run (load_and_calculate_index lower w)
  = (Ok empty_frame, [st_error (ProcessingFailed e)]).
Proof.
  intros Hexists Hread Hrows Hi Hbefore Hbad.
  rewrite load_run, Hexists. simpl.
  assert (Hindex : row_index r0 = Raise e).
  { unfold TECH_COLUMNS in Hi, Hbefore.
    change (map fst TECH_WEIGHTS) with (fst <$> TECH_WEIGHTS) in Hi, Hbefore.
    rewrite list_lookup_fmap in Hi.
    destruct (TECH_WEIGHTS !! i) as [[tech' weight]|] eqn:Hw; [|discriminate].
    injection Hi as <-. unfold row_index.
    rewrite <- (take_drop_middle _ _ _ Hw).
    apply py_sum_offending; [|exact Hbad].
    intros t Ht. apply list_elem_of_In, in_map_iff in Ht as ([t' w'] & <- & Hin).
    apply list_elem_of_In, list_elem_of_lookup in Hin as [j Hj].
    pose proof (lookup_lt_Some _ _ _ Hj) as Hlt.
    rewrite length_take in Hlt.
    rewrite lookup_take_lt in Hj by lia.
    apply (Hbefore j t'); [lia|].
    rewrite list_lookup_fmap, Hj. reflexivity. }
  unfold processing. rewrite Hread. simpl. unfold calculate_index.
  rewrite Hrows. simpl. rewrite Hindex. reflexivity.
Qed.

Lemma offending_frequency_is_reported_witness :
  run (load_and_calculate_index ascii_lower (world_with broken_sheet))
  = (Ok empty_frame, [st_error (ProcessingFailed (KeyError "人工智能技术"))]).
Proof.
  eapply (offending_frequency_is_reported ascii_lower (world_with broken_sheet)
            broken_sheet _ _ 0 "人工智能技术");
    [ reflexivity | reflexivity | reflexivity | reflexivity
    | intros j t Hj; lia | left; split; reflexivity ].
Defined.

(* ===================================================================== *)
(** ** Names that are not text, and classifying twice *)
(* ===================================================================== *)

Section Names.

Variable lower : char -> char.

Lemma Forall2_fmap_r_rows {A B C} (f : B -> C) (P : A -> C -> Prop)
    (l : list A) (k : list B) :
  Forall2 (fun a b => P a (f b)) l k -> Forall2 P l (map f k).
Proof. induction 1; simpl; constructor; auto. Qed.

Lemma check_bool_indexer_missing (found : list (option bool)) :
  None ∈ found -> check_bool_indexer found = Raise ValueError.
Proof.
  unfold check_bool_indexer. induction found as [|[b|] found IH]; intros Hin.
  - inversion Hin.
  - simpl. rewrite IH; [reflexivity|].
    apply elem_of_cons in Hin as [Heq|Hin]; [discriminate|exact Hin].
  - reflexivity.
Qed.

Lemma cells_of_column (col : string) (frame : DataFrame) :
  col ∈ columns frame ->
  Forall (fun r => is_Some (r !! col)) (rows frame) ->
  exists cells, df_get frame col = Ok cells /\
                Forall2 (fun r c => r !! col = Some c) (rows frame) cells.
Proof.
  intros Hcol Hrows. unfold df_get. rewrite bool_decide_true by exact Hcol.
  induction Hrows as [|r rs [c Hc] _ (cells & Hcells & Hall)]; simpl.
  - exists []. split; [reflexivity|constructor].
  - exists (c :: cells). unfold row_get at 1. rewrite Hc. simpl.
    rewrite Hcells. split; [reflexivity|]. constructor; assumption.
Qed.

(** A name column that mixes text with other cells stops the first turn
    of the loop. *)
Lemma match_industry_mixed (df : DataFrame) (entry : str * list str)
    (r_text r_other : gmap string cell) (s : str) (c : cell) :
  entry ∈ INDUSTRY_MAPPING ->
  "企业名称" ∈ columns df ->
  Forall (fun r => is_Some (r !! "企业名称")) (rows df) ->
  r_text ∈ rows df -> r_text !! "企业名称" = Some (VStr s) ->
  r_other ∈ rows df -> r_other !! "企业名称" = Some c -> is_text c = false ->
  match_industry lower df entry = Raise ValueError.
Proof.
  intros Hentry Hcol Hrows Htext Hs Hother Hc Hnot.
  pose proof table_patterns as Hall. rewrite Forall_forall in Hall.
  specialize (Hall entry Hentry). destruct entry as [industry keywords].
  simpl in Hall. unfold match_industry, str_contains.
  destruct (cells_of_column _ _ Hcol Hrows) as (cells & -> & Hcells). simpl.
  assert (Hin_text : VStr s ∈ cells).
  { apply list_elem_of_lookup in Htext as [i Hi].
    destruct (Forall2_lookup_l _ _ _ _ _ Hcells Hi) as (c' & Hc' & Hrc).
    rewrite Hs in Hrc. injection Hrc as <-.
    apply list_elem_of_lookup. eauto. }
  assert (Hin_other : c ∈ cells).
  { apply list_elem_of_lookup in Hother as [i Hi].
    destruct (Forall2_lookup_l _ _ _ _ _ Hcells Hi) as (c' & Hc' & Hrc).
    rewrite Hc in Hrc. injection Hrc as <-.
    apply list_elem_of_lookup. eauto. }
  assert (Haccess : str_accessor "企业名称" cells = Ok tt).
  { unfold str_accessor. destruct cells as [|c0 cells]; [reflexivity|].
    assert (Hex : existsb is_text (c0 :: cells) = true).
    { apply existsb_exists. exists (VStr s). split; [|reflexivity].
      apply list_elem_of_In, Hin_text. }
    rewrite Hex. reflexivity. }
  rewrite Haccess, Hall. simpl.
  rewrite check_bool_indexer_missing; [reflexivity|].
  apply list_elem_of_In, in_map_iff. exists c. split.
  - destruct c; try reflexivity. discriminate Hnot.
  - apply list_elem_of_In, Hin_other.
Qed.

End Names.

(** X7. One company without a name rejects the whole sheet: when the
    frequencies are numbers and the name column holds text in one row
    and something else (an empty cell, a number) in another, the loader
    returns the empty dataset and shows the error with the [ValueError]
    of the mask. *)
Theorem nameless_row_rejects_sheet (lower : char -> char) (w : world)
    (raw : DataFrame) (r_text r_other : gmap string cell) (s : str) (c : cell) :
  path_exists w DEFAULT_FILE_PATH = true ->
  read_excel w DEFAULT_FILE_PATH = inr raw ->
  "企业名称" ∈ columns raw ->
  Forall (fun r => is_Some (r !! "企业名称") /\
                   forall tech, tech ∈ TECH_COLUMNS -> is_Some (frequency r tech))
    (rows raw) ->
  r_text ∈ rows raw -> r_text !! "企业名称" = Some (VStr s) ->
  r_other ∈ rows raw -> r_other !! "企业名称" = Some c -> is_text c = false ->
  run (load_and_calculate_index lower w)
  = (Ok empty_frame, [st_error (ProcessingFailed ValueError)]).
Proof.
  intros Hexists Hread Hcol Hrows Htext Hs Hother Hc Hnot.
  rewrite load_run, Hexists. simpl.
  unfold processing. rewrite Hread. simpl.
  destruct (map_ok_exists row_index (rows raw)) as [values Hvalues].
  { eapply Forall_impl; [exact Hrows|]. intros r [_ Hr].
    apply py_sum_total. exact Hr. }
  unfold calculate_index. rewrite Hvalues. simpl.
  apply map_ok_Ok in Hvalues.
  unfold match_industries.
  destruct INDUSTRY_MAPPING as [|entry table] eqn:Htable;
    [exfalso; apply table_not_empty; exact Htable|].
  simpl.
  match goal with |- context [match_industry lower ?d entry] => set (df0 := d) end.
  assert (Hkeep : Forall2 (fun r0 r => r !! "企业名称" = r0 !! "企业名称")
                    (rows raw) (rows df0)).
  { unfold df0, df_len. simpl. rewrite zip_with_replicate_rows.
    apply Forall2_fmap_r_rows.
    revert Hvalues. generalize (rows raw). intros rs Hvalues.
    induction Hvalues as [|r0 v rs vs _ _ IH]; simpl; constructor; [|exact IH].
    rewrite !lookup_insert_ne by discriminate. reflexivity. }
  assert (Hmoved : forall r0 c0, r0 ∈ rows raw -> r0 !! "企业名称" = Some c0 ->
                                 exists r, r ∈ rows df0 /\ r !! "企业名称" = Some c0).
  { intros r0 c0 Hin Hc0. apply list_elem_of_lookup in Hin as [i Hi].
    destruct (Forall2_lookup_l _ _ _ _ _ Hkeep Hi) as (r & Hr & Hsame).
    exists r. split; [apply list_elem_of_lookup; eauto|congruence]. }
  destruct (Hmoved r_text (VStr s) Htext Hs) as (r1 & Hr1 & Hs1).
  destruct (Hmoved r_other c Hother Hc) as (r2 & Hr2 & Hc2).
  rewrite (match_industry_mixed lower df0 entry r1 r2 s c);
    try assumption; [reflexivity| | |].
  - rewrite Htable. left.
  - unfold df0. apply df_set_columns, df_set_columns, Hcol.
  - apply Forall_forall. intros r Hr.
    apply list_elem_of_lookup in Hr as [i Hi].
    destruct (Forall2_lookup_r _ _ _ _ _ Hkeep Hi) as (r0 & Hr0 & Hsame).
    rewrite Hsame. rewrite Forall_forall in Hrows.
    apply (Hrows r0). apply list_elem_of_lookup. eauto.
Qed.

Lemma nameless_row_rejects_sheet_witness :
  run (load_and_calculate_index ascii_lower (world_with nameless_sheet))
  = (Ok empty_frame, [st_error (ProcessingFailed ValueError)]).
Proof.
  apply (nameless_row_rejects_sheet ascii_lower (world_with nameless_sheet)
           nameless_sheet
           (sheet_row "000001" "平安银行" 10 5 8 4 6 33)
           (<["企业名称" := VFloat F64.nan]> (sheet_row "000002" "" 1 0 0 0 0 1))
           (u "平安银行") (VFloat F64.nan) eq_refl eq_refl).
  - apply list_elem_of_In. vm_compute. tauto.
  - repeat (constructor;
            [split; [eexists; reflexivity|];
             intros tech Htech; revert Htech; unfold TECH_COLUMNS;
             rewrite tech_weights_as_specified; simpl;
             rewrite !elem_of_cons, elem_of_nil;
             intros [->|[->|[->|[->|[->|[]]]]]]; eexists; reflexivity|]);
      constructor.
  - left.
  - reflexivity.
  - right. left.
  - reflexivity.
  - reflexivity.
Defined.

(** X8. Classifying is idempotent: run again on its own result, the
    block that resets the label column and goes through the industry
    table returns that result unchanged. *)
Theorem classification_is_idempotent (lower : char -> char) (df1 df2 : DataFrame) :
  match_industries lower df1 = Ok df2 ->
  match_industries lower df2 = Ok df2.
Proof.
  intros H12.
  pose proof (match_industries_rows lower df1 df2 H12) as R12.
  assert (Hcols : "企业名称" ∈ columns df2 /\ "行业" ∈ columns df2).
  { unfold match_industries in H12.
    pose proof (fold_match_name_column lower _ _ _ table_not_empty H12) as Hname.
    match type of H12 with fold_ok _ _ (df_set ?d ?c ?v) = _ =>
      destruct (df_set_columns d c v) as [Hlabel _] end.
    rewrite (fold_match_columns lower _ _ _ H12 Hlabel). auto. }
  destruct Hcols as [Hname Hlabel].
  assert (Htext : text_column "企业名称" df2).
  { split; [exact Hname|]. apply Forall_forall. intros r2 Hr2.
    apply list_elem_of_lookup in Hr2 as [i Hi].
    destruct (Forall2_lookup_r _ _ _ _ _ R12 Hi) as (r1 & _ & s & Hs & ->).
    exists s. rewrite lookup_insert_ne by discriminate. exact Hs. }
  destruct (match_industries_total lower df2 Htext) as [df3 H23].
  rewrite H23. f_equal.
  pose proof (match_industries_rows lower df2 df3 H23) as R23.
  assert (Hrows : rows df3 = rows df2).
  { apply list_eq_same_length with (length (rows df2)); [reflexivity| |].
    - symmetry. apply (Forall2_length _ _ _ R23).
    - intros i r3 r2 _ H3 H2.
      destruct (Forall2_lookup_r _ _ _ _ _ R12 H2) as (r1 & _ & s & Hs & Hr2).
      destruct (Forall2_lookup_l _ _ _ _ _ R23 H2) as (r3' & H3' & s' & Hs' & Hr3).
      rewrite H3 in H3'. injection H3' as <-.
      rewrite Hr2 in Hs'. rewrite lookup_insert_ne in Hs' by discriminate.
      rewrite Hs in Hs'. injection Hs' as <-.
      rewrite Hr3, Hr2. apply insert_insert_eq. }
  assert (Hcolumns : columns df3 = columns df2).
  { unfold match_industries in H23.
    match type of H23 with fold_ok _ _ (df_set ?d ?c ?v) = _ =>
      destruct (df_set_columns d c v) as [Hl _] end.
    rewrite (fold_match_columns lower _ _ _ H23 Hl). simpl.
    rewrite bool_decide_true by exact Hlabel. reflexivity. }
  destruct df2, df3. simpl in *. subst. reflexivity.
Qed.

Lemma classification_is_idempotent_witness :
  match_industries ascii_lower mislabelled_sample = Ok sample_loaded /\
  match_industries ascii_lower sample_loaded = Ok sample_loaded.
Proof.
  assert (H : match_industries ascii_lower mislabelled_sample = Ok sample_loaded)
    by (vm_compute; reflexivity).
  split; [exact H|].
  apply (classification_is_idempotent ascii_lower mislabelled_sample
           sample_loaded H).
Defined.

(* ===================================================================== *)
(** ** The order of the floats *)
(* ===================================================================== *)

Lemma leb_key (a b : float64) :
  F64.is_nan a = false -> F64.is_nan b = false ->
  F64.leb a b = true <-> key_le (float_key a) (float_key b).
Proof.
  unfold F64.leb, SFleb, key_le.
  destruct a as [sa|sa| |sa ma ea], b as [sb|sb| |sb mb eb];
    try discriminate; intros _ _; simpl;
    try (destruct sa); try (destruct sb); simpl;
    try (split; [intros _; lia | reflexivity]);
    try (split; [discriminate | lia]);
    change (Pos.compare_cont Eq ma mb) with (ma ?= mb)%positive;
    destruct (Z.compare_spec ea eb), (Pos.compare_spec ma mb); simpl;
    split; intros Hleb; try reflexivity; try discriminate Hleb; lia.
Qed.

Lemma leb_not_nan (a b : float64) :
  F64.leb a b = true -> F64.is_nan a = false /\ F64.is_nan b = false.
Proof. destruct a, b; simpl; try discriminate; auto. Qed.

Lemma leb_trans (a b c : float64) :
  F64.leb a b = true -> F64.leb b c = true -> F64.leb a c = true.
Proof.
  intros Hab Hbc.
  destruct (leb_not_nan a b Hab) as [Ha Hb].
  destruct (leb_not_nan b c Hbc) as [_ Hc].
  apply (leb_key a b Ha Hb) in Hab. apply (leb_key b c Hb Hc) in Hbc.
  apply (leb_key a c Ha Hc). unfold key_le in *.
  destruct (float_key a) as [[a1 a2] a3], (float_key b) as [[b1 b2] b3],
           (float_key c) as [[c1 c2] c3]. lia.
Qed.

Lemma leb_refl (a : float64) : F64.is_nan a = false -> F64.leb a a = true.
Proof.
  intros Ha. apply (leb_key a a Ha Ha). unfold key_le.
  destruct (float_key a) as [[a1 a2] a3]. lia.
Qed.

Lemma leb_total (a b : float64) :
  F64.is_nan a = false -> F64.is_nan b = false ->
  F64.leb a b = false -> F64.leb b a = true.
Proof.
  intros Ha Hb Hab.
  destruct (F64.leb b a) eqn:Hba; [reflexivity|].
  assert (Hn : ~ key_le (float_key a) (float_key b))
    by (rewrite <- (leb_key a b Ha Hb), Hab; discriminate).
  assert (Hm : ~ key_le (float_key b) (float_key a))
    by (rewrite <- (leb_key b a Hb Ha), Hba; discriminate).
  exfalso. unfold key_le in *.
  destruct (float_key a) as [[a1 a2] a3], (float_key b) as [[b1 b2] b3]. lia.
Qed.

Lemma desc_ok_trans (a b c : float64) :
  desc_ok a b = true -> desc_ok b c = true -> desc_ok a c = true.
Proof.
  unfold desc_ok. intros Hab Hbc.
  destruct (F64.is_nan c) eqn:Hc; [reflexivity|]. simpl in *.
  apply andb_true_iff in Hbc as [Hb Hcb]. apply negb_true_iff in Hb.
  rewrite Hb in Hab. simpl in Hab.
  apply andb_true_iff in Hab as [Ha Hba]. rewrite Ha. simpl.
  apply (leb_trans c b a Hcb Hba).
Qed.

(** In a descending list every element may stand before every later one. *)
Lemma descending_head (a : float64) (l : list float64) :
  descending (a :: l) = true -> Forall (fun b => desc_ok a b = true) l.
Proof.
  revert a. induction l as [|b l IH]; intros a H; [constructor|].
  simpl in H. apply andb_true_iff in H as [Hab Hl].
  constructor; [exact Hab|].
  eapply Forall_impl; [apply (IH b Hl)|].
  intros c Hbc. apply (desc_ok_trans a b c Hab Hbc).
Qed.

Lemma descending_tail (a : float64) (l : list float64) :
  descending (a :: l) = true -> descending l = true.
Proof.
  destruct l as [|b l]; [reflexivity|]. simpl. intros H.
  apply andb_true_iff in H as [_ Hl]. exact Hl.
Qed.

Lemma descending_app (l1 l2 : list float64) (a b : float64) :
  descending (l1 ++ l2) = true -> a ∈ l1 -> b ∈ l2 -> desc_ok a b = true.
Proof.
  induction l1 as [|x l1 IH]; intros Hdesc Ha Hb; [inversion Ha|].
  apply elem_of_cons in Ha as [->|Ha].
  - pose proof (descending_head x (l1 ++ l2) Hdesc) as Hall.
    rewrite Forall_forall in Hall. apply Hall, elem_of_app. right. exact Hb.
  - apply IH; [|exact Ha|exact Hb]. apply (descending_tail x), Hdesc.
Qed.

(** What the sort of the top-10 table returns, before the cut. *)
Lemma sort_values_desc_sorted (argsort : list float64 -> list nat)
    (view : DataFrame) :
  sorts_descending argsort ->
  float_column "数字化转型指数" view ->
  exists sorted,
    sort_values_desc argsort view = Ok (mkFrame (columns view) sorted) /\
    sorted ≡ₚ rows view /\
    descending (map key_of sorted) = true.
Proof.
  intros Hsorts Hfloat.
  destruct (Hsorts (map key_of (rows view))) as [Hperm Hdesc].
  rewrite length_map in Hperm.
  exists (flat_map (row_at (rows view)) (argsort (map key_of (rows view)))).
  split; [apply sort_values_desc_rows, Hfloat|]. split.
  - rewrite (Permutation_flat_map (row_at (rows view)) Hperm).
    pose proof (rows_at_seq [] (rows view)) as Hseq. simpl in Hseq.
    rewrite Hseq. reflexivity.
  - rewrite keys_at; [exact Hdesc|].
    apply Forall_forall. intros i Hi. rewrite Hperm in Hi.
    apply elem_of_seq in Hi. lia.
Qed.

(** X9. The top-10 table holds the largest: every row of the view is in
    the table or may stand after each row of the table in descending
    order (its index is missing or not larger), and a view of at most
    ten rows is in the table whole. *)
Theorem top10_holds_the_largest (argsort : list float64 -> list nat)
    (view out : DataFrame) :
  sorts_descending argsort ->
  float_column "数字化转型指数" view ->
  top10 argsort view = Ok out ->
  (forall r, r ∈ rows view ->
             r ∈ rows out \/
             forall r', r' ∈ rows out -> desc_ok (key_of r') (key_of r) = true) /\
  (length (rows view) <= 10 -> rows out ≡ₚ rows view).
Proof.
  intros Hsorts Hfloat Hout.
  destruct (sort_values_desc_sorted argsort view Hsorts Hfloat)
    as (sorted & Hsorted & Hperm & Hdesc).
  unfold top10 in Hout. rewrite Hsorted in Hout. simpl in Hout.
  injection Hout as <-. simpl. split.
  - intros r Hr. rewrite <- Hperm, <- (take_drop 10 sorted) in Hr.
    apply elem_of_app in Hr as [Hr|Hr]; [left; exact Hr|]. right.
    intros r' Hr'.
    apply (descending_app (map key_of (take 10 sorted))
             (map key_of (drop 10 sorted))).
    + rewrite <- map_app, take_drop. exact Hdesc.
    + apply list_elem_of_In, in_map, list_elem_of_In, Hr'.
    + apply list_elem_of_In, in_map, list_elem_of_In, Hr.
  - intros Hlen. rewrite take_ge; [exact Hperm|].
    rewrite (Permutation_length Hperm). exact Hlen.
Qed.

Lemma top10_holds_the_largest_witness :
  exists out,
    top10 stable_argsort sample_loaded = Ok out /\
    (forall r, r ∈ rows sample_loaded ->
               r ∈ rows out \/
               forall r', r' ∈ rows out ->
                          desc_ok (key_of r') (key_of r) = true) /\
    (length (rows sample_loaded) <= 10 -> rows out ≡ₚ rows sample_loaded).
Proof.
  assert (Hfloat : float_column "数字化转型指数" sample_loaded).
  { split; [apply list_elem_of_In; vm_compute; tauto|].
    repeat (constructor; [eexists; reflexivity|]); constructor. }
  destruct (sort_values_desc_sorted stable_argsort sample_loaded
              stable_argsort_sorts Hfloat) as (sorted & Hsorted & _ & _).
  exists (head 10 (mkFrame (columns sample_loaded) sorted)).
  assert (Hout : top10 stable_argsort sample_loaded
                 = Ok (head 10 (mkFrame (columns sample_loaded) sorted)))
    by (unfold top10; rewrite Hsorted; reflexivity).
  split; [exact Hout|].
  apply (top10_holds_the_largest stable_argsort sample_loaded _
           stable_argsort_sorts Hfloat Hout).
Defined.

(* ===================================================================== *)
(** ** Further properties of the filters *)
(* ===================================================================== *)

Lemma sublist_filter_rows {A} (p : A -> bool) (l : list A) :
  sublist (List.filter p l) l.
Proof.
  induction l as [|a l IH]; simpl; [constructor|].
  destruct (p a); [apply sublist_skip|apply sublist_cons]; exact IH.
Qed.

Lemma filter_passing_rows {A} (p : A -> bool) (l : list A) :
  List.filter p (List.filter p l) = List.filter p l.
Proof.
  apply forallb_filter_id, forallb_forall. intros a Ha.
  apply filter_In in Ha as [_ Ha]. exact Ha.
Qed.

(** X10. Filtering only removes rows: the filtered view has the columns
    of the dataset and its rows are rows of the dataset in their
    original order; filtering the view once more with the same inputs
    changes nothing. *)
Theorem filtering_only_removes (lower : char -> char) (df view : DataFrame)
    (inp : inputs) :
  apply_filters lower df inp = Ok view ->
  columns view = columns df /\
  sublist (rows view) (rows df) /\
  forall view', apply_filters lower view inp = Ok view' -> view' = view.
Proof.
  intros Hview.
  destruct (apply_filters_rows lower df view inp Hview) as [Hcols Hrows].
  split; [exact Hcols|]. split.
  - rewrite Hrows.
    etransitivity; [apply sublist_filter_rows|].
    etransitivity; apply sublist_filter_rows.
  - intros view' Hview'.
    destruct (apply_filters_rows lower view view' inp Hview') as [Hcols' Hrows'].
    assert (Hsame : rows view' = rows view).
    { rewrite Hrows'.
      assert (Hall : forall (p : gmap string cell -> bool),
                 (forall r, r ∈ rows view -> p r = true) ->
                 List.filter p (rows view) = rows view).
      { intros p Hp. apply forallb_filter_id, forallb_forall.
        intros r Hr. apply Hp, list_elem_of_In, Hr. }
      rewrite (Hall (passes_industry _)), (Hall (passes_range _)),
        (Hall (passes_search _ _)); try reflexivity;
        intros r Hr;
        apply (elem_of_apply_filters lower df view inp r Hview) in Hr; tauto. }
    clear Hrows Hrows' Hview Hview'.
    destruct view as [c rs], view' as [c' rs']. simpl in Hcols', Hsame.
    rewrite Hcols', Hsame. reflexivity.
Qed.

Lemma filtering_only_removes_witness :
  exists view,
    apply_filters ascii_lower sample_loaded
      (mkInputs [u "消费"; u "其他"] (F64.decimal 2 1, F64.decimal 73 1) [])
    = Ok view /\
    columns view = columns sample_loaded /\
    sublist (rows view) (rows sample_loaded) /\
    forall view',
      apply_filters ascii_lower view
        (mkInputs [u "消费"; u "其他"] (F64.decimal 2 1, F64.decimal 73 1) [])
      = Ok view' -> view' = view.
Proof.
  exists (mkFrame (columns sample_loaded) [sample_second_row; sample_third_row]).
  assert (Hview : apply_filters ascii_lower sample_loaded
            (mkInputs [u "消费"; u "其他"] (F64.decimal 2 1, F64.decimal 73 1) [])
          = Ok (mkFrame (columns sample_loaded)
                  [sample_second_row; sample_third_row]))
    by (vm_compute; reflexivity).
  split; [exact Hview|].
  apply (filtering_only_removes ascii_lower sample_loaded _ _ Hview).
Defined.

Section Selections.

Variable lower : char -> char.

Lemma loaded_text_columns (w : world) (df : DataFrame) (shown : list event) :
  run (load_and_calculate_index lower w) = (Ok df, shown) ->
  rows df <> [] ->
  text_column "行业" df /\ text_column "企业名称" df /\
  float_column "数字化转型指数" df.
Proof.
  intros Hload Hrows.
  destruct (load_succeeded lower w df shown Hload Hrows) as [Hproc _].
  destruct (processing_columns lower w df Hproc) as [Hidx Hlabel].
  assert (Hname : "企业名称" ∈ columns df).
  { unfold processing in Hproc.
    apply obind_Ok in Hproc as (raw & _ & H).
    apply obind_Ok in H as (df1 & _ & Hmatch).
    unfold match_industries in Hmatch.
    pose proof (fold_match_name_column lower _ _ _ table_not_empty Hmatch) as Hn.
    match type of Hmatch with fold_ok _ _ (df_set ?d ?c ?v) = _ =>
      destruct (df_set_columns d c v) as [Hl _] end.
    rewrite (fold_match_columns lower _ _ _ Hmatch Hl). exact Hn. }
  repeat split; try assumption; apply Forall_forall; intros r Hr.
  - destruct (loaded_label lower w df shown r Hload Hr) as (name & _ & Hl). eauto.
  - destruct (loaded_label lower w df shown r Hload Hr) as (name & Hn & _). eauto.
  - destruct (loaded_rows lower w df shown r Hload Hr) as (r0 & v & s & _ & _ & ->).
    exists v. rewrite lookup_insert_ne by discriminate. apply lookup_insert_eq.
Qed.

(** A selection that has the label of every row keeps every row. *)
Lemma filter_industry_covering (selected : list str) (view : DataFrame) :
  text_column "行业" view ->
  (forall r label, r ∈ rows view -> r !! "行业" = Some (VStr label) ->
                   label ∈ selected) ->
  filter_industry selected view = Ok view.
Proof.
  intros Htext Hcover.
  assert (Hout : exists out, filter_industry selected view = Ok out).
  { unfold filter_industry. destruct selected; [eauto|].
    destruct (text_cells _ _ Htext) as [labels ->]. simpl. eauto. }
  destruct Hout as [out Hout]. rewrite Hout. f_equal.
  apply filter_industry_rows in Hout as [Hcols Hrows].
  assert (Hall : List.filter (passes_industry selected) (rows view) = rows view).
  { apply forallb_filter_id, forallb_forall. intros r Hr.
    apply list_elem_of_In in Hr. destruct Htext as [_ Htext].
    rewrite Forall_forall in Htext. destruct (Htext r Hr) as [label Hlabel].
    unfold passes_industry. destruct selected as [|s0 selected]; [reflexivity|].
    rewrite Hlabel. simpl. apply bool_decide_eq_true.
    apply (Hcover r label Hr Hlabel). }
  rewrite Hall in Hrows.
  destruct view as [c rs], out as [c' rs']. simpl in Hcols, Hrows.
  rewrite Hcols, Hrows. reflexivity.
Qed.

End Selections.

(** X11. Selecting every industry is the same as selecting none: on a
    loaded dataset a selection that contains the label of every row
    gives the same filtered view as the empty selection, for every
    range and every search term. *)
Theorem covering_selection_equals_none (lower : char -> char) (w : world)
    (df : DataFrame) (shown : list event) (selected : list str)
    (range : float64 * float64) (term : str) :
  run (load_and_calculate_index lower w) = (Ok df, shown) ->
  rows df <> [] ->
  (forall r label, r ∈ rows df -> r !! "行业" = Some (VStr label) ->
                   label ∈ selected) ->
  apply_filters lower df (mkInputs selected range term)
  = apply_filters lower df (mkInputs [] range term).
Proof.
  intros Hload Hrows Hcover.
  destruct (loaded_text_columns lower w df shown Hload Hrows) as (Hlabel & _ & _).
  unfold apply_filters. simpl.
  rewrite (filter_industry_covering selected df Hlabel Hcover). reflexivity.
Qed.

Lemma covering_selection_equals_none_witness :
  apply_filters ascii_lower sample_loaded
    (mkInputs LABELS (F64.decimal 3 1, F64.decimal 73 1) (u "银行"))
  = apply_filters ascii_lower sample_loaded
      (mkInputs [] (F64.decimal 3 1, F64.decimal 73 1) (u "银行")).
Proof.
  apply (covering_selection_equals_none ascii_lower sample_world sample_loaded
           _ LABELS _ _ sample_loads); [discriminate|].
  intros r label Hr Hlabel.
  destruct (loaded_label ascii_lower sample_world sample_loaded _ r
              sample_loads Hr) as (name & _ & Hl).
  rewrite Hlabel in Hl. injection Hl as ->. apply label_of_in_labels.
Defined.

Section Term_case.

Variable lower : char -> char.

Lemma match_here_folded (t t' s : str) :
  map lower t = map lower t' ->
  match_here lower (map Lit t) s = match_here lower (map Lit t') s.
Proof.
  revert t' s. induction t as [|c t IH]; intros [|c' t'] s Heq;
    simpl in *; try discriminate; [reflexivity|].
  injection Heq as Hc Ht. destruct s as [|d s]; [reflexivity|].
  rewrite Hc, (IH t' s Ht). reflexivity.
Qed.

Lemma re_search_folded (t t' s : str) :
  map lower t = map lower t' ->
  re_search lower [map Lit t] s = re_search lower [map Lit t'] s.
Proof.
  intros Heq. unfold re_search. simpl. f_equal.
  induction s as [|d s IH]; simpl.
  - rewrite (match_here_folded t t' [] Heq). reflexivity.
  - rewrite (match_here_folded t t' (d :: s) Heq), IH. reflexivity.
Qed.

Lemma str_contains_folded (col : string) (dtype_of series : list cell) (t t' : str) :
  Forall (fun c => is_special c = false) t ->
  Forall (fun c => is_special c = false) t' ->
  map lower t = map lower t' ->
  str_contains lower col dtype_of series t
  = str_contains lower col dtype_of series t'.
Proof.
  intros Hplain Hplain' Heq. unfold str_contains.
  rewrite (re_compile_literal t Hplain), (re_compile_literal t' Hplain').
  destruct (str_accessor col dtype_of); simpl; try reflexivity.
  f_equal. apply map_ext. intros [z|f|s]; try reflexivity.
  f_equal. apply (re_search_folded t t' s Heq).
Qed.

End Term_case.

(** X12. The case of the search term does not matter: two terms
    without special characters that are the same up to case select the
    same rows of every view. *)
Theorem search_ignores_case_of_term (lower : char -> char)
    (df view : DataFrame) (t t' : str) :
  Forall (fun c => is_special c = false) t ->
  Forall (fun c => is_special c = false) t' ->
  map lower t = map lower t' ->
  filter_search lower df t view = filter_search lower df t' view.
Proof.
  intros Hplain Hplain' Heq. unfold filter_search.
  destruct t as [|c t], t' as [|c' t']; try discriminate; [reflexivity|].
  destruct (df_get view "股票代码") as [codes| |]; cbn [obind]; try reflexivity.
  destruct (df_get df "股票代码") as [all_codes| |]; cbn [obind]; try reflexivity.
  rewrite (str_contains_folded lower "股票代码" all_codes codes _ _
             Hplain Hplain' Heq).
  destruct (str_contains lower "股票代码" all_codes codes (c' :: t'));
    cbn [obind]; try reflexivity.
  destruct (df_get view "企业名称") as [names| |]; cbn [obind]; try reflexivity.
  destruct (df_get df "企业名称") as [all_names| |]; cbn [obind]; try reflexivity.
  rewrite (str_contains_folded lower "企业名称" all_names names _ _
             Hplain Hplain' Heq).
  reflexivity.
Qed.

Lemma search_ignores_case_of_term_witness :
  filter_search ascii_lower latin_view (u "tcl") latin_view
  = filter_search ascii_lower latin_view (u "Tcl") latin_view /\
  filter_search ascii_lower latin_view (u "tcl") latin_view
  = Ok (head 1 latin_view).
Proof.
  split; [|vm_compute; reflexivity].
  apply (search_ignores_case_of_term ascii_lower latin_view latin_view
           (u "tcl") (u "Tcl")).
  - repeat constructor.
  - repeat constructor.
  - reflexivity.
Defined.

(* ===================================================================== *)
(** ** The page as it first comes up *)
(* ===================================================================== *)

Lemma unique_covers (seen cells : list cell) (c : cell) :
  c ∈ cells -> c ∈ seen \/ c ∈ unique seen cells.
Proof.
  revert seen. induction cells as [|c0 cells IH]; intros seen Hin;
    [inversion Hin|].
  simpl. apply elem_of_cons in Hin as [->|Hin].
  - case_bool_decide as Hseen; [left; exact Hseen|right; left].
  - case_bool_decide as Hseen.
    + apply IH, Hin.
    + destruct (IH (c0 :: seen) Hin) as [Hs|Hu].
      * apply elem_of_cons in Hs as [->|Hs]; [right; left|left; exact Hs].
      * right. right. exact Hu.
Qed.

Lemma float_min_cases (a b : float64) :
  F64.is_nan a = false -> F64.is_nan b = false ->
  F64.is_nan (float_min a b) = false /\
  F64.leb (float_min a b) a = true /\ F64.leb (float_min a b) b = true.
Proof.
  intros Ha Hb. unfold float_min. destruct (F64.leb b a) eqn:Hba.
  - repeat split; [exact Hb|exact Hba|apply leb_refl, Hb].
  - repeat split; [exact Ha|apply leb_refl, Ha|apply leb_total; assumption].
Qed.

Lemma float_max_cases (a b : float64) :
  F64.is_nan a = false -> F64.is_nan b = false ->
  F64.is_nan (float_max a b) = false /\
  F64.leb a (float_max a b) = true /\ F64.leb b (float_max a b) = true.
Proof.
  intros Ha Hb. unfold float_max. destruct (F64.leb a b) eqn:Hab.
  - repeat split; [exact Hb|exact Hab|apply leb_refl, Hb].
  - repeat split; [exact Ha|apply leb_refl, Ha|apply leb_total; assumption].
Qed.

Lemma fold_min_bound (vs : list float64) (acc : float64) :
  F64.is_nan acc = false ->
  Forall (fun v => F64.is_nan v = false) vs ->
  F64.is_nan (fold_left float_min vs acc) = false /\
  Forall (fun v => F64.leb (fold_left float_min vs acc) v = true) (acc :: vs).
Proof.
  intros Hacc Hvs. revert acc Hacc.
  induction Hvs as [|x vs Hx _ IH]; intros acc Hacc; simpl.
  - split; [exact Hacc|]. constructor; [apply leb_refl, Hacc|constructor].
  - destruct (float_min_cases acc x Hacc Hx) as (Hm & Hma & Hmx).
    destruct (IH (float_min acc x) Hm) as [Hnan Hall].
    split; [exact Hnan|].
    inversion Hall as [|? ? Hhead Htail]; subst.
    constructor; [apply (leb_trans _ _ _ Hhead Hma)|].
    constructor; [apply (leb_trans _ _ _ Hhead Hmx)|exact Htail].
Qed.

Lemma fold_max_bound (vs : list float64) (acc : float64) :
  F64.is_nan acc = false ->
  Forall (fun v => F64.is_nan v = false) vs ->
  F64.is_nan (fold_left float_max vs acc) = false /\
  Forall (fun v => F64.leb v (fold_left float_max vs acc) = true) (acc :: vs).
Proof.
  intros Hacc Hvs. revert acc Hacc.
  induction Hvs as [|x vs Hx _ IH]; intros acc Hacc; simpl.
  - split; [exact Hacc|]. constructor; [apply leb_refl, Hacc|constructor].
  - destruct (float_max_cases acc x Hacc Hx) as (Hm & Hma & Hmx).
    destruct (IH (float_max acc x) Hm) as [Hnan Hall].
    split; [exact Hnan|].
    inversion Hall as [|? ? Hhead Htail]; subst.
    constructor; [apply (leb_trans _ _ _ Hma Hhead)|].
    constructor; [apply (leb_trans _ _ _ Hmx Hhead)|exact Htail].
Qed.

Lemma skipna_spec (values : list float64) :
  Forall (fun v => F64.is_nan v = false) (skipna values) /\
  forall v, v ∈ values -> F64.is_nan v = false -> v ∈ skipna values.
Proof.
  unfold skipna. split.
  - apply Forall_forall. intros v Hv.
    apply list_elem_of_In, filter_In in Hv as [_ Hv].
    apply negb_true_iff, Hv.
  - intros v Hv Hnan. apply list_elem_of_In, filter_In.
    split; [apply list_elem_of_In, Hv|]. rewrite Hnan. reflexivity.
Qed.

(** Every value that is a number lies between the minimum and the
    maximum of its column. *)
Lemma series_bounds (values : list float64) (v : float64) :
  v ∈ values -> F64.is_nan v = false ->
  in_range (series_min values, series_max values) v = true.
Proof.
  intros Hv Hnan. destruct (skipna_spec values) as [Hall Hkept].
  specialize (Hkept v Hv Hnan).
  unfold in_range, series_min, series_max. simpl.
  destruct (skipna values) as [|v0 vs]; [inversion Hkept|].
  inversion Hall as [|? ? Hv0 Hvs]; subst.
  destruct (fold_min_bound vs v0 Hv0 Hvs) as [_ Hmin].
  destruct (fold_max_bound vs v0 Hv0 Hvs) as [_ Hmax].
  rewrite Forall_forall in Hmin, Hmax.
  rewrite (Hmin v Hkept), (Hmax v Hkept). reflexivity.
Qed.

(** X13. The defaults that the page passes to its widgets select every
    company that has an index: on a loaded dataset the default inputs
    (every industry of the dataset, the range from the smallest to the
    largest index, no search term) exist, the filters return on them,
    and the filtered view is the dataset without the rows whose index
    is missing. *)
Theorem defaults_show_every_indexed_row (lower : char -> char) (w : world)
    (df : DataFrame) (shown : list event) :
  run (load_and_calculate_index lower w) = (Ok df, shown) ->
  rows df <> [] ->
  exists inp view,
    default_inputs df = Ok inp /\
    apply_filters lower df inp = Ok view /\
    columns view = columns df /\
    rows view = List.filter (fun r => negb (F64.is_nan (key_of r))) (rows df).
Proof.
  intros Hload Hrows.
  destruct (loaded_text_columns lower w df shown Hload Hrows)
    as (Hlabel & _ & Hfloat).
  destruct (text_cells _ _ Hlabel) as [labels Hlabels].
  destruct (float_keys df Hfloat) as [Hcells Hkeys].
  destruct (filter_range_total
              (series_min (map key_of (rows df)), series_max (map key_of (rows df)))
              df Hfloat) as [out Hout].
  exists (mkInputs (omap cell_text (unique [] (map VStr labels)))
            (series_min (map key_of (rows df)), series_max (map key_of (rows df)))
            []), out.
  split.
  { unfold default_inputs. rewrite Hlabels, Hcells. simpl.
    rewrite Hkeys. simpl. reflexivity. }
  unfold apply_filters. simpl.
  rewrite (filter_industry_covering _ df Hlabel).
  2:{ intros r label Hr Hl.
      apply df_get_Ok in Hlabels as [_ Hall].
      apply list_elem_of_lookup in Hr as [i Hi].
      destruct (Forall2_lookup_l _ _ _ _ _ Hall Hi) as (c & Hc & Hrc).
      rewrite Hl in Hrc. injection Hrc as <-.
      apply list_elem_of_omap. exists (VStr label). split; [|reflexivity].
      destruct (unique_covers [] (map VStr labels) (VStr label)) as [Hs|Hu];
        [apply list_elem_of_lookup; eauto|inversion Hs|exact Hu]. }
  simpl. rewrite Hout. simpl. split; [reflexivity|].
  apply filter_range_rows in Hout as [Hcols ->].
  split; [exact Hcols|].
  apply filter_ext_in. intros r Hr.
  destruct Hfloat as [_ Hfloat]. rewrite Forall_forall in Hfloat.
  destruct (Hfloat r (proj2 (list_elem_of_In _ _) Hr)) as [f Hf].
  unfold passes_range, key_of. rewrite Hf. simpl.
  destruct (F64.is_nan f) eqn:Hnan.
  - destruct f; try discriminate. unfold in_range. simpl.
    rewrite leb_nan_r. reflexivity.
  - simpl. apply series_bounds; [|exact Hnan].
    apply list_elem_of_In, in_map_iff. exists r. split; [|exact Hr].
    unfold key_of. rewrite Hf. reflexivity.
Qed.

Lemma defaults_show_every_indexed_row_witness :
  exists inp view,
    default_inputs gap_loaded = Ok inp /\
    apply_filters ascii_lower gap_loaded inp = Ok view /\
    columns view = columns gap_loaded /\
    rows view = List.filter (fun r => negb (F64.is_nan (key_of r)))
                  (rows gap_loaded).
Proof.
  apply (defaults_show_every_indexed_row ascii_lower (world_with gap_sheet)
           gap_loaded _ gap_sheet_loads).
  discriminate.
Defined.

(* ===================================================================== *)
(** ** The page on a loaded dataset *)
(* ===================================================================== *)

Example no_total_sheet_loads :
  run (load_and_calculate_index ascii_lower (world_with no_total_sheet))
  = (Ok no_total_loaded, [st_success (Loaded 1)]).
Proof. vm_compute. reflexivity. Qed.

Example numeric_code_sheet_loads :
  run (load_and_calculate_index ascii_lower (world_with numeric_code_sheet))
  = (Ok numeric_code_loaded, [st_success (Loaded 2)]).
Proof. vm_compute. reflexivity. Qed.

Lemma df_not_empty (df : DataFrame) (col : string) :
  rows df <> [] -> col ∈ columns df -> df_empty df = false.
Proof.
  unfold df_empty. intros Hrows Hcol.
  destruct (columns df); [inversion Hcol|].
  destruct (rows df); [contradiction|reflexivity].
Qed.

Lemma find_missing_column (view : DataFrame) (present : list string)
    (col : string) (rest : list string) :
  Forall (fun c => c ∈ columns view) present ->
  col ∉ columns view ->
  List.find (fun c => negb (bool_decide (c ∈ columns view)))
    (present ++ col :: rest) = Some col.
Proof.
  intros Hpresent Hmissing.
  induction Hpresent as [|c present Hc _ IH]; simpl.
  - rewrite bool_decide_false by exact Hmissing. reflexivity.
  - rewrite bool_decide_true by exact Hc. exact IH.
Qed.

Lemma find_no_missing_column (view : DataFrame) (cols : list string) :
  Forall (fun c => c ∈ columns view) cols ->
  List.find (fun c => negb (bool_decide (c ∈ columns view))) cols = None.
Proof.
  induction 1 as [|c cols Hc _ IH]; simpl; [reflexivity|].
  rewrite bool_decide_true by exact Hc. exact IH.
Qed.

(** The page up to the filters. *)
Lemma main_until_filters (lower : char -> char)
    (argsort : list float64 -> list nat) (w : world) (inp : inputs)
    (df : DataFrame) (shown : list event) :
  run (load_and_calculate_index lower w) = (Ok df, shown) ->
  df_empty df = false ->
  forall e, apply_filters lower df inp = Raise e ->
            run (main lower argsort w inp)
            = (Raise e, [st_title; st_markdown] ++ shown).
Proof.
  intros Hload Hempty e Hfilters.
  unfold run, main, ui_bind, show at 1 2. simpl.
  rewrite load_appends, Hload. simpl. rewrite Hempty.
  unfold lift. rewrite Hfilters. reflexivity.
Qed.

(** The page up to the first table. *)
Lemma main_until_table (lower : char -> char)
    (argsort : list float64 -> list nat) (w : world) (inp : inputs)
    (df filtered : DataFrame) (shown : list event) :
  run (load_and_calculate_index lower w) = (Ok df, shown) ->
  df_empty df = false ->
  apply_filters lower df inp = Ok filtered ->
  forall e,
    df_select filtered
      ["股票代码"; "企业名称"; "行业"; "数字化转型指数"; "总词频数"]%string
    = Raise e ->
    run (main lower argsort w inp)
    = (Raise e, [st_title; st_markdown] ++ shown
                  ++ [st_subheader (QueryResults (df_len filtered))]).
Proof.
  intros Hload Hempty Hfilters e Hselect.
  unfold run, main, ui_bind, show at 1 2. simpl.
  rewrite load_appends, Hload. simpl. rewrite Hempty.
  unfold lift. rewrite Hfilters. unfold show at 1.
  rewrite Hselect. reflexivity.
Qed.

(** X14. A sheet without the word count column loads, and then the page
    fails: the loader does not look at that column, the first table
    does, so on a loaded dataset that lacks it the page raises the
    [KeyError] for it right after the heading with the number of
    results, whatever the inputs. *)
Theorem page_needs_word_count_column (lower : char -> char)
    (argsort : list float64 -> list nat) (w : world) (inp : inputs)
    (df filtered : DataFrame) (shown : list event) :
  run (load_and_calculate_index lower w) = (Ok df, shown) ->
  rows df <> [] ->
  apply_filters lower df inp = Ok filtered ->
  "股票代码" ∈ columns df ->
  "总词频数" ∉ columns df ->
  run (main lower argsort w inp)
  = (Raise (KeyError "总词频数"),
     [st_title; st_markdown] ++ shown
       ++ [st_subheader (QueryResults (df_len filtered))]).
Proof.
  intros Hload Hrows Hfilters Hcode Htotal.
  destruct (loaded_text_columns lower w df shown Hload Hrows)
    as ([Hlabel _] & [Hname _] & [Hidx _]).
  apply (main_until_table lower argsort w inp df filtered shown Hload);
    [apply (df_not_empty df _ Hrows Hcode)|exact Hfilters|].
  destruct (apply_filters_rows lower df filtered inp Hfilters) as [Hcols _].
  assert (Hfind := find_missing_column filtered
             ["股票代码"; "企业名称"; "行业"; "数字化转型指数"]%string
             "总词频数" []).
  cbn [app] in Hfind. unfold df_select. rewrite Hfind; [reflexivity| |].
  - rewrite Hcols. repeat constructor; assumption.
  - rewrite Hcols. exact Htotal.
Qed.

Lemma page_needs_word_count_column_witness :
  run (main ascii_lower stable_argsort (world_with no_total_sheet) all_selected)
  = (Raise (KeyError "总词频数"),
     [st_title; st_markdown; st_success (Loaded 1);
      st_subheader (QueryResults 1)]).
Proof.
  apply (page_needs_word_count_column ascii_lower stable_argsort
           (world_with no_total_sheet) all_selected no_total_loaded
           no_total_loaded _ no_total_sheet_loads).
  - discriminate.
  - vm_compute. reflexivity.
  - apply list_elem_of_In. vm_compute. tauto.
  - intros Hin. apply list_elem_of_In in Hin. vm_compute in Hin.
    repeat (destruct Hin as [Hin|Hin]; [discriminate Hin|]). exact Hin.
Defined.

Lemma filter_industry_total (selected : list str) (view : DataFrame) :
  text_column "行业" view ->
  exists out, filter_industry selected view = Ok out.
Proof.
  intros Htext. unfold filter_industry. destruct selected; [eauto|].
  destruct (text_cells _ _ Htext) as [labels ->]. simpl. eauto.
Qed.

Lemma filtered_rows_inherit (P : gmap string cell -> Prop)
    (p : gmap string cell -> bool) (rs : list (gmap string cell)) :
  Forall P rs -> Forall P (List.filter p rs).
Proof.
  intros Hall. apply Forall_forall. intros r Hr.
  apply list_elem_of_In, filter_In in Hr as [Hr _].
  rewrite Forall_forall in Hall. apply Hall, list_elem_of_In, Hr.
Qed.

(** The first two filters always return on a loaded dataset, and what
    they return is a part of it. *)
Lemma industry_and_range_total (lower : char -> char) (w : world)
    (df : DataFrame) (shown : list event) (inp : inputs) :
  run (load_and_calculate_index lower w) = (Ok df, shown) ->
  rows df <> [] ->
  exists v1 v2 p,
    filter_industry (selected_industries inp) df = Ok v1 /\
    filter_range (index_range inp) v1 = Ok v2 /\
    columns v2 = columns df /\
    rows v2 = List.filter p (rows df).
Proof.
  intros Hload Hrows.
  destruct (loaded_text_columns lower w df shown Hload Hrows)
    as (Hlabel & _ & Hfloat).
  destruct (filter_industry_total (selected_industries inp) df Hlabel) as [v1 H1].
  pose proof (filter_industry_rows _ _ _ H1) as [Hc1 Hr1].
  assert (Hfloat1 : float_column "数字化转型指数" v1).
  { destruct Hfloat as [Hcol Hall]. split; [rewrite Hc1; exact Hcol|].
    rewrite Hr1. apply filtered_rows_inherit, Hall. }
  destruct (filter_range_total (index_range inp) v1 Hfloat1) as [v2 H2].
  pose proof (filter_range_rows _ _ _ H2) as [Hc2 Hr2].
  exists v1, v2,
    (fun r => passes_industry (selected_industries inp) r
              && passes_range (index_range inp) r).
  split; [exact H1|]. split; [exact H2|]. split; [congruence|].
  rewrite Hr2, Hr1. clear. induction (rows df) as [|r rs IH]; simpl;
    [reflexivity|].
  destruct (passes_industry (selected_industries inp) r); simpl; [|exact IH].
  destruct (passes_range (index_range inp) r); simpl; rewrite IH; reflexivity.
Qed.

(** X15. When the stock codes of the sheet are numbers, every search
    breaks the page: on a loaded dataset whose code column holds no text,
    a non-empty search term makes the page raise the [AttributeError] of
    the text accessor before any result is shown, whatever the term. *)
Theorem numeric_codes_break_search (lower : char -> char)
    (argsort : list float64 -> list nat) (w : world) (inp : inputs)
    (df : DataFrame) (shown : list event) :
  run (load_and_calculate_index lower w) = (Ok df, shown) ->
  rows df <> [] ->
  "股票代码" ∈ columns df ->
  Forall (fun r => exists c, r !! "股票代码" = Some c /\ is_text c = false)
    (rows df) ->
  search_term inp <> [] ->
  run (main lower argsort w inp)
  = (Raise (AttributeError "股票代码"), [st_title; st_markdown] ++ shown).
Proof.
  intros Hload Hrows Hcol Hcodes Hterm.
  apply (main_until_filters lower argsort w inp df shown Hload
           (df_not_empty df _ Hrows Hcol)).
  destruct (industry_and_range_total lower w df shown inp Hload Hrows)
    as (v1 & v2 & p & H1 & H2 & Hc2 & Hr2).
  unfold apply_filters. rewrite H1. simpl. rewrite H2. simpl.
  unfold filter_search. destruct (search_term inp) as [|c0 term]; [congruence|].
  assert (Hsome : Forall (fun r => is_Some (r !! "股票代码")) (rows df)).
  { eapply Forall_impl; [exact Hcodes|]. intros r (c & Hc & _). eauto. }
  destruct (cells_of_column "股票代码" v2) as (codes & -> & _).
  { rewrite Hc2. exact Hcol. }
  { rewrite Hr2. apply filtered_rows_inherit, Hsome. }
  destruct (cells_of_column "股票代码" df Hcol Hsome) as (all_codes & -> & Hall).
  simpl. unfold str_contains.
  assert (Haccess : str_accessor "股票代码" all_codes
                    = Raise (AttributeError "股票代码")).
  { unfold str_accessor.
    destruct all_codes as [|c1 all_codes].
    - apply Forall2_length in Hall. destruct (rows df); [contradiction|].
      discriminate Hall.
    - assert (Hnone : existsb is_text (c1 :: all_codes) = false).
      { apply not_true_is_false. intros Hex.
        apply existsb_exists in Hex as (c & Hin & Htext).
        apply list_elem_of_In, list_elem_of_lookup in Hin as [i Hi].
        destruct (Forall2_lookup_r _ _ _ _ _ Hall Hi) as (r & Hr & Hrc).
        rewrite Forall_forall in Hcodes.
        destruct (Hcodes r) as (c' & Hc' & Hnot);
          [apply list_elem_of_lookup; eauto|].
        rewrite Hrc in Hc'. injection Hc' as <-. congruence. }
      rewrite Hnone. reflexivity. }
  rewrite Haccess. reflexivity.
Qed.

Lemma numeric_codes_break_search_witness :
  run (main ascii_lower stable_argsort (world_with numeric_code_sheet)
         (mkInputs [] (F64.decimal 3 1, F64.decimal 73 1) (u "1")))
  = (Raise (AttributeError "股票代码"),
     [st_title; st_markdown; st_success (Loaded 2)]).
Proof.
  apply (numeric_codes_break_search ascii_lower stable_argsort
           (world_with numeric_code_sheet) _ numeric_code_loaded _
           numeric_code_sheet_loads).
  - discriminate.
  - apply list_elem_of_In. vm_compute. tauto.
  - repeat (constructor; [eexists; split; reflexivity|]). constructor.
  - discriminate.
Defined.

Lemma df_select_total (view : DataFrame) (cols : list string) :
  Forall (fun c => c ∈ columns view) cols ->
  exists table,
    df_select view cols = Ok table /\
    columns table = cols /\
    length (rows table) = length (rows view).
Proof.
  intros Hcols. unfold df_select.
  rewrite (find_no_missing_column view cols Hcols).
  eexists. split; [reflexivity|]. split; [reflexivity|].
  simpl. apply length_map.
Qed.

(** The page with every step returning. *)
Lemma main_to_the_end (lower : char -> char)
    (argsort : list float64 -> list nat) (w : world) (inp : inputs)
    (df filtered table top table10 : DataFrame) (values : list cell)
    (shown : list event) :
  run (load_and_calculate_index lower w) = (Ok df, shown) ->
  df_empty df = false ->
  apply_filters lower df inp = Ok filtered ->
  df_select filtered
    ["股票代码"; "企业名称"; "行业"; "数字化转型指数"; "总词频数"]%string = Ok table ->
  df_get filtered "数字化转型指数" = Ok values ->
  top10 argsort filtered = Ok top ->
  df_select top ["股票代码"; "企业名称"; "行业"; "数字化转型指数"]%string
    = Ok table10 ->
  run (main lower argsort w inp)
  = (Ok tt, [st_title; st_markdown] ++ shown
              ++ [st_subheader (QueryResults (df_len filtered));
                  st_dataframe table;
                  st_subheader Distribution;
                  st_pyplot values;
                  st_subheader Top10;
                  st_dataframe table10]).
Proof.
  intros Hload Hempty Hfilters Htable Hvalues Htop Htable10.
  unfold run, main, ui_bind, show at 1 2. simpl.
  rewrite load_appends, Hload. simpl. rewrite Hempty.
  unfold lift, show. rewrite Hfilters, Htable, Hvalues, Htop, Htable10.
  rewrite <- !app_assoc. reflexivity.
Qed.

(** X16. On a well-formed dataset the page is shown whole: when the
    dataset is loaded, its stock codes are text, it has the word count
    column, the search term has no special character and the sort keeps
    its promise, the page does not raise and shows, after the messages
    of the loader, the heading with the number of results, the result
    table with its five columns and as many rows, the chart over as many
    values, and the top-10 table with its four columns and at most ten
    rows. *)
Theorem page_is_shown_whole (lower : char -> char)
    (argsort : list float64 -> list nat) (w : world) (inp : inputs)
    (df : DataFrame) (shown : list event) :
  run (load_and_calculate_index lower w) = (Ok df, shown) ->
  rows df <> [] ->
  sorts_descending argsort ->
  text_column "股票代码" df ->
  "总词频数" ∈ columns df ->
  Forall (fun c => is_special c = false) (search_term inp) ->
  exists filtered table values table10,
    apply_filters lower df inp = Ok filtered /\
    run (main lower argsort w inp)
    = (Ok tt, [st_title; st_markdown] ++ shown
                ++ [st_subheader (QueryResults (length (rows filtered)));
                    st_dataframe table;
                    st_subheader Distribution;
                    st_pyplot values;
                    st_subheader Top10;
                    st_dataframe table10]) /\
    columns table
      = ["股票代码"; "企业名称"; "行业"; "数字化转型指数"; "总词频数"]%string /\
    length (rows table) = length (rows filtered) /\
    length values = length (rows filtered) /\
    columns table10 = ["股票代码"; "企业名称"; "行业"; "数字化转型指数"]%string /\
    length (rows table10) = Nat.min 10 (length (rows filtered)).
Proof.
  intros Hload Hrows Hsorts Hcode Htotal Hplain.
  destruct (loaded_text_columns lower w df shown Hload Hrows)
    as (Hlabel & Hname & Hfloat).
  destruct (industry_and_range_total lower w df shown inp Hload Hrows)
    as (v1 & v2 & p & H1 & H2 & Hc2 & Hr2).
  assert (Hpart : forall col, text_column col df -> text_column col v2).
  { intros col [Hcol Hall]. split; [rewrite Hc2; exact Hcol|].
    rewrite Hr2. apply filtered_rows_inherit, Hall. }
  destruct (filter_search_total lower df v2 (search_term inp) Hplain
              Hcode Hname (Hpart _ Hcode) (Hpart _ Hname)) as [filtered H3].
  assert (Hfilters : apply_filters lower df inp = Ok filtered).
  { unfold apply_filters. rewrite H1. simpl. rewrite H2. simpl. exact H3. }
  destruct (apply_filters_rows lower df filtered inp Hfilters) as [Hcols Hfrows].
  assert (Hfloat' : float_column "数字化转型指数" filtered).
  { destruct Hfloat as [Hcol Hall]. split; [rewrite Hcols; exact Hcol|].
    rewrite Hfrows. do 3 apply filtered_rows_inherit. exact Hall. }
  assert (Hfive : Forall (fun c => c ∈ columns filtered)
            ["股票代码"; "企业名称"; "行业"; "数字化转型指数"; "总词频数"]%string).
  { rewrite Hcols. destruct Hcode, Hname, Hlabel, Hfloat.
    repeat constructor; assumption. }
  destruct (df_select_total filtered _ Hfive) as (table & Htable & Htc & Htl).
  destruct (float_keys filtered Hfloat') as [Hvalues _].
  destruct (sort_values_desc_sorted argsort filtered Hsorts Hfloat')
    as (sorted & Hsorted & Hperm & _).
  assert (Htop : top10 argsort filtered
                 = Ok (head 10 (mkFrame (columns filtered) sorted)))
    by (unfold top10; rewrite Hsorted; reflexivity).
  assert (Hfour : Forall (fun c => c ∈ columns
                                     (head 10 (mkFrame (columns filtered) sorted)))
            ["股票代码"; "企业名称"; "行业"; "数字化转型指数"]%string).
  { simpl. rewrite Forall_forall in Hfive. apply Forall_forall.
    intros c Hc. apply Hfive. apply list_elem_of_In in Hc.
    apply list_elem_of_In. simpl in *. tauto. }
  destruct (df_select_total _ _ Hfour) as (table10 & Htable10 & Htc10 & Htl10).
  exists filtered, table,
    (map (fun r : gmap string cell => VFloat (key_of r)) (rows filtered)),
    table10.
  split; [exact Hfilters|]. split.
  - apply (main_to_the_end lower argsort w inp df filtered table _ table10 _
             shown Hload (df_not_empty df _ Hrows Htotal) Hfilters Htable
             Hvalues Htop Htable10).
  - split; [exact Htc|]. split; [exact Htl|].
    split; [apply length_map|]. split; [exact Htc10|].
    rewrite Htl10. simpl. rewrite length_take, (Permutation_length Hperm).
    reflexivity.
Qed.

Lemma page_is_shown_whole_witness :
  exists filtered table values table10,
    apply_filters ascii_lower sample_loaded
      (mkInputs LABELS (F64.decimal 2 1, F64.decimal 73 1) (u "银行"))
    = Ok filtered /\
    run (main ascii_lower stable_argsort sample_world
           (mkInputs LABELS (F64.decimal 2 1, F64.decimal 73 1) (u "银行")))
    = (Ok tt, [st_title; st_markdown] ++ [st_success (Loaded 4)]
                ++ [st_subheader (QueryResults (length (rows filtered)));
                    st_dataframe table;
                    st_subheader Distribution;
                    st_pyplot values;
                    st_subheader Top10;
                    st_dataframe table10]) /\
    columns table
      = ["股票代码"; "企业名称"; "行业"; "数字化转型指数"; "总词频数"]%string /\
    length (rows table) = length (rows filtered) /\
    length values = length (rows filtered) /\
    columns table10 = ["股票代码"; "企业名称"; "行业"; "数字化转型指数"]%string /\
    length (rows table10) = Nat.min 10 (length (rows filtered)).
Proof.
  apply (page_is_shown_whole ascii_lower stable_argsort sample_world _
           sample_loaded _ sample_loads).
  - discriminate.
  - exact stable_argsort_sorts.
  - exact (proj1 sample_text_columns).
  - apply list_elem_of_In. vm_compute. tauto.
  - repeat constructor.
Defined.
